(** * InvoiceAI: the chat command router and its session state

    A shallow embedding of the dashboard's chat handlers
    (handleChatCommand, handleSendMessage, handleProcessInvoice, the
    camera and upload handlers), of the invoice table's confidence badge,
    and of the upload client, with the properties the specification
    states about them. *)

From Stdlib Require Import String Ascii DecimalString.
From Stdlib Require Import List Bool Arith NArith ZArith QArith Qround Qabs Lia Lqa.
Import ListNotations.

Close Scope Q_scope.

Set Implicit Arguments.

(** ** JavaScript strings

    A JavaScript string is a sequence of UTF-16 code units. *)

Module JS.

Local Open Scope N_scope.

Definition jsstring := list N.

(** *** Reading a source literal

    The file is UTF-8: a literal is decoded to code points, escapes
    [\n], [\\] and [\xHH] are read as JavaScript reads them, and code
    points above the basic plane become surrogate pairs.  A double quote
    inside a literal is written [\x22]. *)

Fixpoint utf8_decode (bs : list N) (acc : N) (need : nat) : list N :=
  match bs with
  | [] => []
  | b :: bs' =>
      match need with
      | O =>
          if b <? 128 then b :: utf8_decode bs' 0 O
          else if b <? 224 then utf8_decode bs' (b - 192) 1%nat
          else if b <? 240 then utf8_decode bs' (b - 224) 2%nat
          else utf8_decode bs' (b - 240) 3%nat
      | S O => (acc * 64 + (b - 128)) :: utf8_decode bs' 0 O
      | S n => utf8_decode bs' (acc * 64 + (b - 128)) n
      end
  end.

Definition hexDigit (c : N) : N :=
  if (48 <=? c) && (c <=? 57) then c - 48
  else if (97 <=? c) && (c <=? 102) then c - 87
  else if (65 <=? c) && (c <=? 70) then c - 55
  else 0.

Fixpoint unescape (s : list N) : list N :=
  match s with
  | 92 :: 110 :: r => 10 :: unescape r
  | 92 :: 92 :: r => 92 :: unescape r
  | 92 :: 120 :: h1 :: h2 :: r => (16 * hexDigit h1 + hexDigit h2) :: unescape r
  | c :: r => c :: unescape r
  | [] => []
  end.

Definition utf16 (cp : N) : list N :=
  if cp <? 65536 then [cp]
  else [55296 + (cp - 65536) / 1024; 56320 + (cp - 65536) mod 1024].

Definition js (lit : string) : jsstring :=
  flat_map utf16
    (unescape (utf8_decode (map N_of_ascii (list_ascii_of_string lit)) 0 O)).

(** *** String.prototype.includes *)

Fixpoint startsWith (s p : jsstring) : bool :=
  match p, s with
  | [], _ => true
  | _ :: _, [] => false
  | a :: p', b :: s' => (a =? b) && startsWith s' p'
  end.

Fixpoint includes (s p : jsstring) : bool :=
  startsWith s p ||
  match s with
  | [] => false
  | _ :: s' => includes s' p
  end.

(** *** String.prototype.trim

    White space and line terminators of ECMAScript. *)

Definition isWhiteSpace (c : N) : bool :=
  (c =? 9) || (c =? 10) || (c =? 11) || (c =? 12) || (c =? 13) ||
  (c =? 32) || (c =? 160) || (c =? 5760) ||
  ((8192 <=? c) && (c <=? 8202)) ||
  (c =? 8232) || (c =? 8233) || (c =? 8239) || (c =? 8287) ||
  (c =? 12288) || (c =? 65279).

Fixpoint trimStart (s : jsstring) : jsstring :=
  match s with
  | [] => []
  | c :: s' => if isWhiteSpace c then trimStart s' else s
  end.

Definition trimEnd (s : jsstring) : jsstring := rev (trimStart (rev s)).

Definition trim (s : jsstring) : jsstring := trimEnd (trimStart s).

(** *** String.prototype.toLowerCase

    ECMAScript reads the string as code points (a leading surrogate
    followed by a trailing one is one code point, any other code unit is
    a code point of its own), applies the lower-case conversion of the
    Unicode Standard (section 3.13: the mappings of UnicodeData.txt and
    the mappings of SpecialCasing.txt that depend on no language, and
    the condition Final_Sigma) and writes the result back as code units.
    The tables are those of Unicode 14.0. *)

Definition between (lo hi c : N) : bool := (lo <=? c) && (c <=? hi).

Definition isLeadingSurrogate (c : N) : bool := between 0xD800 0xDBFF c.

Definition isTrailingSurrogate (c : N) : bool := between 0xDC00 0xDFFF c.

Inductive CodePoint :=
  | Single (unit : N)
  | Pair (lead trail : N).

Fixpoint StringToCodePoints (s : jsstring) : list CodePoint :=
  match s with
  | [] => []
  | first :: rest =>
      match rest with
      | second :: rest' =>
          if isLeadingSurrogate first && isTrailingSurrogate second
          then Pair first second :: StringToCodePoints rest'
          else Single first :: StringToCodePoints rest
      | [] => [Single first]
      end
  end.

Definition codePointValue (p : CodePoint) : N :=
  match p with
  | Single unit => unit
  | Pair lead trail => 0x10000 + (lead - 0xD800) * 0x400 + (trail - 0xDC00)
  end.

Definition codeUnits (p : CodePoint) : jsstring :=
  match p with
  | Single unit => [unit]
  | Pair lead trail => [lead; trail]
  end.

(** The lower-case mapping of the code points of a range: a fixed
    distance up or down, the next code point for the even or for the odd
    code points of the range (the others have no mapping), or a given
    sequence. *)
Inductive Rule :=
  | Up (distance : N)
  | Down (distance : N)
  | Even
  | Odd
  | Into (mapping : list N).

Definition lowerRules : list (N * N * Rule) :=
  [(0x0041, 0x005A, Up 32); (0x00C0, 0x00D6, Up 32); (0x00D8, 0x00DE, Up 32);
   (0x0100, 0x012E, Even); (0x0130, 0x0130, Into [0x0069; 0x0307]); (0x0132, 0x0136, Even);
   (0x0139, 0x0147, Odd); (0x014A, 0x0176, Even); (0x0178, 0x0178, Down 121);
   (0x0179, 0x017D, Odd); (0x0181, 0x0181, Up 210); (0x0182, 0x0184, Even);
   (0x0186, 0x0186, Up 206); (0x0187, 0x0187, Up 1); (0x0189, 0x018A, Up 205);
   (0x018B, 0x018B, Up 1); (0x018E, 0x018E, Up 79); (0x018F, 0x018F, Up 202);
   (0x0190, 0x0190, Up 203); (0x0191, 0x0191, Up 1); (0x0193, 0x0193, Up 205);
   (0x0194, 0x0194, Up 207); (0x0196, 0x0196, Up 211); (0x0197, 0x0197, Up 209);
   (0x0198, 0x0198, Up 1); (0x019C, 0x019C, Up 211); (0x019D, 0x019D, Up 213);
   (0x019F, 0x019F, Up 214); (0x01A0, 0x01A4, Even); (0x01A6, 0x01A6, Up 218);
   (0x01A7, 0x01A7, Up 1); (0x01A9, 0x01A9, Up 218); (0x01AC, 0x01AC, Up 1);
   (0x01AE, 0x01AE, Up 218); (0x01AF, 0x01AF, Up 1); (0x01B1, 0x01B2, Up 217);
   (0x01B3, 0x01B5, Odd); (0x01B7, 0x01B7, Up 219); (0x01B8, 0x01B8, Up 1);
   (0x01BC, 0x01BC, Up 1); (0x01C4, 0x01C4, Up 2); (0x01C5, 0x01C5, Up 1);
   (0x01C7, 0x01C7, Up 2); (0x01C8, 0x01C8, Up 1); (0x01CA, 0x01CA, Up 2);
   (0x01CB, 0x01DB, Odd); (0x01DE, 0x01EE, Even); (0x01F1, 0x01F1, Up 2);
   (0x01F2, 0x01F4, Even); (0x01F6, 0x01F6, Down 97); (0x01F7, 0x01F7, Down 56);
   (0x01F8, 0x021E, Even); (0x0220, 0x0220, Down 130); (0x0222, 0x0232, Even);
   (0x023A, 0x023A, Up 10795); (0x023B, 0x023B, Up 1); (0x023D, 0x023D, Down 163);
   (0x023E, 0x023E, Up 10792); (0x0241, 0x0241, Up 1); (0x0243, 0x0243, Down 195);
   (0x0244, 0x0244, Up 69); (0x0245, 0x0245, Up 71); (0x0246, 0x024E, Even);
   (0x0370, 0x0372, Even); (0x0376, 0x0376, Up 1); (0x037F, 0x037F, Up 116);
   (0x0386, 0x0386, Up 38); (0x0388, 0x038A, Up 37); (0x038C, 0x038C, Up 64);
   (0x038E, 0x038F, Up 63); (0x0391, 0x03A1, Up 32); (0x03A3, 0x03AB, Up 32);
   (0x03CF, 0x03CF, Up 8); (0x03D8, 0x03EE, Even); (0x03F4, 0x03F4, Down 60);
   (0x03F7, 0x03F7, Up 1); (0x03F9, 0x03F9, Down 7); (0x03FA, 0x03FA, Up 1);
   (0x03FD, 0x03FF, Down 130); (0x0400, 0x040F, Up 80); (0x0410, 0x042F, Up 32);
   (0x0460, 0x0480, Even); (0x048A, 0x04BE, Even); (0x04C0, 0x04C0, Up 15);
   (0x04C1, 0x04CD, Odd); (0x04D0, 0x052E, Even); (0x0531, 0x0556, Up 48);
   (0x10A0, 0x10C5, Up 7264); (0x10C7, 0x10C7, Up 7264); (0x10CD, 0x10CD, Up 7264);
   (0x13A0, 0x13EF, Up 38864); (0x13F0, 0x13F5, Up 8); (0x1C90, 0x1CBA, Down 3008);
   (0x1CBD, 0x1CBF, Down 3008); (0x1E00, 0x1E94, Even); (0x1E9E, 0x1E9E, Down 7615);
   (0x1EA0, 0x1EFE, Even); (0x1F08, 0x1F0F, Down 8); (0x1F18, 0x1F1D, Down 8);
   (0x1F28, 0x1F2F, Down 8); (0x1F38, 0x1F3F, Down 8); (0x1F48, 0x1F4D, Down 8);
   (0x1F59, 0x1F59, Down 8); (0x1F5B, 0x1F5B, Down 8); (0x1F5D, 0x1F5D, Down 8);
   (0x1F5F, 0x1F5F, Down 8); (0x1F68, 0x1F6F, Down 8); (0x1F88, 0x1F8F, Down 8);
   (0x1F98, 0x1F9F, Down 8); (0x1FA8, 0x1FAF, Down 8); (0x1FB8, 0x1FB9, Down 8);
   (0x1FBA, 0x1FBB, Down 74); (0x1FBC, 0x1FBC, Down 9); (0x1FC8, 0x1FCB, Down 86);
   (0x1FCC, 0x1FCC, Down 9); (0x1FD8, 0x1FD9, Down 8); (0x1FDA, 0x1FDB, Down 100);
   (0x1FE8, 0x1FE9, Down 8); (0x1FEA, 0x1FEB, Down 112); (0x1FEC, 0x1FEC, Down 7);
   (0x1FF8, 0x1FF9, Down 128); (0x1FFA, 0x1FFB, Down 126); (0x1FFC, 0x1FFC, Down 9);
   (0x2126, 0x2126, Down 7517); (0x212A, 0x212A, Down 8383); (0x212B, 0x212B, Down 8262);
   (0x2132, 0x2132, Up 28); (0x2160, 0x216F, Up 16); (0x2183, 0x2183, Up 1);
   (0x24B6, 0x24CF, Up 26); (0x2C00, 0x2C2F, Up 48); (0x2C60, 0x2C60, Up 1);
   (0x2C62, 0x2C62, Down 10743); (0x2C63, 0x2C63, Down 3814); (0x2C64, 0x2C64, Down 10727);
   (0x2C67, 0x2C6B, Odd); (0x2C6D, 0x2C6D, Down 10780); (0x2C6E, 0x2C6E, Down 10749);
   (0x2C6F, 0x2C6F, Down 10783); (0x2C70, 0x2C70, Down 10782); (0x2C72, 0x2C72, Up 1);
   (0x2C75, 0x2C75, Up 1); (0x2C7E, 0x2C7F, Down 10815); (0x2C80, 0x2CE2, Even);
   (0x2CEB, 0x2CED, Odd); (0x2CF2, 0x2CF2, Up 1); (0xA640, 0xA66C, Even);
   (0xA680, 0xA69A, Even); (0xA722, 0xA72E, Even); (0xA732, 0xA76E, Even);
   (0xA779, 0xA77B, Odd); (0xA77D, 0xA77D, Down 35332); (0xA77E, 0xA786, Even);
   (0xA78B, 0xA78B, Up 1); (0xA78D, 0xA78D, Down 42280); (0xA790, 0xA792, Even);
   (0xA796, 0xA7A8, Even); (0xA7AA, 0xA7AA, Down 42308); (0xA7AB, 0xA7AB, Down 42319);
   (0xA7AC, 0xA7AC, Down 42315); (0xA7AD, 0xA7AD, Down 42305);
   (0xA7AE, 0xA7AE, Down 42308); (0xA7B0, 0xA7B0, Down 42258);
   (0xA7B1, 0xA7B1, Down 42282); (0xA7B2, 0xA7B2, Down 42261); (0xA7B3, 0xA7B3, Up 928);
   (0xA7B4, 0xA7C2, Even); (0xA7C4, 0xA7C4, Down 48); (0xA7C5, 0xA7C5, Down 42307);
   (0xA7C6, 0xA7C6, Down 35384); (0xA7C7, 0xA7C9, Odd); (0xA7D0, 0xA7D0, Up 1);
   (0xA7D6, 0xA7D8, Even); (0xA7F5, 0xA7F5, Up 1); (0xFF21, 0xFF3A, Up 32);
   (0x10400, 0x10427, Up 40); (0x104B0, 0x104D3, Up 40); (0x10570, 0x1057A, Up 39);
   (0x1057C, 0x1058A, Up 39); (0x1058C, 0x10592, Up 39); (0x10594, 0x10595, Up 39);
   (0x10C80, 0x10CB2, Up 64); (0x118A0, 0x118BF, Up 32); (0x16E40, 0x16E5F, Up 32);
   (0x1E900, 0x1E921, Up 34)].

Fixpoint findRule (c : N) (rules : list (N * N * Rule)) : option Rule :=
  match rules with
  | [] => None
  | (lo, hi, rule) :: rest =>
      if c <? lo then None
      else if c <=? hi then Some rule
      else findRule c rest
  end.

(** The lower-case mapping of a code point; [None] when it has none. *)
Definition lowercaseMapping (c : N) : option (list N) :=
  match findRule c lowerRules with
  | Some (Up distance) => Some [c + distance]
  | Some (Down distance) => Some [c - distance]
  | Some Even => if N.even c then Some [c + 1] else None
  | Some Odd => if N.odd c then Some [c + 1] else None
  | Some (Into mapping) => Some mapping
  | None => None
  end.

(** The properties Cased and Case_Ignorable. *)

Definition casedRanges : list (N * N) :=
  [(0x0041, 0x005A); (0x0061, 0x007A); (0x00AA, 0x00AA); (0x00B5, 0x00B5);
   (0x00BA, 0x00BA); (0x00C0, 0x00D6); (0x00D8, 0x00F6); (0x00F8, 0x01BA);
   (0x01BC, 0x01BF); (0x01C4, 0x0293); (0x0295, 0x02B8); (0x02C0, 0x02C1);
   (0x02E0, 0x02E4); (0x0345, 0x0345); (0x0370, 0x0373); (0x0376, 0x0377);
   (0x037A, 0x037D); (0x037F, 0x037F); (0x0386, 0x0386); (0x0388, 0x038A);
   (0x038C, 0x038C); (0x038E, 0x03A1); (0x03A3, 0x03F5); (0x03F7, 0x0481);
   (0x048A, 0x052F); (0x0531, 0x0556); (0x0560, 0x0588); (0x10A0, 0x10C5);
   (0x10C7, 0x10C7); (0x10CD, 0x10CD); (0x10D0, 0x10FA); (0x10FD, 0x10FF);
   (0x13A0, 0x13F5); (0x13F8, 0x13FD); (0x1C80, 0x1C88); (0x1C90, 0x1CBA);
   (0x1CBD, 0x1CBF); (0x1D00, 0x1DBF); (0x1E00, 0x1F15); (0x1F18, 0x1F1D);
   (0x1F20, 0x1F45); (0x1F48, 0x1F4D); (0x1F50, 0x1F57); (0x1F59, 0x1F59);
   (0x1F5B, 0x1F5B); (0x1F5D, 0x1F5D); (0x1F5F, 0x1F7D); (0x1F80, 0x1FB4);
   (0x1FB6, 0x1FBC); (0x1FBE, 0x1FBE); (0x1FC2, 0x1FC4); (0x1FC6, 0x1FCC);
   (0x1FD0, 0x1FD3); (0x1FD6, 0x1FDB); (0x1FE0, 0x1FEC); (0x1FF2, 0x1FF4);
   (0x1FF6, 0x1FFC); (0x2071, 0x2071); (0x207F, 0x207F); (0x2090, 0x209C);
   (0x2102, 0x2102); (0x2107, 0x2107); (0x210A, 0x2113); (0x2115, 0x2115);
   (0x2119, 0x211D); (0x2124, 0x2124); (0x2126, 0x2126); (0x2128, 0x2128);
   (0x212A, 0x212D); (0x212F, 0x2134); (0x2139, 0x2139); (0x213C, 0x213F);
   (0x2145, 0x2149); (0x214E, 0x214E); (0x2160, 0x217F); (0x2183, 0x2184);
   (0x24B6, 0x24E9); (0x2C00, 0x2CE4); (0x2CEB, 0x2CEE); (0x2CF2, 0x2CF3);
   (0x2D00, 0x2D25); (0x2D27, 0x2D27); (0x2D2D, 0x2D2D); (0xA640, 0xA66D);
   (0xA680, 0xA69D); (0xA722, 0xA787); (0xA78B, 0xA78E); (0xA790, 0xA7CA);
   (0xA7D0, 0xA7D1); (0xA7D3, 0xA7D3); (0xA7D5, 0xA7D9); (0xA7F5, 0xA7F6);
   (0xA7F8, 0xA7FA); (0xAB30, 0xAB5A); (0xAB5C, 0xAB68); (0xAB70, 0xABBF);
   (0xFB00, 0xFB06); (0xFB13, 0xFB17); (0xFF21, 0xFF3A); (0xFF41, 0xFF5A);
   (0x10400, 0x1044F); (0x104B0, 0x104D3); (0x104D8, 0x104FB); (0x10570, 0x1057A);
   (0x1057C, 0x1058A); (0x1058C, 0x10592); (0x10594, 0x10595); (0x10597, 0x105A1);
   (0x105A3, 0x105B1); (0x105B3, 0x105B9); (0x105BB, 0x105BC); (0x10780, 0x10780);
   (0x10783, 0x10785); (0x10787, 0x107B0); (0x107B2, 0x107BA); (0x10C80, 0x10CB2);
   (0x10CC0, 0x10CF2); (0x118A0, 0x118DF); (0x16E40, 0x16E7F); (0x1D400, 0x1D454);
   (0x1D456, 0x1D49C); (0x1D49E, 0x1D49F); (0x1D4A2, 0x1D4A2); (0x1D4A5, 0x1D4A6);
   (0x1D4A9, 0x1D4AC); (0x1D4AE, 0x1D4B9); (0x1D4BB, 0x1D4BB); (0x1D4BD, 0x1D4C3);
   (0x1D4C5, 0x1D505); (0x1D507, 0x1D50A); (0x1D50D, 0x1D514); (0x1D516, 0x1D51C);
   (0x1D51E, 0x1D539); (0x1D53B, 0x1D53E); (0x1D540, 0x1D544); (0x1D546, 0x1D546);
   (0x1D54A, 0x1D550); (0x1D552, 0x1D6A5); (0x1D6A8, 0x1D6C0); (0x1D6C2, 0x1D6DA);
   (0x1D6DC, 0x1D6FA); (0x1D6FC, 0x1D714); (0x1D716, 0x1D734); (0x1D736, 0x1D74E);
   (0x1D750, 0x1D76E); (0x1D770, 0x1D788); (0x1D78A, 0x1D7A8); (0x1D7AA, 0x1D7C2);
   (0x1D7C4, 0x1D7CB); (0x1DF00, 0x1DF09); (0x1DF0B, 0x1DF1E); (0x1E900, 0x1E943);
   (0x1F130, 0x1F149); (0x1F150, 0x1F169); (0x1F170, 0x1F189)].

Definition caseIgnorableRanges : list (N * N) :=
  [(0x0027, 0x0027); (0x002E, 0x002E); (0x003A, 0x003A); (0x005E, 0x005E);
   (0x0060, 0x0060); (0x00A8, 0x00A8); (0x00AD, 0x00AD); (0x00AF, 0x00AF);
   (0x00B4, 0x00B4); (0x00B7, 0x00B8); (0x02B0, 0x036F); (0x0374, 0x0375);
   (0x037A, 0x037A); (0x0384, 0x0385); (0x0387, 0x0387); (0x0483, 0x0489);
   (0x0559, 0x0559); (0x055F, 0x055F); (0x0591, 0x05BD); (0x05BF, 0x05BF);
   (0x05C1, 0x05C2); (0x05C4, 0x05C5); (0x05C7, 0x05C7); (0x05F4, 0x05F4);
   (0x0600, 0x0605); (0x0610, 0x061A); (0x061C, 0x061C); (0x0640, 0x0640);
   (0x064B, 0x065F); (0x0670, 0x0670); (0x06D6, 0x06DD); (0x06DF, 0x06E8);
   (0x06EA, 0x06ED); (0x070F, 0x070F); (0x0711, 0x0711); (0x0730, 0x074A);
   (0x07A6, 0x07B0); (0x07EB, 0x07F5); (0x07FA, 0x07FA); (0x07FD, 0x07FD);
   (0x0816, 0x082D); (0x0859, 0x085B); (0x0888, 0x0888); (0x0890, 0x0891);
   (0x0898, 0x089F); (0x08C9, 0x0902); (0x093A, 0x093A); (0x093C, 0x093C);
   (0x0941, 0x0948); (0x094D, 0x094D); (0x0951, 0x0957); (0x0962, 0x0963);
   (0x0971, 0x0971); (0x0981, 0x0981); (0x09BC, 0x09BC); (0x09C1, 0x09C4);
   (0x09CD, 0x09CD); (0x09E2, 0x09E3); (0x09FE, 0x09FE); (0x0A01, 0x0A02);
   (0x0A3C, 0x0A3C); (0x0A41, 0x0A42); (0x0A47, 0x0A48); (0x0A4B, 0x0A4D);
   (0x0A51, 0x0A51); (0x0A70, 0x0A71); (0x0A75, 0x0A75); (0x0A81, 0x0A82);
   (0x0ABC, 0x0ABC); (0x0AC1, 0x0AC5); (0x0AC7, 0x0AC8); (0x0ACD, 0x0ACD);
   (0x0AE2, 0x0AE3); (0x0AFA, 0x0AFF); (0x0B01, 0x0B01); (0x0B3C, 0x0B3C);
   (0x0B3F, 0x0B3F); (0x0B41, 0x0B44); (0x0B4D, 0x0B4D); (0x0B55, 0x0B56);
   (0x0B62, 0x0B63); (0x0B82, 0x0B82); (0x0BC0, 0x0BC0); (0x0BCD, 0x0BCD);
   (0x0C00, 0x0C00); (0x0C04, 0x0C04); (0x0C3C, 0x0C3C); (0x0C3E, 0x0C40);
   (0x0C46, 0x0C48); (0x0C4A, 0x0C4D); (0x0C55, 0x0C56); (0x0C62, 0x0C63);
   (0x0C81, 0x0C81); (0x0CBC, 0x0CBC); (0x0CBF, 0x0CBF); (0x0CC6, 0x0CC6);
   (0x0CCC, 0x0CCD); (0x0CE2, 0x0CE3); (0x0D00, 0x0D01); (0x0D3B, 0x0D3C);
   (0x0D41, 0x0D44); (0x0D4D, 0x0D4D); (0x0D62, 0x0D63); (0x0D81, 0x0D81);
   (0x0DCA, 0x0DCA); (0x0DD2, 0x0DD4); (0x0DD6, 0x0DD6); (0x0E31, 0x0E31);
   (0x0E34, 0x0E3A); (0x0E46, 0x0E4E); (0x0EB1, 0x0EB1); (0x0EB4, 0x0EBC);
   (0x0EC6, 0x0EC6); (0x0EC8, 0x0ECD); (0x0F18, 0x0F19); (0x0F35, 0x0F35);
   (0x0F37, 0x0F37); (0x0F39, 0x0F39); (0x0F71, 0x0F7E); (0x0F80, 0x0F84);
   (0x0F86, 0x0F87); (0x0F8D, 0x0F97); (0x0F99, 0x0FBC); (0x0FC6, 0x0FC6);
   (0x102D, 0x1030); (0x1032, 0x1037); (0x1039, 0x103A); (0x103D, 0x103E);
   (0x1058, 0x1059); (0x105E, 0x1060); (0x1071, 0x1074); (0x1082, 0x1082);
   (0x1085, 0x1086); (0x108D, 0x108D); (0x109D, 0x109D); (0x10FC, 0x10FC);
   (0x135D, 0x135F); (0x1712, 0x1714); (0x1732, 0x1733); (0x1752, 0x1753);
   (0x1772, 0x1773); (0x17B4, 0x17B5); (0x17B7, 0x17BD); (0x17C6, 0x17C6);
   (0x17C9, 0x17D3); (0x17D7, 0x17D7); (0x17DD, 0x17DD); (0x180B, 0x180F);
   (0x1843, 0x1843); (0x1885, 0x1886); (0x18A9, 0x18A9); (0x1920, 0x1922);
   (0x1927, 0x1928); (0x1932, 0x1932); (0x1939, 0x193B); (0x1A17, 0x1A18);
   (0x1A1B, 0x1A1B); (0x1A56, 0x1A56); (0x1A58, 0x1A5E); (0x1A60, 0x1A60);
   (0x1A62, 0x1A62); (0x1A65, 0x1A6C); (0x1A73, 0x1A7C); (0x1A7F, 0x1A7F);
   (0x1AA7, 0x1AA7); (0x1AB0, 0x1ACE); (0x1B00, 0x1B03); (0x1B34, 0x1B34);
   (0x1B36, 0x1B3A); (0x1B3C, 0x1B3C); (0x1B42, 0x1B42); (0x1B6B, 0x1B73);
   (0x1B80, 0x1B81); (0x1BA2, 0x1BA5); (0x1BA8, 0x1BA9); (0x1BAB, 0x1BAD);
   (0x1BE6, 0x1BE6); (0x1BE8, 0x1BE9); (0x1BED, 0x1BED); (0x1BEF, 0x1BF1);
   (0x1C2C, 0x1C33); (0x1C36, 0x1C37); (0x1C78, 0x1C7D); (0x1CD0, 0x1CD2);
   (0x1CD4, 0x1CE0); (0x1CE2, 0x1CE8); (0x1CED, 0x1CED); (0x1CF4, 0x1CF4);
   (0x1CF8, 0x1CF9); (0x1D2C, 0x1D6A); (0x1D78, 0x1D78); (0x1D9B, 0x1DFF);
   (0x1FBD, 0x1FBD); (0x1FBF, 0x1FC1); (0x1FCD, 0x1FCF); (0x1FDD, 0x1FDF);
   (0x1FED, 0x1FEF); (0x1FFD, 0x1FFE); (0x200B, 0x200F); (0x2018, 0x2019);
   (0x2024, 0x2024); (0x2027, 0x2027); (0x202A, 0x202E); (0x2060, 0x2064);
   (0x2066, 0x206F); (0x2071, 0x2071); (0x207F, 0x207F); (0x2090, 0x209C);
   (0x20D0, 0x20F0); (0x2C7C, 0x2C7D); (0x2CEF, 0x2CF1); (0x2D6F, 0x2D6F);
   (0x2D7F, 0x2D7F); (0x2DE0, 0x2DFF); (0x2E2F, 0x2E2F); (0x3005, 0x3005);
   (0x302A, 0x302D); (0x3031, 0x3035); (0x303B, 0x303B); (0x3099, 0x309E);
   (0x30FC, 0x30FE); (0xA015, 0xA015); (0xA4F8, 0xA4FD); (0xA60C, 0xA60C);
   (0xA66F, 0xA672); (0xA674, 0xA67D); (0xA67F, 0xA67F); (0xA69C, 0xA69F);
   (0xA6F0, 0xA6F1); (0xA700, 0xA721); (0xA770, 0xA770); (0xA788, 0xA78A);
   (0xA7F2, 0xA7F4); (0xA7F8, 0xA7F9); (0xA802, 0xA802); (0xA806, 0xA806);
   (0xA80B, 0xA80B); (0xA825, 0xA826); (0xA82C, 0xA82C); (0xA8C4, 0xA8C5);
   (0xA8E0, 0xA8F1); (0xA8FF, 0xA8FF); (0xA926, 0xA92D); (0xA947, 0xA951);
   (0xA980, 0xA982); (0xA9B3, 0xA9B3); (0xA9B6, 0xA9B9); (0xA9BC, 0xA9BD);
   (0xA9CF, 0xA9CF); (0xA9E5, 0xA9E6); (0xAA29, 0xAA2E); (0xAA31, 0xAA32);
   (0xAA35, 0xAA36); (0xAA43, 0xAA43); (0xAA4C, 0xAA4C); (0xAA70, 0xAA70);
   (0xAA7C, 0xAA7C); (0xAAB0, 0xAAB0); (0xAAB2, 0xAAB4); (0xAAB7, 0xAAB8);
   (0xAABE, 0xAABF); (0xAAC1, 0xAAC1); (0xAADD, 0xAADD); (0xAAEC, 0xAAED);
   (0xAAF3, 0xAAF4); (0xAAF6, 0xAAF6); (0xAB5B, 0xAB5F); (0xAB69, 0xAB6B);
   (0xABE5, 0xABE5); (0xABE8, 0xABE8); (0xABED, 0xABED); (0xFB1E, 0xFB1E);
   (0xFBB2, 0xFBC2); (0xFE00, 0xFE0F); (0xFE13, 0xFE13); (0xFE20, 0xFE2F);
   (0xFE52, 0xFE52); (0xFE55, 0xFE55); (0xFEFF, 0xFEFF); (0xFF07, 0xFF07);
   (0xFF0E, 0xFF0E); (0xFF1A, 0xFF1A); (0xFF3E, 0xFF3E); (0xFF40, 0xFF40);
   (0xFF70, 0xFF70); (0xFF9E, 0xFF9F); (0xFFE3, 0xFFE3); (0xFFF9, 0xFFFB);
   (0x101FD, 0x101FD); (0x102E0, 0x102E0); (0x10376, 0x1037A); (0x10780, 0x10785);
   (0x10787, 0x107B0); (0x107B2, 0x107BA); (0x10A01, 0x10A03); (0x10A05, 0x10A06);
   (0x10A0C, 0x10A0F); (0x10A38, 0x10A3A); (0x10A3F, 0x10A3F); (0x10AE5, 0x10AE6);
   (0x10D24, 0x10D27); (0x10EAB, 0x10EAC); (0x10F46, 0x10F50); (0x10F82, 0x10F85);
   (0x11001, 0x11001); (0x11038, 0x11046); (0x11070, 0x11070); (0x11073, 0x11074);
   (0x1107F, 0x11081); (0x110B3, 0x110B6); (0x110B9, 0x110BA); (0x110BD, 0x110BD);
   (0x110C2, 0x110C2); (0x110CD, 0x110CD); (0x11100, 0x11102); (0x11127, 0x1112B);
   (0x1112D, 0x11134); (0x11173, 0x11173); (0x11180, 0x11181); (0x111B6, 0x111BE);
   (0x111C9, 0x111CC); (0x111CF, 0x111CF); (0x1122F, 0x11231); (0x11234, 0x11234);
   (0x11236, 0x11237); (0x1123E, 0x1123E); (0x112DF, 0x112DF); (0x112E3, 0x112EA);
   (0x11300, 0x11301); (0x1133B, 0x1133C); (0x11340, 0x11340); (0x11366, 0x1136C);
   (0x11370, 0x11374); (0x11438, 0x1143F); (0x11442, 0x11444); (0x11446, 0x11446);
   (0x1145E, 0x1145E); (0x114B3, 0x114B8); (0x114BA, 0x114BA); (0x114BF, 0x114C0);
   (0x114C2, 0x114C3); (0x115B2, 0x115B5); (0x115BC, 0x115BD); (0x115BF, 0x115C0);
   (0x115DC, 0x115DD); (0x11633, 0x1163A); (0x1163D, 0x1163D); (0x1163F, 0x11640);
   (0x116AB, 0x116AB); (0x116AD, 0x116AD); (0x116B0, 0x116B5); (0x116B7, 0x116B7);
   (0x1171D, 0x1171F); (0x11722, 0x11725); (0x11727, 0x1172B); (0x1182F, 0x11837);
   (0x11839, 0x1183A); (0x1193B, 0x1193C); (0x1193E, 0x1193E); (0x11943, 0x11943);
   (0x119D4, 0x119D7); (0x119DA, 0x119DB); (0x119E0, 0x119E0); (0x11A01, 0x11A0A);
   (0x11A33, 0x11A38); (0x11A3B, 0x11A3E); (0x11A47, 0x11A47); (0x11A51, 0x11A56);
   (0x11A59, 0x11A5B); (0x11A8A, 0x11A96); (0x11A98, 0x11A99); (0x11C30, 0x11C36);
   (0x11C38, 0x11C3D); (0x11C3F, 0x11C3F); (0x11C92, 0x11CA7); (0x11CAA, 0x11CB0);
   (0x11CB2, 0x11CB3); (0x11CB5, 0x11CB6); (0x11D31, 0x11D36); (0x11D3A, 0x11D3A);
   (0x11D3C, 0x11D3D); (0x11D3F, 0x11D45); (0x11D47, 0x11D47); (0x11D90, 0x11D91);
   (0x11D95, 0x11D95); (0x11D97, 0x11D97); (0x11EF3, 0x11EF4); (0x13430, 0x13438);
   (0x16AF0, 0x16AF4); (0x16B30, 0x16B36); (0x16B40, 0x16B43); (0x16F4F, 0x16F4F);
   (0x16F8F, 0x16F9F); (0x16FE0, 0x16FE1); (0x16FE3, 0x16FE4); (0x1AFF0, 0x1AFF3);
   (0x1AFF5, 0x1AFFB); (0x1AFFD, 0x1AFFE); (0x1BC9D, 0x1BC9E); (0x1BCA0, 0x1BCA3);
   (0x1CF00, 0x1CF2D); (0x1CF30, 0x1CF46); (0x1D167, 0x1D169); (0x1D173, 0x1D182);
   (0x1D185, 0x1D18B); (0x1D1AA, 0x1D1AD); (0x1D242, 0x1D244); (0x1DA00, 0x1DA36);
   (0x1DA3B, 0x1DA6C); (0x1DA75, 0x1DA75); (0x1DA84, 0x1DA84); (0x1DA9B, 0x1DA9F);
   (0x1DAA1, 0x1DAAF); (0x1E000, 0x1E006); (0x1E008, 0x1E018); (0x1E01B, 0x1E021);
   (0x1E023, 0x1E024); (0x1E026, 0x1E02A); (0x1E130, 0x1E13D); (0x1E2AE, 0x1E2AE);
   (0x1E2EC, 0x1E2EF); (0x1E8D0, 0x1E8D6); (0x1E944, 0x1E94B); (0x1F3FB, 0x1F3FF);
   (0xE0001, 0xE0001); (0xE0020, 0xE007F); (0xE0100, 0xE01EF)].

Fixpoint inRanges (c : N) (ranges : list (N * N)) : bool :=
  match ranges with
  | [] => false
  | (lo, hi) :: rest =>
      if c <? lo then false
      else if c <=? hi then true
      else inRanges c rest
  end.

Definition cased (c : N) : bool := inRanges c casedRanges.

Definition caseIgnorable (c : N) : bool := inRanges c caseIgnorableRanges.

(** Going away from a capital sigma: any case-ignorable code points,
    then a cased letter. *)
Fixpoint casedLetterNext (l : list CodePoint) : bool :=
  match l with
  | [] => false
  | p :: rest =>
      if caseIgnorable (codePointValue p) then casedLetterNext rest
      else cased (codePointValue p)
  end.

(** Final_Sigma: [before] holds the code points before the sigma,
    nearest first, and [after] those after it. *)
Definition finalSigma (before after : list CodePoint) : bool :=
  casedLetterNext before && negb (casedLetterNext after).

Definition capitalSigma : N := 0x3A3.

(** The lower case of one code point of a text. *)
Definition lowerCodePoint (before : list CodePoint) (p : CodePoint)
    (after : list CodePoint) : jsstring :=
  if codePointValue p =? capitalSigma
  then [if finalSigma before after then 0x3C2 else 0x3C3]
  else match lowercaseMapping (codePointValue p) with
       | Some mapping => flat_map utf16 mapping
       | None => codeUnits p
       end.

Fixpoint toLowercase (before text : list CodePoint) : jsstring :=
  match text with
  | [] => []
  | p :: after => lowerCodePoint before p after ++ toLowercase (p :: before) after
  end.

Definition toLowerCase (s : jsstring) : jsstring :=
  toLowercase [] (StringToCodePoints s).

(** JavaScript truthiness of a string: non-empty. *)
Definition truthy (s : jsstring) : bool :=
  match s with [] => false | _ :: _ => true end.

(** Number.prototype.toString for a non-negative integer. *)
Definition digitsOfN (n : N) : jsstring :=
  map N_of_ascii (list_ascii_of_string (NilEmpty.string_of_uint (N.to_uint n))).

Definition digitsOfNat (n : nat) : jsstring := digitsOfN (N.of_nat n).

(** Strict equality of two strings. *)
Fixpoint streq (a b : jsstring) : bool :=
  match a, b with
  | [], [] => true
  | x :: a', y :: b' => (x =? y) && streq a' b'
  | _, _ => false
  end.

(** [s.substring(0, n)]. *)
Definition substring0 (n : nat) (s : jsstring) : jsstring := firstn n s.

(** A template slot filled with a value that may be [undefined]. *)
Definition slot (o : option jsstring) : jsstring :=
  match o with Some s => s | None => js "undefined" end.

(** *** Numbers

    A JavaScript number is modelled by an exact rational or NaN; every
    comparison with NaN is false. *)

Inductive number : Type :=
  | Num (q : Q)
  | NaN.

Definition num_ge (x : number) (q : Q) : bool :=
  match x with Num a => Qle_bool q a | NaN => false end.

Definition num_lt (x : number) (q : Q) : bool :=
  match x with Num a => negb (Qle_bool q a) | NaN => false end.

Definition num_gt (x : number) (q : Q) : bool :=
  match x with Num a => negb (Qle_bool a q) | NaN => false end.

Definition num_mul (x : number) (q : Q) : number :=
  match x with Num a => Num (a * q) | NaN => NaN end.

(** Truthiness of a number: neither zero nor NaN. *)
Definition num_truthy (x : number) : bool :=
  match x with Num a => negb (Qeq_bool a 0) | NaN => false end.

End JS.

Import JS.

(** ** Data of the dashboard *)

Record File := { file_name : jsstring }.

Inductive Sender := user | bot.

Record Message := {
  mid : nat;
  text : jsstring;
  sender : Sender;
  time : jsstring
}.

Inductive View := dashboard | invoices.

(** One line item of an invoice, as the chat renders it. *)
Record Item := {
  item_name : option jsstring;
  item_description : option jsstring;
  item_quantity : option number;
  item_price : option number;
  item_amount : option number
}.

(** [invoice.items] arrives as an array or as a JSON string. *)
Inductive Items :=
  | ItemsArray (l : list Item)
  | ItemsString (s : jsstring).

(** interface Invoice of the invoice table; the chat reads the same
    fields from the server's JSON. *)
Record Invoice := {
  inv_id : nat;
  invoice_code : jsstring;
  date : jsstring;
  buyer_name : jsstring;
  seller_name : jsstring;
  total_amount : jsstring;
  total_amount_value : number;
  subtotal : option number;
  tax_amount : option number;
  tax_percentage : option number;
  currency : option jsstring;
  buyer_address : option jsstring;
  seller_address : option jsstring;
  buyer_tax_id : option jsstring;
  seller_tax_id : option jsstring;
  invoice_type : jsstring;
  items : option Items;
  confidence : number;
  ocr_method : option jsstring;
  filename : option jsstring;
  status : jsstring;
  processed_at : jsstring;
  file_path : option jsstring
}.

(** *** What the server answers *)

(** A [fetch] either rejects, or resolves to a response with its [ok]
    flag and a body; [None] is a body that [response.json()] rejects. *)
Inductive Fetched (A : Type) :=
  | Rejected
  | Response (ok : bool) (body : option A).

Arguments Rejected {A}.

Record ChatData := { response_text : jsstring }.

Record InvoicesBody := {
  body_data : option (list Invoice);
  body_invoices : option (list Invoice)
}.

Record OcrDetails := {
  reason : jsstring;
  instructions : list jsstring;
  download_url : jsstring
}.

Record UploadData := {
  data_status : option jsstring;
  data_error : option jsstring;
  data_message : option jsstring;
  data_details : option OcrDetails;
  data_invoice : option Invoice;
  data_ocr_text : option jsstring
}.

(** Calls that leave the page. *)
Inductive Call :=
  | PostChat (message : jsstring)
  | GetInvoices
  | PostUpload (file : option File)
  | GetUserMedia
  | Alert (message : jsstring).

(** The world outside the component: the clock, the three endpoints, the
    camera and the canvas. *)
Record World := {
  clock : jsstring;
  dateNow : N;
  chatApi : jsstring -> Fetched ChatData;
  invoicesApi : Fetched InvoicesBody;
  uploadApi : option File -> Fetched UploadData;
  cameraGranted : bool;
  context2d : bool;
  blobMade : bool
}.

(** Number formatting and JSON parsing of the runtime. *)
Record Runtime := {
  toFixed : nat -> number -> jsstring;
  toLocaleString : number -> jsstring;
  numberToString : number -> jsstring;
  JSON_parse : jsstring -> option (list Item)
}.

(** *** State of UserDashboard

    The [useState] cells of the component, the video element behind
    [videoRef] ([None] while it is not mounted, else whether [srcObject]
    holds a stream), the value of the file input, and the log of calls. *)
Record Dashboard := {
  currentView : View;
  messages : list Message;
  inputMessage : jsstring;
  uploadedFile : option File;
  cameraActive : bool;
  isTyping : bool;
  isProcessing : bool;
  showQuickSuggestions : bool;
  videoRef : option bool;
  fileInputValue : jsstring;
  calls : list Call
}.

Definition initialDashboard : Dashboard :=
  {| currentView := dashboard;
     messages :=
       [ {| mid := 1;
            text := js "👋 Xin chào! Tôi là trợ lý AI của Invoice Manager.\n\n💡 Gõ \x22Chatbot có thể làm gì?\x22 để xem tất cả chức năng tôi có thể giúp bạn!";
            sender := bot;
            time := js "10:30" |} ];
     inputMessage := [];
     uploadedFile := None;
     cameraActive := false;
     isTyping := false;
     isProcessing := false;
     showQuickSuggestions := false;
     videoRef := None;
     fileInputValue := [];
     calls := [] |}.

(** ** Effects: state, exceptions *)

Inductive Exn :=
  | Error (message : jsstring)
  | TypeError
  | FetchError.

Inductive Res (A : Type) :=
  | Ok (a : A)
  | Throw (e : Exn).

Arguments Throw {A}.

Definition Eff (A : Type) : Type := Dashboard -> Res A * Dashboard.

Definition ret {A} (a : A) : Eff A := fun s => (Ok a, s).

Definition bind {A B} (m : Eff A) (k : A -> Eff B) : Eff B :=
  fun s =>
    match m s with
    | (Ok a, s') => k a s'
    | (Throw e, s') => (Throw e, s')
    end.

Definition throw {A} (e : Exn) : Eff A := fun s => (Throw e, s).

Definition tryCatch {A} (body : Eff A) (handler : Exn -> Eff A) : Eff A :=
  fun s =>
    match body s with
    | (Ok a, s') => (Ok a, s')
    | (Throw e, s') => handler e s'
    end.

Definition finally {A} (body : Eff A) (cleanup : Eff unit) : Eff A :=
  fun s =>
    match body s with
    | (r, s') =>
        match cleanup s' with
        | (Ok _, s'') => (r, s'')
        | (Throw e, s'') => (Throw e, s'')
        end
    end.

Definition get : Eff Dashboard := fun s => (Ok s, s).

Definition modify (f : Dashboard -> Dashboard) : Eff unit :=
  fun s => (Ok tt, f s).

Declare Scope eff_scope.
Delimit Scope eff_scope with eff.
Notation "x <- m ;; k" := (bind m (fun x => k))
  (at level 61, m at next level, right associativity) : eff_scope.
Notation "m ;; k" := (bind m (fun _ => k))
  (at level 61, right associativity) : eff_scope.
Open Scope eff_scope.

(** The state a handler leaves behind. *)
Definition exec {A} (m : Eff A) (s : Dashboard) : Dashboard := snd (m s).

(** *** The setters of the component *)

Definition setCurrentView (v : View) : Eff unit :=
  modify (fun s =>
    {| currentView := v; messages := messages s; inputMessage := inputMessage s;
       uploadedFile := uploadedFile s; cameraActive := cameraActive s;
       isTyping := isTyping s; isProcessing := isProcessing s;
       showQuickSuggestions := showQuickSuggestions s; videoRef := videoRef s;
       fileInputValue := fileInputValue s; calls := calls s |}).

Definition setMessages (f : list Message -> list Message) : Eff unit :=
  modify (fun s =>
    {| currentView := currentView s; messages := f (messages s);
       inputMessage := inputMessage s;
       uploadedFile := uploadedFile s; cameraActive := cameraActive s;
       isTyping := isTyping s; isProcessing := isProcessing s;
       showQuickSuggestions := showQuickSuggestions s; videoRef := videoRef s;
       fileInputValue := fileInputValue s; calls := calls s |}).

Definition setInputMessage (v : jsstring) : Eff unit :=
  modify (fun s =>
    {| currentView := currentView s; messages := messages s; inputMessage := v;
       uploadedFile := uploadedFile s; cameraActive := cameraActive s;
       isTyping := isTyping s; isProcessing := isProcessing s;
       showQuickSuggestions := showQuickSuggestions s; videoRef := videoRef s;
       fileInputValue := fileInputValue s; calls := calls s |}).

Definition setUploadedFile (v : option File) : Eff unit :=
  modify (fun s =>
    {| currentView := currentView s; messages := messages s;
       inputMessage := inputMessage s;
       uploadedFile := v; cameraActive := cameraActive s;
       isTyping := isTyping s; isProcessing := isProcessing s;
       showQuickSuggestions := showQuickSuggestions s; videoRef := videoRef s;
       fileInputValue := fileInputValue s; calls := calls s |}).

(** The video and the canvas are rendered only while the camera is
    active: turning the flag on mounts the video element, turning it off
    unmounts it. *)
Definition setCameraActive (v : bool) : Eff unit :=
  modify (fun s =>
    {| currentView := currentView s; messages := messages s;
       inputMessage := inputMessage s;
       uploadedFile := uploadedFile s; cameraActive := v;
       isTyping := isTyping s; isProcessing := isProcessing s;
       showQuickSuggestions := showQuickSuggestions s;
       videoRef := if v
                   then match videoRef s with
                        | None => Some false
                        | Some src => Some src
                        end
                   else None;
       fileInputValue := fileInputValue s; calls := calls s |}).

Definition setIsTyping (v : bool) : Eff unit :=
  modify (fun s =>
    {| currentView := currentView s; messages := messages s;
       inputMessage := inputMessage s;
       uploadedFile := uploadedFile s; cameraActive := cameraActive s;
       isTyping := v; isProcessing := isProcessing s;
       showQuickSuggestions := showQuickSuggestions s; videoRef := videoRef s;
       fileInputValue := fileInputValue s; calls := calls s |}).

Definition setIsProcessing (v : bool) : Eff unit :=
  modify (fun s =>
    {| currentView := currentView s; messages := messages s;
       inputMessage := inputMessage s;
       uploadedFile := uploadedFile s; cameraActive := cameraActive s;
       isTyping := isTyping s; isProcessing := v;
       showQuickSuggestions := showQuickSuggestions s; videoRef := videoRef s;
       fileInputValue := fileInputValue s; calls := calls s |}).

Definition setShowQuickSuggestions (v : bool) : Eff unit :=
  modify (fun s =>
    {| currentView := currentView s; messages := messages s;
       inputMessage := inputMessage s;
       uploadedFile := uploadedFile s; cameraActive := cameraActive s;
       isTyping := isTyping s; isProcessing := isProcessing s;
       showQuickSuggestions := v; videoRef := videoRef s;
       fileInputValue := fileInputValue s; calls := calls s |}).

Definition setSrcObject (v : bool) : Eff unit :=
  modify (fun s =>
    {| currentView := currentView s; messages := messages s;
       inputMessage := inputMessage s;
       uploadedFile := uploadedFile s; cameraActive := cameraActive s;
       isTyping := isTyping s; isProcessing := isProcessing s;
       showQuickSuggestions := showQuickSuggestions s;
       videoRef := match videoRef s with None => None | Some _ => Some v end;
       fileInputValue := fileInputValue s; calls := calls s |}).

Definition setFileInputValue (v : jsstring) : Eff unit :=
  modify (fun s =>
    {| currentView := currentView s; messages := messages s;
       inputMessage := inputMessage s;
       uploadedFile := uploadedFile s; cameraActive := cameraActive s;
       isTyping := isTyping s; isProcessing := isProcessing s;
       showQuickSuggestions := showQuickSuggestions s; videoRef := videoRef s;
       fileInputValue := v; calls := calls s |}).

Definition call (c : Call) : Eff unit :=
  modify (fun s =>
    {| currentView := currentView s; messages := messages s;
       inputMessage := inputMessage s;
       uploadedFile := uploadedFile s; cameraActive := cameraActive s;
       isTyping := isTyping s; isProcessing := isProcessing s;
       showQuickSuggestions := showQuickSuggestions s; videoRef := videoRef s;
       fileInputValue := fileInputValue s; calls := calls s ++ [c] |}).

(** [setTimeout(f, ms)]: the state is the one after the timer has fired. *)
Definition setTimeout (f : Eff unit) : Eff unit := f.

(** [await fetch(...)] rejects on a network failure. *)
Definition awaitFetch {A} (r : Fetched A) : Eff (bool * option A) :=
  match r with
  | Rejected => throw FetchError
  | Response ok body => ret (ok, body)
  end.

(** [await response.json()] rejects on a body that is not JSON. *)
Definition awaitJson {A} (body : option A) : Eff A :=
  match body with
  | Some d => ret d
  | None => throw (Error (js "Unexpected end of JSON input"))
  end.

(** Reading a property of [undefined] throws a TypeError. *)
Definition defined {A} (o : option A) : Eff A :=
  match o with
  | Some a => ret a
  | None => throw TypeError
  end.

(** ** The handlers of UserDashboard *)

Section Handlers.

Variable w : World.
Variable rt : Runtime.

Definition mkMessage (n : nat) (t : jsstring) (who : Sender) : Message :=
  {| mid := n; text := t; sender := who; time := clock w |}.

Definition addBotMessage (t : jsstring) : Eff unit :=
  setMessages (fun prev => prev ++ [mkMessage (length prev + 1) t bot]).

Definition addUserMessage (t : jsstring) : Eff unit :=
  setMessages (fun prev => prev ++ [mkMessage (length prev + 1) t user]).

(** *** Reliability icon and type labels of the chat *)

Definition confidenceIcon (c : number) : jsstring :=
  if num_ge c (8 # 10) then js "✅"
  else if num_ge c (6 # 10) then js "⚠️"
  else js "❌".

Definition typeIcon (t : jsstring) : jsstring :=
  if streq t (js "momo_payment") then js "💳"
  else if streq t (js "electricity") then js "⚡"
  else js "📄".

Definition typeName (t : jsstring) : jsstring :=
  if streq t (js "momo_payment") then js "MoMo"
  else if streq t (js "electricity") then js "Điện"
  else js "Khác".

Definition displayLimit : nat := 10.

(** One entry of the list message, [idx] counted from 0. *)
Definition listEntry (idx : nat) (inv : Invoice) : jsstring :=
  js "【" ++ digitsOfNat (idx + 1) ++ js "】 " ++ typeIcon (invoice_type inv)
    ++ js " **" ++ invoice_code inv ++ js "** (" ++ typeName (invoice_type inv)
    ++ js ")  \n"
  ++ js "📅 Ngày: " ++ date inv ++ js "  \n"
  ++ js "🏢 Người bán: " ++ seller_name inv ++ js "  \n"
  ++ js "👤 Người mua: " ++ buyer_name inv ++ js "  \n"
  ++ js "💰 Số tiền: **" ++ total_amount inv ++ js "**  \n"
  ++ confidenceIcon (confidence inv) ++ js " Độ tin cậy: "
    ++ toFixed rt 0 (num_mul (confidence inv) 100) ++ js "%\n\n"
  ++ js "━━━━━━━━━━━━━━━━━━━━\n\n".

Definition displayInvoices (l : list Invoice) : list Invoice :=
  firstn displayLimit l.

Fixpoint forEachIndexed {A} (f : nat -> A -> jsstring) (idx : nat) (l : list A)
  : jsstring :=
  match l with
  | [] => []
  | x :: l' => f idx x ++ forEachIndexed f (S idx) l'
  end.

Definition listMessage (l : list Invoice) : jsstring :=
  let hasMore := displayLimit <? length l in
  js "📋 **Danh sách hóa đơn**\n\n"
  ++ js "━━━━━━━━━━━━━━━━━━━━\n\n"
  ++ js "Tổng: **" ++ digitsOfNat (length l) ++ js "** hóa đơn"
    ++ (if hasMore
        then js " (hiển thị " ++ digitsOfNat displayLimit ++ js " mới nhất)"
        else [])
    ++ js "\n\n"
  ++ forEachIndexed listEntry 0 (displayInvoices l)
  ++ js "💡 Gõ mã hóa đơn để xem chi tiết  \n"
  ++ js "📊 Gõ \x22xuất báo cáo\x22 để xem tất cả".

(** [result.data || result.invoices || []] *)
Definition invoicesOf (b : InvoicesBody) : list Invoice :=
  match body_data b with
  | Some l => l
  | None => match body_invoices b with Some l => l | None => [] end
  end.

Definition handleActionButton (action : jsstring) : Eff unit :=
  addUserMessage action ;;
  setIsTyping true ;;
  tryCatch
    (if includes action (js "Xem danh sách") then
       call GetInvoices ;;
       r <- awaitFetch (invoicesApi w) ;;
       if fst r then
         result <- awaitJson (snd r) ;;
         let l := invoicesOf result in
         setIsTyping false ;;
         if (length l =? 0)%nat then
           addBotMessage (js "📋 **Danh sách hóa đơn**\n\n⚠️ Chưa có hóa đơn nào được xử lý.\n\n💡 Hãy upload hoặc chụp hóa đơn để bắt đầu!")
         else
           addBotMessage (listMessage l)
       else
         throw (Error (js "Failed to fetch invoices"))
     else if includes action (js "Tìm kiếm") then
       setIsTyping false ;;
       addBotMessage (js "🔍 **Tìm kiếm hóa đơn**\n\nVui lòng nhập mã hóa đơn bạn muốn tìm (ví dụ: INV-12345)")
     else if includes action (js "Lọc theo ngày") then
       setIsTyping false ;;
       addBotMessage (js "📅 **Lọc hóa đơn theo ngày**\n\nVui lòng nhập khoảng thời gian (ví dụ: \x22hóa đơn trong tháng 11\x22 hoặc \x22từ 01/11 đến 30/11\x22)")
     else if includes action (js "Xuất báo cáo") then
       setIsTyping false ;;
       addBotMessage (js "📊 **Xuất báo cáo hóa đơn**\n\n🎯 Chuyển đến trang quản lý hóa đơn để:\n\n• ✅ Xem tất cả hóa đơn dạng bảng\n• 🔍 Tìm kiếm và lọc theo ngày/loại\n• 📥 Xuất Excel hoặc PDF\n• ✏️ Chỉnh sửa và xóa hóa đơn\n\n💡 Đang chuyển trang...") ;;
       setTimeout (setCurrentView invoices)
     else if includes action (js "Thống kê") then
       setIsTyping false ;;
       addBotMessage (js "📈 **Thống kê hóa đơn**\n\n📊 Dữ liệu tổng quan:\n• Tổng hóa đơn: 5\n• Đã thanh toán: 2\n• Chờ xử lý: 2\n• Quá hạn: 1\n\n💰 Tổng doanh thu: 8,450,000 VNĐ\n📅 Trung bình: 1,690,000 VNĐ/hóa đơn")
     else ret tt)
    (fun _ =>
       setIsTyping false ;;
       addBotMessage (js "❌ Có lỗi xảy ra. Vui lòng thử lại.")).

(** *** Camera and upload *)

Definition handleStopCamera : Eff unit :=
  s <- get ;;
  (match videoRef s with
   | Some true => setSrcObject false
   | _ => ret tt
   end) ;;
  setCameraActive false.

Definition handleStartCamera : Eff unit :=
  tryCatch
    (setUploadedFile None ;;
     setCameraActive true ;;
     call GetUserMedia ;;
     (if cameraGranted w then ret tt else throw (Error (js "NotAllowedError"))) ;;
     s <- get ;;
     match videoRef s with
     | Some _ => setSrcObject true
     | None => ret tt
     end)
    (fun _ =>
       setCameraActive false ;;
       call (Alert (js "Không thể truy cập camera. Vui lòng cho phép quyền truy cập."))).

Definition cameraFile : File :=
  {| file_name := js "camera-" ++ digitsOfN (dateNow w) ++ js ".jpg" |}.

(** The video and the canvas are siblings of one branch of the page:
    [videoRef.current && canvasRef.current] holds when the video is
    mounted. *)
Definition handleCapturePhoto : Eff unit :=
  s <- get ;;
  match videoRef s with
  | Some _ =>
      if context2d w then
        if blobMade w then
          setUploadedFile (Some cameraFile) ;;
          handleStopCamera
        else ret tt
      else ret tt
  | None => ret tt
  end.

(** [files] is [e.target.files]. *)
Definition handleFileUpload (files : list File) : Eff unit :=
  match files with
  | f :: _ =>
      setUploadedFile (Some f) ;;
      setCameraActive false ;;
      addBotMessage (js "📁 **Đã tải file:** " ++ file_name f ++ js "\n\n💡 Gõ \x22**xử lý**\x22 hoặc nhấn nút \x22Xử lý hóa đơn\x22 để phân tích!")
  | [] => ret tt
  end.

(** *** Processing the pending invoice *)

Definition isSome {A} (o : option A) : bool :=
  match o with Some _ => true | None => false end.

(** [o === lit] for a field that may be absent. *)
Definition fieldIs (o : option jsstring) (lit : jsstring) : bool :=
  match o with Some s => streq s lit | None => false end.

(** Truthiness of an optional string field. *)
Definition present (o : option jsstring) : bool :=
  match o with Some s => truthy s | None => false end.

Definition positive (o : option number) : bool :=
  match o with Some x => num_gt x 0 | None => false end.

Definition nonzero (o : option number) : bool :=
  match o with Some x => num_truthy x | None => false end.

Definition slotNumber (o : option number) : jsstring :=
  match o with Some x => numberToString rt x | None => js "undefined" end.

Definition slotLocale (o : option number) : jsstring :=
  match o with Some x => toLocaleString rt x | None => js "undefined" end.

Definition ocrErrorMessage (data : UploadData) (details : OcrDetails) : jsstring :=
  js "❌ **" ++ slot (data_message data) ++ js "**\n\n"
  ++ js "⚠️ **Lý do:** " ++ reason details ++ js "\n\n"
  ++ js "🔧 **Cách khắc phục:**\n\n"
  ++ flat_map (fun instruction => instruction ++ js "\n") (instructions details)
  ++ js "\n📥 **Link tải:** " ++ download_url details ++ js "\n\n"
  ++ js "💡 **Lưu ý:** Sau khi cài đặt, nhớ restart backend server!".

Definition itemLine (index : nat) (item : Item) : jsstring :=
  digitsOfNat (index + 1) ++ js ". "
  ++ (if present (item_name item) then slot (item_name item)
      else if present (item_description item) then slot (item_description item)
      else js "Không rõ")
  ++ (if nonzero (item_quantity item)
      then js " - SL: " ++ slotNumber (item_quantity item) else [])
  ++ (if nonzero (item_price item)
      then js " - " ++ slotLocale (item_price item) ++ js " VNĐ" else [])
  ++ (if nonzero (item_amount item)
      then js " (Tổng: " ++ slotLocale (item_amount item) ++ js " VNĐ)" else [])
  ++ js "\n".

Definition itemsSection (l : list Item) : jsstring :=
  match l with
  | [] => []
  | _ :: _ => js "\n📦 **Sản phẩm/Dịch vụ:**\n" ++ forEachIndexed itemLine 0 l
  end.

Definition itemsText (o : option Items) : jsstring :=
  match o with
  | Some (ItemsArray l) => itemsSection l
  | Some (ItemsString s) =>
      if truthy s then
        match JSON_parse rt s with
        | Some l => itemsSection l
        | None => []
        end
      else []
  | None => []
  end.

Definition invoiceMessage (data : UploadData) (invoice : Invoice) : jsstring :=
  confidenceIcon (confidence invoice) ++ js " Đã xử lý hóa đơn! (Độ tin cậy: "
    ++ toFixed rt 1 (num_mul (confidence invoice) 100) ++ js "%)\n\n"
  ++ (if num_lt (confidence invoice) (6 # 10)
      then js "⚠️ Lưu ý: Độ tin cậy thấp. Vui lòng kiểm tra lại thông tin.\n\n"
      else [])
  ++ js "📋 **Thông tin hóa đơn:**\n"
  ++ js "• Loại: "
    ++ (if streq (invoice_type invoice) (js "momo_payment") then js "💳 Thanh toán MoMo"
        else if streq (invoice_type invoice) (js "electricity") then js "⚡ Hóa đơn điện"
        else js "📄 Hóa đơn thông thường")
    ++ js "\n"
  ++ js "• Mã số: " ++ invoice_code invoice ++ js "\n"
  ++ js "• Ngày: " ++ date invoice ++ js "\n"
  ++ js "• Người bán: " ++ seller_name invoice ++ js "\n"
  ++ js "• Người mua: " ++ buyer_name invoice ++ js "\n"
  ++ (if present (seller_address invoice)
      then js "• Địa chỉ người bán: " ++ slot (seller_address invoice) ++ js "\n" else [])
  ++ (if present (buyer_address invoice)
      then js "• Địa chỉ người mua: " ++ slot (buyer_address invoice) ++ js "\n" else [])
  ++ (if present (seller_tax_id invoice)
      then js "• MST người bán: " ++ slot (seller_tax_id invoice) ++ js "\n" else [])
  ++ (if present (buyer_tax_id invoice)
      then js "• MST người mua: " ++ slot (buyer_tax_id invoice) ++ js "\n" else [])
  ++ js "\n💰 **Chi tiết thanh toán:**\n"
  ++ (if positive (subtotal invoice)
      then js "• Tổng trước thuế: " ++ slotLocale (subtotal invoice) ++ js " "
             ++ slot (currency invoice) ++ js "\n"
      else [])
  ++ (if positive (tax_amount invoice)
      then js "• Thuế VAT (" ++ slotNumber (tax_percentage invoice) ++ js "%): "
             ++ slotLocale (tax_amount invoice) ++ js " "
             ++ slot (currency invoice) ++ js "\n"
      else [])
  ++ js "• **Tổng cộng: " ++ total_amount invoice ++ js "**\n"
  ++ itemsText (items invoice)
  ++ (if present (data_ocr_text data) && num_lt (confidence invoice) (8 # 10)
      then js "\n📝 **Văn bản OCR (đầu tiên):**\n"
             ++ substring0 200 (slot (data_ocr_text data)) ++ js "...\n"
      else [])
  ++ js "\n💾 Đã lưu vào hệ thống."
  ++ (if num_lt (confidence invoice) (7 # 10)
      then js "\n\n💡 **Gợi ý:** Để cải thiện độ chính xác:\n• Chụp ảnh rõ nét hơn\n• Đảm bảo đủ ánh sáng\n• Giữ camera song song với hóa đơn\n• Cài đặt Tesseract OCR cho kết quả tốt hơn"
      else []).

(** [uploadedFile?.name || 'Ảnh từ camera'] *)
Definition pendingName (f : option File) : jsstring :=
  match f with
  | Some x => if truthy (file_name x) then file_name x else js "Ảnh từ camera"
  | None => js "Ảnh từ camera"
  end.

Definition handleProcessInvoice : Eff unit :=
  st <- get ;;
  if negb (isSome (uploadedFile st)) && negb (cameraActive st) then ret tt
  else
    setIsProcessing true ;;
    addUserMessage (js "Xử lý hóa đơn: " ++ pendingName (uploadedFile st)) ;;
    setIsTyping true ;;
    finally
      (tryCatch
         (call (PostUpload (uploadedFile st)) ;;
          r <- awaitFetch (uploadApi w (uploadedFile st)) ;;
          data <- awaitJson (snd r) ;;
          if fieldIs (data_status data) (js "error")
             && fieldIs (data_error data) (js "OCR_NOT_AVAILABLE")
          then
            setIsTyping false ;;
            details <- defined (data_details data) ;;
            addBotMessage (ocrErrorMessage data details) ;;
            setIsProcessing false
          else
            (if negb (fst r) then throw (Error (js "Upload failed")) else ret tt) ;;
            setIsTyping false ;;
            addBotMessage (js "🔍 Đang phân tích hóa đơn...") ;;
            invoice <- defined (data_invoice data) ;;
            addBotMessage (invoiceMessage data invoice) ;;
            setUploadedFile None ;;
            setFileInputValue [] ;;
            (if cameraActive st then handleStopCamera else ret tt) ;;
            setTimeout
              (addBotMessage (js "📤 **Tiếp theo:**\n\n• Upload file mới\n• Gõ \x22**mở camera**\x22 để chụp tiếp\n• Gõ \x22**xem danh sách**\x22 để xem tất cả hóa đơn")))
         (fun _ =>
            setIsTyping false ;;
            addBotMessage (js "❌ Có lỗi xảy ra khi xử lý hóa đơn. Vui lòng thử lại!")))
      (setIsProcessing false).

(** *** The command router *)

(** [command.toLowerCase().trim()] *)
Definition normalize (command : jsstring) : jsstring :=
  trim (toLowerCase command).

(** The conditions of the router's [if] chain, in the order of the
    source. *)

Definition isViewList (cmd : jsstring) : bool :=
  includes cmd (js "xem")
  && (includes cmd (js "danh sách") || includes cmd (js "hóa đơn")).

Definition isSearch (cmd : jsstring) : bool :=
  includes cmd (js "tìm") && includes cmd (js "hóa đơn").

Definition isExportInvoice (cmd : jsstring) : bool :=
  includes cmd (js "xuất") && includes cmd (js "hóa đơn").

Definition isExportReport (cmd : jsstring) : bool :=
  includes cmd (js "xuất")
  && (includes cmd (js "báo cáo") || includes cmd (js "excel")
      || includes cmd (js "pdf") || includes cmd (js "file")).

Definition isFilterDate (cmd : jsstring) : bool :=
  includes cmd (js "lọc")
  || (includes cmd (js "hóa đơn")
      && (includes cmd (js "ngày") || includes cmd (js "tháng"))
      && negb (includes cmd (js "xuất"))).

Definition isManage (cmd : jsstring) : bool :=
  includes cmd (js "quản lý") && includes cmd (js "hóa đơn").

Definition isStatistics (cmd : jsstring) : bool :=
  includes cmd (js "thống kê") || includes cmd (js "số liệu").

Definition isCameraStart (cmd : jsstring) : bool :=
  includes cmd (js "mở camera") || includes cmd (js "bật camera")
  || includes cmd (js "chụp ảnh").

Definition isCameraStop (cmd : jsstring) : bool :=
  includes cmd (js "đóng camera") || includes cmd (js "tắt camera").

Definition isCapture (cmd : jsstring) (active : bool) : bool :=
  includes cmd (js "chụp") && active.

Definition isProcess (cmd : jsstring) : bool :=
  includes cmd (js "xử lý") || includes cmd (js "phân tích")
  || includes cmd (js "ocr").

Definition isUploadHelp (cmd : jsstring) : bool :=
  includes cmd (js "upload") || includes cmd (js "tải lên").

Definition noFileWarning : jsstring :=
  js "⚠️ **Chưa có hóa đơn để xử lý!**\n\nVui lòng:\n• Gõ \x22mở camera\x22 để chụp ảnh\n• Hoặc upload file từ nút bên trái".

Definition handleChatCommand (command : jsstring) : Eff bool :=
  st <- get ;;
  let cmd := normalize command in
  if isViewList cmd then
    handleActionButton (js "📋 Xem danh sách hóa đơn") ;; ret true
  else if isSearch cmd then
    handleActionButton (js "🔍 Tìm kiếm hóa đơn") ;; ret true
  else if isExportInvoice cmd then
    handleActionButton (js "📊 Xuất báo cáo") ;; ret true
  else if isExportReport cmd then
    handleActionButton (js "📊 Xuất báo cáo") ;; ret true
  else if isFilterDate cmd then
    handleActionButton (js "📅 Lọc theo ngày") ;; ret true
  else if isManage cmd then
    addBotMessage (js "📊 **Đang chuyển đến trang quản lý hóa đơn...**") ;;
    setTimeout (setCurrentView invoices) ;;
    ret true
  else if isStatistics cmd then
    handleActionButton (js "📈 Thống kê") ;; ret true
  else if isCameraStart cmd then
    (if negb (cameraActive st) then
       handleStartCamera ;;
       addBotMessage (js "📷 **Đã mở camera!**\n\nCamera đang hoạt động. Bạn có thể:\n• Gõ \x22chụp ảnh\x22 để chụp\n• Gõ \x22đóng camera\x22 để tắt\n• Gõ \x22xử lý\x22 để xử lý hóa đơn")
     else
       addBotMessage (js "📷 Camera đang mở rồi! Gõ \x22chụp ảnh\x22 hoặc \x22xử lý\x22 để tiếp tục.")) ;;
    ret true
  else if isCameraStop cmd then
    (if cameraActive st then
       handleStopCamera ;;
       addBotMessage (js "📷 **Đã đóng camera!**\n\n💡 Gõ \x22mở camera\x22 để mở lại.")
     else
       addBotMessage (js "📷 Camera chưa được mở.")) ;;
    ret true
  else if isCapture cmd (cameraActive st) then
    handleCapturePhoto ;;
    addBotMessage (js "📸 **Đã chụp ảnh!**\n\nẢnh đã được lưu. Gõ \x22xử lý\x22 hoặc \x22xử lý hóa đơn\x22 để phân tích.") ;;
    ret true
  else if isProcess cmd then
    if isSome (uploadedFile st) || cameraActive st then
      handleProcessInvoice ;; ret true
    else
      addBotMessage noFileWarning ;; ret true
  else if isUploadHelp cmd then
    addBotMessage (js "📤 **Upload hóa đơn:**\n\nNhấn vào nút \x22Upload File\x22 📁 ở bên trái để chọn file hình ảnh hóa đơn từ máy tính.\n\nSau khi chọn file, gõ \x22xử lý\x22 để phân tích!") ;;
    ret true
  else ret false.

(** *** Sending a chat message *)

Definition isCapabilityQuestion (userMsg : jsstring) : bool :=
  let m := toLowerCase userMsg in
  (includes m (js "làm gì") || includes m (js "chức năng")
   || includes m (js "features") || includes m (js "capabilities"))
  && (includes m (js "có thể") || includes m (js "bạn") || includes m (js "bot")
      || includes m (js "chatbot") || includes m (js "hệ thống")).

Definition chatFailure : jsstring :=
  js "Xin lỗi, tôi gặp sự cố khi xử lý tin nhắn. Vui lòng thử lại.".

Definition handleSendMessage : Eff unit :=
  st <- get ;;
  if truthy (trim (inputMessage st)) then
    let userMsg := inputMessage st in
    setMessages (fun _ =>
      messages st ++ [mkMessage (length (messages st) + 1) userMsg user]) ;;
    setInputMessage [] ;;
    setIsTyping true ;;
    tryCatch
      (call (PostChat userMsg) ;;
       r <- awaitFetch (chatApi w userMsg) ;;
       (if negb (fst r) then throw (Error (js "Chat API failed")) else ret tt) ;;
       data <- awaitJson (snd r) ;;
       isCommand <- handleChatCommand userMsg ;;
       if negb isCommand then
         setIsTyping false ;;
         addBotMessage (response_text data) ;;
         setShowQuickSuggestions (isCapabilityQuestion userMsg)
       else
         setIsTyping false)
      (fun _ =>
         setIsTyping false ;;
         addBotMessage chatFailure ;;
         setShowQuickSuggestions false)
  else ret tt.

End Handlers.

(** ** The invoice table (InvoiceManagement) *)

Module InvoiceManagement.

Definition getTypeIcon (type : jsstring) : jsstring :=
  if streq type (js "electricity") then js "⚡"
  else if streq type (js "momo_payment") then js "💳"
  else js "📄".

Definition getConfidenceColor (c : number) : jsstring :=
  if num_ge c (8 # 10) then js "text-green-600 bg-green-100"
  else if num_ge c (6 # 10) then js "text-yellow-600 bg-yellow-100"
  else js "text-red-600 bg-red-100".

Definition matchesSearch (searchTerm : jsstring) (inv : Invoice) : bool :=
  includes (toLowerCase (invoice_code inv)) (toLowerCase searchTerm)
  || includes (toLowerCase (buyer_name inv)) (toLowerCase searchTerm)
  || includes (toLowerCase (seller_name inv)) (toLowerCase searchTerm).

Definition matchesFilter (filterType : jsstring) (inv : Invoice) : bool :=
  streq filterType (js "all") || streq (invoice_type inv) filterType.

Definition filteredInvoices (l : list Invoice) (searchTerm filterType : jsstring)
  : list Invoice :=
  filter (fun inv => matchesSearch searchTerm inv && matchesFilter filterType inv) l.

(** The confidence cell of a table row: the class of the badge and its
    text. *)
Record Badge := { badgeClass : jsstring; badgeText : jsstring }.

Definition confidenceBadge (rt : Runtime) (inv : Invoice) : Badge :=
  {| badgeClass :=
       js "px-2 py-1 text-xs font-semibold rounded-full "
       ++ getConfidenceColor (confidence inv);
     badgeText := toFixed rt 1 (num_mul (confidence inv) 100) ++ js "%" |}.


End InvoiceManagement.

(** ** The upload client (apiService.uploadInvoice) *)

Module APIService.

(** The JSON body of the answer: the declared result
    [{ job_id, status }], or an error with its [detail]. *)
Record UploadJson := {
  job_id : option jsstring;
  status : option jsstring;
  detail : option jsstring
}.



End APIService.

(** ** The ingestion pipeline of the specification

    The server side of [/api/upload] lives in the backend, outside the
    frontend embedded above; the intake gateway, the confidence score and
    the store are modelled from the specification (sections 3, 4.1, 4.4
    and 4.5). *)

Module Pipeline.

Inductive JobStatus := queued | processing | done | failed | cancelled.

Record UploadJob := {
  jobId : nat;
  ownerId : nat;
  rawImage : nat;
  jobStatus : JobStatus;
  submittedAt : nat;
  attemptCount : nat
}.

Inductive InvoiceType := electricity | mobile_payment | generic.

Record InvoiceRecord := {
  recordId : nat;
  invoiceType : InvoiceType;
  recordConfidence : Q;
  needsReview : bool;
  rawText : jsstring;
  imageRef : nat
}.

Record Upload := {
  contentType : jsstring;
  payload : list N;
  owner : nat
}.

Record Config := {
  acceptedTypes : list jsstring;
  maxBytes : nat;
  fieldWeight : Q;
  engineWeight : Q;
  reviewThreshold : Q
}.

Record System := {
  jobs : list UploadJob;
  queue : list nat;
  images : list (nat * list N);
  records : list InvoiceRecord;
  nextJobId : nat;
  sysClock : nat
}.

(** The answer of the intake: the job id and its status, nothing else. *)
Record IntakeResponse := { ackJobId : nat; ackStatus : JobStatus }.

Inductive IntakeResult :=
  | ValidationError
  | Accepted (r : IntakeResponse).

Definition validUpload (cfg : Config) (u : Upload) : bool :=
  existsb (streq (contentType u)) (acceptedTypes cfg)
  && (length (payload u) <=? maxBytes cfg)%nat.

(** Modelled from the spec: the intake gateway (section 4.1), whose
    server code is missing.  It validates content type and size, fails
    with ValidationError before any job is created, else persists the raw
    bytes, creates an UploadJob with status queued, enqueues it and
    returns the job id and status.  Recognition is no part of it. *)
Definition intake (cfg : Config) (u : Upload) (s : System)
  : IntakeResult * System :=
  if validUpload cfg u then
    let id := nextJobId s in
    let job := {| jobId := id; ownerId := owner u; rawImage := id;
                  jobStatus := queued; submittedAt := sysClock s;
                  attemptCount := 0 |} in
    (Accepted {| ackJobId := id; ackStatus := queued |},
     {| jobs := jobs s ++ [job];
        queue := queue s ++ [id];
        images := images s ++ [(id, payload u)];
        records := records s;
        nextJobId := S id;
        sysClock := sysClock s |})
  else (ValidationError, s).

(** The name of a status on the wire. *)
Definition statusName (st : JobStatus) : jsstring :=
  match st with
  | queued => js "queued"
  | processing => js "processing"
  | done => js "done"
  | failed => js "failed"
  | cancelled => js "cancelled"
  end.

(** The intake's answer as the JSON body of [/api/upload]. *)
Definition intakeJson (r : IntakeResponse) : APIService.UploadJson :=
  {| APIService.job_id := Some (digitsOfNat (ackJobId r));
     APIService.status := Some (statusName (ackStatus r));
     APIService.detail := None |}.

Definition clip01 (q : Q) : Q :=
  if Qle_bool q 0 then 0 else if Qle_bool 1 q then 1 else q.

(** Fraction of the type's required fields that were populated. *)
Definition populatedFraction (populated required : nat) : Q :=
  inject_Z (Z.of_nat populated) / inject_Z (Z.of_nat required).

(** Modelled from the spec: the confidence score (section 4.4, step 3),
    whose server code is missing: a weighted combination of the fraction
    of required fields populated and of the engine's own confidence when
    it is supplied, clipped to [0,1].  The weights are configuration. *)
Definition score (cfg : Config) (populated required : nat) (engine : option Q) : Q :=
  clip01
    (match engine with
     | Some e => fieldWeight cfg * populatedFraction populated required
                 + engineWeight cfg * e
     | None => populatedFraction populated required
     end).

(** What extraction hands to the store for one job. *)
Record Extraction := {
  exJob : nat;
  exType : InvoiceType;
  exPopulated : nat;
  exRequired : nat;
  exEngine : option Q;
  exText : jsstring
}.

Definition mkRecord (cfg : Config) (e : Extraction) : InvoiceRecord :=
  let c := score cfg (exPopulated e) (exRequired e) (exEngine e) in
  {| recordId := exJob e;
     invoiceType := exType e;
     recordConfidence := c;
     needsReview := negb (Qle_bool (reviewThreshold cfg) c);
     rawText := exText e;
     imageRef := exJob e |}.

(** Modelled from the spec: the store's idempotent upsert keyed by job id
    (section 4.5), whose server code is missing. *)
Fixpoint upsert (r : InvoiceRecord) (store : list InvoiceRecord)
  : list InvoiceRecord :=
  match store with
  | [] => [r]
  | x :: rest =>
      if (recordId x =? recordId r)%nat then r :: rest
      else x :: upsert r rest
  end.

(** The stores the pipeline can reach: records enter only through the
    extractor. *)
Inductive persisted (cfg : Config) : list InvoiceRecord -> Prop :=
  | persisted_empty : persisted cfg []
  | persisted_upsert : forall store e,
      persisted cfg store ->
      persisted cfg (upsert (mkRecord cfg e) store).

(** The record as the interfaces read its confidence. *)
Definition displayedPercent (r : InvoiceRecord) : number :=
  num_mul (Num (recordConfidence r)) 100.

End Pipeline.

(** ** Sample worlds, used by the examples *)

Module Samples.

Definition pow10 (d : nat) : Z := (10 ^ Z.of_nat d)%Z.

Fixpoint padLeft (d : nat) (s : jsstring) : jsstring :=
  match d with
  | O => s
  | S d' => if (length s <=? d')%nat then padLeft d' (48%N :: s) else s
  end.

(** [x.toFixed(d)] on an exact rational, rounding half away from zero. *)
Definition toFixedQ (d : nat) (q : Q) : jsstring :=
  let n := Qfloor (Qabs q * inject_Z (pow10 d) + (1 # 2)) in
  let whole := digitsOfNat (Z.to_nat (n / pow10 d)) in
  let frac := padLeft d (digitsOfNat (Z.to_nat (n mod pow10 d))) in
  (if Qle_bool 0 q || (n =? 0)%Z then [] else js "-")
  ++ whole ++ (if (d =? 0)%nat then [] else js "." ++ frac).

Definition runtime : Runtime :=
  {| toFixed := fun d x => match x with Num q => toFixedQ d q | NaN => js "NaN" end;
     toLocaleString := fun x => match x with Num q => toFixedQ 0 q | NaN => js "NaN" end;
     numberToString := fun x => match x with Num q => toFixedQ 0 q | NaN => js "NaN" end;
     JSON_parse := fun _ => None |}.

Definition invoice (code : jsstring) (c : Q) : Invoice :=
  {| inv_id := 1; invoice_code := code; date := js "01/11/2025";
     buyer_name := js "Nguyễn Văn A"; seller_name := js "EVN";
     total_amount := js "1.690.000 VND"; total_amount_value := Num 1690000;
     subtotal := Some (Num 1536364); tax_amount := Some (Num 153636);
     tax_percentage := Some (Num 10); currency := Some (js "VND");
     buyer_address := None; seller_address := None;
     buyer_tax_id := None; seller_tax_id := None;
     invoice_type := js "electricity"; items := None; confidence := Num c;
     ocr_method := Some (js "tesseract"); filename := Some (js "bill.jpg");
     status := js "processed"; processed_at := js "2025-11-01 10:00";
     file_path := None |}.

Definition ocrDown : UploadData :=
  {| data_status := Some (js "error");
     data_error := Some (js "OCR_NOT_AVAILABLE");
     data_message := Some (js "Tesseract OCR chưa được cài đặt");
     data_details :=
       Some {| reason := js "Không tìm thấy tesseract trên máy chủ";
               instructions := [js "1. Tải Tesseract"; js "2. Cài đặt và thêm vào PATH"];
               download_url := js "https://github.com/UB-Mannheim/tesseract/wiki" |};
     data_invoice := None;
     data_ocr_text := None |}.

Definition processed (c : Q) : UploadData :=
  {| data_status := Some (js "success"); data_error := None; data_message := None;
     data_details := None; data_invoice := Some (invoice (js "INV-12345") c);
     data_ocr_text := Some (js "HOA DON TIEN DIEN") |}.


Definition world (upload : Fetched UploadData) : World :=
  {| clock := js "10:31";
     dateNow := 1730000000000;
     chatApi := fun m => Response true (Some {| response_text := js "Xin chào! " ++ m |});
     invoicesApi :=
       Response true
         (Some {| body_data := Some [invoice (js "INV-1") (9 # 10); invoice (js "INV-2") (1 # 2)];
                  body_invoices := None |});
     uploadApi := fun _ => upload;
     cameraGranted := true;
     context2d := true;
     blobMade := true |}.

Definition billFile : File := {| file_name := js "bill.jpg" |}.

Definition typing (input : jsstring) (f : option File) (cam : bool) : Dashboard :=
  {| currentView := dashboard; messages := messages initialDashboard;
     inputMessage := input; uploadedFile := f; cameraActive := cam;
     isTyping := false; isProcessing := false; showQuickSuggestions := false;
     videoRef := if cam then Some true else None;
     fileInputValue := match f with Some x => file_name x | None => [] end;
     calls := [] |}.

Definition pipelineConfig : Pipeline.Config :=
  {| Pipeline.acceptedTypes := [js "image/jpeg"; js "image/png"];
     Pipeline.maxBytes := 10;
     Pipeline.fieldWeight := 7 # 10;
     Pipeline.engineWeight := 3 # 10;
     Pipeline.reviewThreshold := 6 # 10 |}.

Definition emptySystem : Pipeline.System :=
  {| Pipeline.jobs := []; Pipeline.queue := []; Pipeline.images := [];
     Pipeline.records := []; Pipeline.nextJobId := 1; Pipeline.sysClock := 0 |}.

Definition jpeg : Pipeline.Upload :=
  {| Pipeline.contentType := js "image/jpeg";
     Pipeline.payload := [255; 216; 255]%N;
     Pipeline.owner := 7 |}.

(** More fields than required and a confident engine: the score exceeds
    one before it is clipped. *)
Definition overfull : Pipeline.Extraction :=
  {| Pipeline.exJob := 1; Pipeline.exType := Pipeline.electricity;
     Pipeline.exPopulated := 5; Pipeline.exRequired := 4;
     Pipeline.exEngine := Some (9 # 10)%Q;
     Pipeline.exText := js "HOA DON TIEN DIEN" |}.

End Samples.

(** ** The intent the router selects

    The conditions of [handleChatCommand], read as a classification of
    the normalized command; [handleChatCommand_dispatch] below shows that
    the router runs exactly the handler of the selected intent. *)

Inductive Intent :=
  | ViewList
  | Search
  | Export
  | FilterDate
  | Manage
  | Statistics
  | CameraStart
  | CameraStop
  | CameraCapture
  | Process
  | UploadHelp
  | Unmatched.

Definition isExport (cmd : jsstring) : bool :=
  isExportInvoice cmd || isExportReport cmd.

Definition selectIntent (cmd : jsstring) (active : bool) : Intent :=
  if isViewList cmd then ViewList
  else if isSearch cmd then Search
  else if isExportInvoice cmd then Export
  else if isExportReport cmd then Export
  else if isFilterDate cmd then FilterDate
  else if isManage cmd then Manage
  else if isStatistics cmd then Statistics
  else if isCameraStart cmd then CameraStart
  else if isCameraStop cmd then CameraStop
  else if isCapture cmd active then CameraCapture
  else if isProcess cmd then Process
  else if isUploadHelp cmd then UploadHelp
  else Unmatched.

(** The intent of a raw input in a given state of the page. *)
Definition intentOf (st : Dashboard) (input : jsstring) : Intent :=
  selectIntent (normalize input) (cameraActive st).

Section Dispatch.

Variable w : World.
Variable rt : Runtime.

(** The branch of the router behind each intent. *)
Definition dispatch (i : Intent) : Eff bool :=
  match i with
  | ViewList => handleActionButton w rt (js "📋 Xem danh sách hóa đơn") ;; ret true
  | Search => handleActionButton w rt (js "🔍 Tìm kiếm hóa đơn") ;; ret true
  | Export => handleActionButton w rt (js "📊 Xuất báo cáo") ;; ret true
  | FilterDate => handleActionButton w rt (js "📅 Lọc theo ngày") ;; ret true
  | Manage =>
      addBotMessage w (js "📊 **Đang chuyển đến trang quản lý hóa đơn...**") ;;
      setTimeout (setCurrentView invoices) ;;
      ret true
  | Statistics => handleActionButton w rt (js "📈 Thống kê") ;; ret true
  | CameraStart =>
      st <- get ;;
      (if negb (cameraActive st) then
         handleStartCamera w ;;
         addBotMessage w (js "📷 **Đã mở camera!**\n\nCamera đang hoạt động. Bạn có thể:\n• Gõ \x22chụp ảnh\x22 để chụp\n• Gõ \x22đóng camera\x22 để tắt\n• Gõ \x22xử lý\x22 để xử lý hóa đơn")
       else
         addBotMessage w (js "📷 Camera đang mở rồi! Gõ \x22chụp ảnh\x22 hoặc \x22xử lý\x22 để tiếp tục.")) ;;
      ret true
  | CameraStop =>
      st <- get ;;
      (if cameraActive st then
         handleStopCamera ;;
         addBotMessage w (js "📷 **Đã đóng camera!**\n\n💡 Gõ \x22mở camera\x22 để mở lại.")
       else
         addBotMessage w (js "📷 Camera chưa được mở.")) ;;
      ret true
  | CameraCapture =>
      handleCapturePhoto w ;;
      addBotMessage w (js "📸 **Đã chụp ảnh!**\n\nẢnh đã được lưu. Gõ \x22xử lý\x22 hoặc \x22xử lý hóa đơn\x22 để phân tích.") ;;
      ret true
  | Process =>
      st <- get ;;
      if isSome (uploadedFile st) || cameraActive st then
        handleProcessInvoice w rt ;; ret true
      else
        addBotMessage w noFileWarning ;; ret true
  | UploadHelp =>
      addBotMessage w (js "📤 **Upload hóa đơn:**\n\nNhấn vào nút \x22Upload File\x22 📁 ở bên trái để chọn file hình ảnh hóa đơn từ máy tính.\n\nSau khi chọn file, gõ \x22xử lý\x22 để phân tích!") ;;
      ret true
  | Unmatched => ret false
  end.

End Dispatch.

(** The session state of the chat: the pending upload and the camera
    flag. *)
Definition session (s : Dashboard) : option File * bool :=
  (uploadedFile s, cameraActive s).

(** At most one of the two is set. *)
Definition exclusive (s : Dashboard) : Prop :=
  uploadedFile s = None \/ cameraActive s = false.

(** The handlers that write the session state, as the page offers them:
    the file input, the camera buttons, the process button, and the chat
    box, whose commands reach the same handlers. *)
Inductive Action :=
  | FileUpload (files : list File)
  | StartCamera
  | StopCamera
  | CapturePhoto
  | ProcessInvoice
  | SendMessage (input : jsstring).

Definition perform (w : World) (rt : Runtime) (a : Action) : Eff unit :=
  match a with
  | FileUpload files => handleFileUpload w files
  | StartCamera => handleStartCamera w
  | StopCamera => handleStopCamera
  | CapturePhoto => handleCapturePhoto w
  | ProcessInvoice => handleProcessInvoice w rt
  | SendMessage input => setInputMessage input ;; handleSendMessage w rt
  end.

(** The states of the page reached from the initial one by session
    handlers, each in a world of its own. *)
Inductive reachable : Dashboard -> Prop :=
  | reach_initial : reachable initialDashboard
  | reach_step : forall s w rt a,
      reachable s -> reachable (exec (perform w rt a) s).

(** ** Notions used by the statements *)

(** A trimmed string does not start with white space. *)
Definition headClean (s : jsstring) : Prop :=
  match s with
  | [] => True
  | c :: _ => isWhiteSpace c = false
  end.

(** A code point without a lower-case mapping, and a string of such
    code points: lower-casing leaves it as it is. *)
Definition unmapped (p : CodePoint) : Prop :=
  lowercaseMapping (codePointValue p) = None.

Definition unmappedb (p : CodePoint) : bool :=
  match lowercaseMapping (codePointValue p) with
  | None => true
  | Some _ => false
  end.

Definition settled (s : jsstring) : Prop := Forall unmapped (StringToCodePoints s).

(** Where two strings meet, a leading surrogate at the end of the first
    and a trailing one at the start of the second would be read as one
    code point. *)
Fixpoint lastLeading (s : jsstring) : bool :=
  match s with
  | [] => false
  | [u] => isLeadingSurrogate u
  | _ :: r => lastLeading r
  end.

Definition headTrailing (s : jsstring) : bool :=
  match s with
  | u :: _ => isTrailingSurrogate u
  | [] => false
  end.

Definition startsLow (l : list CodePoint) : bool :=
  match l with
  | Single u :: _ => isTrailingSurrogate u
  | _ => false
  end.

(** The code points that [StringToCodePoints] gives. *)
Inductive Decoded : list CodePoint -> Prop :=
  | Decoded_nil : Decoded []
  | Decoded_single (u : N) (l : list CodePoint) :
      Decoded l ->
      (isLeadingSurrogate u = true -> startsLow l = false) ->
      Decoded (Single u :: l)
  | Decoded_pair (a b : N) (l : list CodePoint) :
      isLeadingSurrogate a = true ->
      isTrailingSurrogate b = true ->
      Decoded l ->
      Decoded (Pair a b :: l).

(** What the mapping of a code point is checked for: it is not empty,
    it cannot join a surrogate next to it, and it is settled. *)
Definition chunkOk (chunk : jsstring) : bool :=
  negb (match chunk with [] => true | _ :: _ => false end)
  && negb (lastLeading chunk)
  && negb (headTrailing chunk)
  && forallb unmappedb (StringToCodePoints chunk).

Fixpoint upFrom (lo : N) (count : nat) : list N :=
  match count with
  | O => []
  | S k => lo :: upFrom (lo + 1)%N k
  end.

(** The code points the rules speak of. *)
Definition ruleSpan (rules : list (N * N * Rule)) : list N :=
  flat_map (fun r => upFrom (fst (fst r)) (N.to_nat (snd (fst r) - fst (fst r) + 1)%N))
    rules.


(** [text.split(sep)] for a separator of one code unit: the lines of a
    text when [sep] is the line feed. *)
Fixpoint splitAt (sep : N) (text : jsstring) : list jsstring :=
  match text with
  | [] => [[]]
  | c :: rest =>
      if (c =? sep)%N then [] :: splitAt sep rest
      else match splitAt sep rest with
           | part :: parts => (c :: part) :: parts
           | [] => [[c]]
           end
  end.

Definition lineFeed : N := 10%N.

(** The bot's message [t] appended to a chat of [n] messages. *)
Definition botReply (w : World) (n : nat) (t : jsstring) : Message :=
  mkMessage w (n + 1) t bot.

(** [part] occurs in [whole]. *)
Definition occursIn (part whole : jsstring) : Prop :=
  exists pre post, whole = pre ++ part ++ post.

(** A request to view and export invoices and filter them by date. *)
Definition viewExportFilter : jsstring := js "xem và xuất hóa đơn, lọc theo ngày".

(** ** More of UserDashboard: the suggestion buttons and the page's
    controls *)

Section Controls.

Variable w : World.
Variable rt : Runtime.

(** The capability test of [handleQuickSuggestion]. *)
Definition isCapabilitySuggestion (question : jsstring) : bool :=
  let q := toLowerCase question in
  (includes q (js "làm gì") || includes q (js "chức năng")
   || includes q (js "features") || includes q (js "capabilities"))
  && (includes q (js "có thể") || includes q (js "bot")
      || includes q (js "chatbot") || includes q (js "hệ thống")).

Definition handleQuickSuggestion (question : jsstring) : Eff unit :=
  addUserMessage w question ;;
  setIsTyping true ;;
  tryCatch
    (call (PostChat question) ;;
     r <- awaitFetch (chatApi w question) ;;
     (if negb (fst r) then throw (Error (js "Chat API failed")) else ret tt) ;;
     data <- awaitJson (snd r) ;;
     setIsTyping false ;;
     addBotMessage w (response_text data) ;;
     setShowQuickSuggestions (isCapabilitySuggestion question))
    (fun _ =>
       setIsTyping false ;;
       addBotMessage w chatFailure).

(** The button that removes the pending file. *)
Definition handleClearFile : Eff unit :=
  setUploadedFile None ;;
  setFileInputValue [].

(** [disabled] of the process button. *)
Definition processDisabled (st : Dashboard) : bool :=
  (negb (cameraActive st) && negb (isSome (uploadedFile st))) || isProcessing st.

(** What the user can do on the page: the session handlers, the action
    and suggestion buttons of the chat, the button that removes the file,
    the camera button, which stops an active camera and starts an
    inactive one, and the process button, which is dead while disabled. *)
Inductive Click :=
  | OnSession (a : Action)
  | OnActionButton (action : jsstring)
  | OnQuickSuggestion (question : jsstring)
  | OnClearFile
  | OnCameraButton
  | OnProcessButton.

Definition click (c : Click) : Eff unit :=
  match c with
  | OnSession a => perform w rt a
  | OnActionButton action => handleActionButton w rt action
  | OnQuickSuggestion question => handleQuickSuggestion question
  | OnClearFile => handleClearFile
  | OnCameraButton =>
      st <- get ;;
      if cameraActive st then handleStopCamera else handleStartCamera w
  | OnProcessButton =>
      st <- get ;;
      if processDisabled st then ret tt else handleProcessInvoice w rt
  end.

End Controls.

(** The pages a user can bring about. *)
Inductive visited : Dashboard -> Prop :=
  | visited_initial : visited initialDashboard
  | visited_click : forall s w rt c,
      visited s -> visited (exec (click w rt c) s).

(** The ids of a chat count its messages from one. *)
Definition numbered (l : list Message) : Prop :=
  map mid l = seq 1 (length l).

(** [s'] has the chat of [s] and, behind it, new messages numbered on. *)
Definition grows (s s' : Dashboard) : Prop :=
  exists added,
    messages s' = messages s ++ added
    /\ map mid added = seq (length (messages s) + 1) (length added).

(** [s'] continues [s]: the chat has grown, the calls made so far are
    still there, in order, and the text in the input box is the same. *)
Definition continues (s s' : Dashboard) : Prop :=
  grows s s'
  /\ inputMessage s' = inputMessage s
  /\ exists made, calls s' = calls s ++ made.

(** A handler whose every run continues the page it started on. *)
Definition Continues {A} (m : Eff A) : Prop := forall s, continues s (exec m s).

(** A handler that returns, in every state. *)
Definition Returns {A} (m : Eff A) : Prop := forall s, exists a, fst (m s) = Ok a.

(** The five labels of the action buttons. *)
Definition actionLabels : list jsstring :=
  [js "📋 Xem danh sách hóa đơn"; js "🔍 Tìm kiếm hóa đơn"; js "📅 Lọc theo ngày";
   js "📊 Xuất báo cáo"; js "📈 Thống kê"].

(** Whether an intent is one of the router's commands. *)
Definition matched (i : Intent) : bool :=
  match i with
  | Unmatched => false
  | _ => true
  end.

(** The notices of the action buttons for an empty list and for a failed
    call. *)
Definition emptyListNotice : jsstring :=
  js "📋 **Danh sách hóa đơn**\n\n⚠️ Chưa có hóa đơn nào được xử lý.\n\n💡 Hãy upload hoặc chụp hóa đơn để bắt đầu!".

Definition actionFailure : jsstring := js "❌ Có lỗi xảy ra. Vui lòng thử lại.".

Definition processFailure : jsstring :=
  js "❌ Có lỗi xảy ra khi xử lý hóa đơn. Vui lòng thử lại!".

Definition cameraAlert : jsstring :=
  js "Không thể truy cập camera. Vui lòng cho phép quyền truy cập.".

Definition cameraAlreadyOpen : jsstring :=
  js "📷 Camera đang mở rồi! Gõ \x22chụp ảnh\x22 hoặc \x22xử lý\x22 để tiếp tục.".

(** ** More of the invoice table: selection, export, summary *)

Module InvoiceTable.

(** The [useState] cells of InvoiceManagement. *)
Record Table := {
  invoices : list Invoice;
  loading : bool;
  searchTerm : jsstring;
  filterType : jsstring;
  selectedInvoices : list nat;
  viewingImage : option jsstring
}.

Definition initialTable : Table :=
  {| invoices := []; loading := true; searchTerm := []; filterType := js "all";
     selectedInvoices := []; viewingImage := None |}.

Definition setInvoices (l : list Invoice) (t : Table) : Table :=
  {| invoices := l; loading := loading t; searchTerm := searchTerm t;
     filterType := filterType t; selectedInvoices := selectedInvoices t;
     viewingImage := viewingImage t |}.

Definition setLoading (b : bool) (t : Table) : Table :=
  {| invoices := invoices t; loading := b; searchTerm := searchTerm t;
     filterType := filterType t; selectedInvoices := selectedInvoices t;
     viewingImage := viewingImage t |}.

Definition setSelectedInvoices (l : list nat) (t : Table) : Table :=
  {| invoices := invoices t; loading := loading t; searchTerm := searchTerm t;
     filterType := filterType t; selectedInvoices := l;
     viewingImage := viewingImage t |}.

(** [fetchInvoices]: the list of the answer when it is ok and its body is
    JSON, the empty list on every failure; [finally] the spinner stops. *)
Definition fetchInvoices (answer : Fetched InvoicesBody) (t : Table) : Table :=
  setLoading false
    (match answer with
     | Response true (Some result) => setInvoices (invoicesOf result) t
     | Response true None => setInvoices [] t
     | Response false _ => setInvoices [] t
     | Rejected => setInvoices [] t
     end).

(** The rows of the table. *)
Definition filteredInvoices (t : Table) : list Invoice :=
  InvoiceManagement.filteredInvoices (invoices t) (searchTerm t) (filterType t).

(** [selectedInvoices.includes(id)] *)
Definition includesId (l : list nat) (id : nat) : bool := existsb (Nat.eqb id) l.

Definition handleSelectAll (t : Table) : Table :=
  if length (selectedInvoices t) =? length (filteredInvoices t)
  then setSelectedInvoices [] t
  else setSelectedInvoices (map inv_id (filteredInvoices t)) t.

Definition handleSelectInvoice (id : nat) (t : Table) : Table :=
  if includesId (selectedInvoices t) id
  then setSelectedInvoices (filter (fun i => negb (i =? id)) (selectedInvoices t)) t
  else setSelectedInvoices (selectedInvoices t ++ [id]) t.

(** [checked] of the box in the header and of the box of a row. *)
Definition allChecked (t : Table) : bool :=
  length (selectedInvoices t) =? length (filteredInvoices t).

Definition rowChecked (t : Table) (inv : Invoice) : bool :=
  includesId (selectedInvoices t) (inv_id inv).

(** *** Export *)

Definition headers : list jsstring :=
  [js "STT"; js "Mã hóa đơn"; js "Ngày"; js "Loại hóa đơn";
   js "Người bán"; js "Địa chỉ người bán"; js "MST người bán";
   js "Người mua"; js "Địa chỉ người mua"; js "MST người mua";
   js "Tiền trước thuế"; js "Thuế VAT"; js "% Thuế"; js "Tổng tiền"; js "Đơn vị tiền";
   js "Độ tin cậy"; js "Phương thức OCR"; js "Tên file gốc";
   js "Trạng thái"; js "Xử lý lúc"].

(** The label of a type, in the table and in the export. *)
Definition typeLabel (type : jsstring) : jsstring :=
  if streq type (js "electricity") then js "Hóa đơn điện"
  else if streq type (js "momo_payment") then js "Thanh toán MoMo"
  else if streq type (js "general") then js "Hóa đơn thông thường"
  else type.

(** [x || ''] for a field that may be absent. *)
Definition orEmpty (o : option jsstring) : jsstring :=
  match o with Some s => s | None => [] end.

(** [x || 0], rendered. *)
Definition orZero (rt : Runtime) (o : option number) : jsstring :=
  match o with
  | Some x => if num_truthy x then numberToString rt x else js "0"
  | None => js "0"
  end.

(** The cells of one row; [index] counts from 0.  (The source also
    renders the items of the invoice into a text that no cell uses.) *)
Definition row (rt : Runtime) (index : nat) (inv : Invoice) : list jsstring :=
  [ digitsOfNat (index + 1);
    invoice_code inv;
    date inv;
    typeLabel (invoice_type inv);
    seller_name inv;
    orEmpty (seller_address inv);
    orEmpty (seller_tax_id inv);
    buyer_name inv;
    orEmpty (buyer_address inv);
    orEmpty (buyer_tax_id inv);
    orZero rt (subtotal inv);
    orZero rt (tax_amount inv);
    (if nonzero (tax_percentage inv)
     then slotNumber rt (tax_percentage inv) ++ js "%" else []);
    orZero rt (Some (total_amount_value inv));
    (if present (currency inv) then orEmpty (currency inv) else js "VND");
    toFixed rt 1 (num_mul (confidence inv) 100) ++ js "%";
    (if fieldIs (ocr_method inv) (js "tesseract")
     then js "OCR (Tesseract)" else js "Metadata");
    orEmpty (filename inv);
    status inv;
    processed_at inv ].

Fixpoint mapIndexed {A B} (f : nat -> A -> B) (index : nat) (l : list A) : list B :=
  match l with
  | [] => []
  | x :: l' => f index x :: mapIndexed f (S index) l'
  end.

(** [Array.prototype.join] *)
Fixpoint join (sep : jsstring) (l : list jsstring) : jsstring :=
  match l with
  | [] => []
  | [x] => x
  | x :: l' => x ++ sep ++ join sep l'
  end.

Definition quoted (cell : jsstring) : jsstring := js "\x22" ++ cell ++ js "\x22".

(** The invoices that are exported: the selected rows when something is
    selected, all rows otherwise. *)
Definition exportData (t : Table) : list Invoice :=
  if 0 <? length (selectedInvoices t)
  then filter (fun inv => includesId (selectedInvoices t) (inv_id inv))
         (filteredInvoices t)
  else filteredInvoices t.

Definition csvLines (rt : Runtime) (data : list Invoice) : list jsstring :=
  ([65279%N] ++ join (js ",") headers)
  :: map (fun r => join (js ",") (map quoted r)) (mapIndexed (row rt) 0 data).

Definition csvContent (rt : Runtime) (data : list Invoice) : jsstring :=
  join (js "\n") (csvLines rt data).

Inductive ExportOutcome :=
  | NoData (alert : jsstring)
  | Download (name content : jsstring).

(** [today] is [new Date().toISOString().split('T')[0]]. *)
Definition exportToExcel (rt : Runtime) (today : jsstring) (t : Table)
  : ExportOutcome :=
  match exportData t with
  | [] => NoData (js "Không có dữ liệu để xuất!")
  | _ :: _ =>
      Download (js "invoices_" ++ today ++ js ".csv") (csvContent rt (exportData t))
  end.

(** *** Summary *)

Definition num_add (a b : number) : number :=
  match a, b with
  | Num x, Num y => Num (x + y)
  | _, _ => NaN
  end.

Definition num_div (a : number) (n : nat) : number :=
  match a with
  | Num x => Num (x / inject_Z (Z.of_nat n))
  | NaN => NaN
  end.

(** [reduce((sum, inv) => sum + inv.confidence, 0)] *)
Definition confidenceSum (l : list Invoice) : number :=
  fold_left (fun sum inv => num_add sum (confidence inv)) l (Num 0).

(** The average confidence of the summary, in percent; the summary is
    rendered only when the table has rows. *)
Definition averageConfidence (t : Table) : option number :=
  match filteredInvoices t with
  | [] => None
  | _ :: _ =>
      Some (num_mul (num_div (confidenceSum (filteredInvoices t))
                       (length (filteredInvoices t))) 100)
  end.

(** *** The picture of an invoice *)

Definition imageSrc (viewing : jsstring) : jsstring :=
  if startsWith viewing (js "uploads/") then js "/" ++ viewing
  else js "/uploads/" ++ viewing.

(** The alert of an export without rows. *)
Definition noDataAlert : jsstring := js "Không có dữ liệu để xuất!".

End InvoiceTable.

(** ** The API client ([services/apiService.ts])

    The rest of the service: [request] and the calls built on it.  The
    client's state is the token kept in [localStorage]; [sent] logs the
    requests given to [fetch], oldest first. *)

Module Client.

Inductive Method := POST | PUT.

(** An object given to [JSON.stringify]: its string fields, in order. *)
Definition Json := list (jsstring * jsstring).

(** [RequestInit]; a missing [method] lets [fetch] use GET. *)
Record Options := {
  method : option Method;
  headers : list (jsstring * jsstring);
  body : option Json
}.

Record Request := {
  url : jsstring;
  init : Options
}.

(** The [detail] of an error body: missing or falsy, a string, or
    another truthy value, with the text that [new Error(detail)] makes of
    it (empty for an empty array). *)
Inductive Detail :=
  | NoDetail
  | DetailText (s : jsstring)
  | DetailOther (shown : jsstring).

(** The JSON body of an answer that is not ok: [null], of which no
    property can be read, or another value with its [detail]. *)
Inductive ErrorJson :=
  | JsonNull
  | JsonValue (detail : Detail).

(** What [fetch] and [response.json()] do: the timer aborts the request,
    [fetch] rejects with an error, or it resolves to a response that is
    not ok (with its status and, when the body is JSON, that body), or
    to one that is ok (with its body when it is JSON).  What [fetch]
    rejects with is always an [Error], so the last [throw] of [request]
    is not reached. *)
Inductive Answer (T : Type) :=
  | Aborted
  | Failed (e : Exn)
  | Refused (status : nat) (json : option ErrorJson)
  | Accepted (json : option T).

Arguments Aborted {T}.
Arguments Failed {T}.
Arguments Refused {T}.

Record Store := {
  token : option jsstring;
  sent : list Request
}.

Definition signedOut : Store := {| token := None; sent := [] |}.

(** [localStorage.setItem('token', value)] *)
Definition setItem (value : jsstring) (s : Store) : Store :=
  {| token := Some value; sent := sent s |}.

(** [localStorage.removeItem('token')] *)
Definition removeItem (s : Store) : Store :=
  {| token := None; sent := sent s |}.

Definition record (r : Request) (s : Store) : Store :=
  {| token := token s; sent := sent s ++ [r] |}.

(** The error a [response.json()] that is not JSON rejects with. *)
Definition syntaxError : Exn := Error (js "Unexpected end of JSON input").

Section Service.

Variable baseURL : jsstring.

Definition jsonHeader : jsstring * jsstring :=
  (js "Content-Type", js "application/json").

Definition isContentType (header : jsstring * jsstring) : bool :=
  streq (fst header) (js "Content-Type").

(** [{ 'Content-Type': 'application/json', ...options.headers }]: the
    content type comes first, with the value of the options when they
    have one. *)
Definition mergeHeaders (given : list (jsstring * jsstring))
  : list (jsstring * jsstring) :=
  match find isContentType given with
  | Some header =>
      (js "Content-Type", snd header)
      :: filter (fun h => negb (isContentType h)) given
  | None => jsonHeader :: given
  end.

Definition httpStatus (status : nat) : Exn :=
  Error (js "HTTP " ++ digitsOfNat status).

Definition outcome {T} (answer : Answer T) : Res T :=
  match answer with
  | Aborted => Throw (Error (js "Request timeout"))
  | Failed e => Throw e
  | Refused status None => Throw (Error (js "Request failed"))
  | Refused status (Some JsonNull) => Throw TypeError
  | Refused status (Some (JsonValue NoDetail)) => Throw (httpStatus status)
  | Refused status (Some (JsonValue (DetailText s))) =>
      if truthy s then Throw (Error s) else Throw (httpStatus status)
  | Refused status (Some (JsonValue (DetailOther shown))) => Throw (Error shown)
  | Accepted (Some result) => Ok result
  | Accepted None => Throw syntaxError
  end.

Definition request {T} (server : Request -> Answer T)
    (endpoint : jsstring) (options : Options) (s : Store) : Res T * Store :=
  let sentRequest :=
    {| url := baseURL ++ endpoint;
       init := {| method := method options;
                  headers := mergeHeaders (headers options);
                  body := body options |} |} in
  (outcome (server sentRequest), record sentRequest s).

Record RegisterData := {
  reg_email : jsstring;
  reg_password : jsstring;
  reg_name : option jsstring
}.

Record LoginCredentials := {
  email : jsstring;
  password : jsstring
}.

Section Auth.

Variable User : Type.

Record AuthResponse := {
  access_token : option jsstring;
  token_type : option jsstring;
  response_user : option User
}.

Record Signed := {
  user : option User;
  signed_token : option jsstring
}.

(** [data.name || ''] *)
Definition nameOrEmpty (name : option jsstring) : jsstring :=
  match name with
  | Some n => if truthy n then n else []
  | None => []
  end.

Definition register (server : Request -> Answer AuthResponse)
    (data : RegisterData) (s : Store) : Res Signed * Store :=
  let truncatedPassword := substring0 72 (reg_password data) in
  let registerData :=
    [(js "email", reg_email data);
     (js "name", nameOrEmpty (reg_name data));
     (js "password", truncatedPassword)] in
  match request server (js "/api/auth/register")
          {| method := Some POST; headers := []; body := Some registerData |} s with
  | (Ok response, s') =>
      (Ok {| user := response_user response;
             signed_token := access_token response |},
       setItem (slot (access_token response)) s')
  | (Throw e, s') => (Throw e, s')
  end.

Definition login (server : Request -> Answer AuthResponse)
    (credentials : LoginCredentials) (s : Store) : Res Signed * Store :=
  let truncatedPassword := substring0 72 (password credentials) in
  let loginData :=
    [(js "email", email credentials);
     (js "password", truncatedPassword)] in
  match request server (js "/api/auth/login")
          {| method := Some POST; headers := []; body := Some loginData |} s with
  | (Ok response, s') =>
      (Ok {| user := response_user response;
             signed_token := access_token response |},
       if present (access_token response)
       then setItem (slot (access_token response)) s'
       else s')
  | (Throw e, s') => (Throw e, s')
  end.

Definition logout (s : Store) : Store := removeItem s.

Definition noToken : Exn := Error (js "No authentication token found").

Definition bearer (token : jsstring) : jsstring * jsstring :=
  (js "Authorization", js "Bearer " ++ token).

Definition getCurrentUser (server : Request -> Answer User) (s : Store)
  : Res User * Store :=
  if negb (present (token s)) then (Throw noToken, s)
  else
    request server (js "/api/auth/me")
      {| method := None; headers := [bearer (slot (token s))]; body := None |} s.

Definition updateProfile (server : Request -> Answer User)
    (name email : jsstring) (s : Store) : Res User * Store :=
  if negb (present (token s)) then (Throw noToken, s)
  else
    request server (js "/api/auth/profile")
      {| method := Some PUT;
         headers := [bearer (slot (token s))];
         body := Some [(js "name", name); (js "email", email)] |} s.

End Auth.

(** [...(token && { Authorization: `Bearer ${token}` })] *)
Definition authorization (s : Store) : list (jsstring * jsstring) :=
  if present (token s) then [bearer (slot (token s))] else [].

Definition getInvoiceStats {Stats} (server : Request -> Answer Stats) (s : Store)
  : Res Stats * Store :=
  request server (js "/api/invoices/stats")
    {| method := None; headers := authorization s; body := None |} s.

Definition sendChatMessage {Reply} (server : Request -> Answer Reply)
    (message : jsstring) (s : Store) : Res Reply * Store :=
  request server (js "/api/chat/")
    {| method := Some POST;
       headers := authorization s;
       body := Some [(js "message", message)] |} s.

Definition healthCheck {Health} (server : Request -> Answer Health) (s : Store)
  : Res Health * Store :=
  request server (js "/health")
    {| method := None; headers := []; body := None |} s.

End Service.

End Client.

(** The request carries an [Authorization] header. *)
Definition authorized (r : Client.Request) : bool :=
  existsb (fun h => streq (fst h) (js "Authorization"))
    (Client.headers (Client.init r)).

(** ** More sample worlds *)

Module Fixtures.

(** A world whose chat service cannot be reached. *)
Definition offline : World :=
  {| clock := js "10:31";
     dateNow := 1730000000000;
     chatApi := fun _ => Rejected;
     invoicesApi := Rejected;
     uploadApi := fun _ => Rejected;
     cameraGranted := false;
     context2d := false;
     blobMade := false |}.

(** The table of the management page with two invoices loaded, no
    search, no filter and [selected] ticked. *)
Definition table (selected : list nat) : InvoiceTable.Table :=
  {| InvoiceTable.invoices :=
       [Samples.invoice (js "INV-1") (9 # 10); Samples.invoice (js "INV-2") (1 # 2)];
     InvoiceTable.loading := false;
     InvoiceTable.searchTerm := [];
     InvoiceTable.filterType := js "all";
     InvoiceTable.selectedInvoices := selected;
     InvoiceTable.viewingImage := None |}.

End Fixtures.

(** * Properties *)

Unset Implicit Arguments.

Arguments js : simpl never.
Arguments includes : simpl never.
Arguments normalize : simpl never.
Arguments isViewList : simpl never.
Arguments isSearch : simpl never.
Arguments isExportInvoice : simpl never.
Arguments isExportReport : simpl never.
Arguments isFilterDate : simpl never.
Arguments isManage : simpl never.
Arguments isStatistics : simpl never.
Arguments isCameraStart : simpl never.
Arguments isCameraStop : simpl never.
Arguments isProcess : simpl never.
Arguments isUploadHelp : simpl never.
Arguments isCapabilityQuestion : simpl never.

(** ** Strings *)

Section StringFacts.

Local Open Scope N_scope.

Lemma trimStart_idempotent (s : jsstring) : trimStart (trimStart s) = trimStart s.
Proof.
  induction s as [|c s IH]; simpl; [reflexivity|].
  destruct (isWhiteSpace c) eqn:E; [exact IH|].
  simpl. rewrite E. reflexivity.
Qed.

Lemma trimStart_snoc (s : jsstring) (c : N) :
  isWhiteSpace c = false -> trimStart (s ++ [c]) = trimStart s ++ [c].
Proof.
  intros Hc. induction s as [|d s IH]; simpl.
  - rewrite Hc. reflexivity.
  - destruct (isWhiteSpace d); [exact IH | reflexivity].
Qed.

Lemma trimStart_headClean (s : jsstring) : headClean (trimStart s).
Proof.
  induction s as [|c s IH]; simpl; [exact I|].
  destruct (isWhiteSpace c) eqn:E; [exact IH | exact E].
Qed.

Lemma headClean_trimStart (s : jsstring) : headClean s -> trimStart s = s.
Proof.
  destruct s as [|c s]; simpl; [reflexivity|].
  intros ->. reflexivity.
Qed.

Lemma trimEnd_headClean (s : jsstring) : headClean s -> headClean (trimEnd s).
Proof.
  destruct s as [|c s]; [intros _; exact I|].
  simpl. intros Hc. unfold trimEnd. simpl.
  rewrite trimStart_snoc by exact Hc. rewrite rev_app_distr. simpl. exact Hc.
Qed.

Lemma trimEnd_idempotent (s : jsstring) : trimEnd (trimEnd s) = trimEnd s.
Proof.
  unfold trimEnd. rewrite rev_involutive, trimStart_idempotent. reflexivity.
Qed.

Lemma trim_idempotent (s : jsstring) : trim (trim s) = trim s.
Proof.
  unfold trim.
  rewrite headClean_trimStart with (s := trimEnd (trimStart s)).
  - apply trimEnd_idempotent.
  - apply trimEnd_headClean, trimStart_headClean.
Qed.

(** Trimming keeps a property that holds of every code unit. *)
Lemma Forall_trimStart (P : N -> Prop) (s : jsstring) :
  Forall P s -> Forall P (trimStart s).
Proof.
  induction 1 as [|c s Hc Hs IH]; simpl; [constructor|].
  destruct (isWhiteSpace c); [exact IH | constructor; assumption].
Qed.

Lemma Forall_trim (P : N -> Prop) (s : jsstring) :
  Forall P s -> Forall P (trim s).
Proof.
  intros H. unfold trim, trimEnd.
  apply Forall_rev, Forall_trimStart, Forall_rev, Forall_trimStart, H.
Qed.

Lemma trimStart_split (s : jsstring) :
  exists ws, s = ws ++ trimStart s /\ Forall (fun c => isWhiteSpace c = true) ws.
Proof.
  induction s as [|c s (ws & E & W)]; simpl.
  - exists []. split; [reflexivity | constructor].
  - destruct (isWhiteSpace c) eqn:Hc.
    + exists (c :: ws). split; [simpl; f_equal; exact E | constructor; assumption].
    + exists []. split; [reflexivity | constructor].
Qed.

Lemma trimEnd_split (s : jsstring) :
  exists ws, s = trimEnd s ++ ws /\ Forall (fun c => isWhiteSpace c = true) ws.
Proof.
  destruct (trimStart_split (rev s)) as (ws & E & W).
  exists (rev ws). split; [|apply Forall_rev, W].
  unfold trimEnd. rewrite <- rev_app_distr, <- E, rev_involutive. reflexivity.
Qed.

Ltac order :=
  unfold isLeadingSurrogate, isTrailingSurrogate, between in *;
  repeat match goal with
  | H : _ && _ = true |- _ => apply andb_true_iff in H; destruct H
  | H : (_ <=? _) = true |- _ => apply N.leb_le in H
  | H : (_ =? _) = true |- _ => apply N.eqb_eq in H
  | |- _ && _ = false => apply andb_false_iff
  end.

Lemma leading_not_trailing (c : N) :
  isLeadingSurrogate c = true -> isTrailingSurrogate c = false.
Proof.
  intros H. order. left. apply N.leb_gt. lia.
Qed.

Lemma trailing_not_leading (c : N) :
  isTrailingSurrogate c = true -> isLeadingSurrogate c = false.
Proof.
  intros H. order. right. apply N.leb_gt. lia.
Qed.

Lemma whiteSpace_small (c : N) : isWhiteSpace c = true -> c < 0xD800 \/ c = 0xFEFF.
Proof.
  unfold isWhiteSpace. intros H.
  repeat (apply orb_true_iff in H; destruct H as [H|H]).
  all: order; lia.
Qed.

Lemma whiteSpace_not_leading (c : N) :
  isWhiteSpace c = true -> isLeadingSurrogate c = false.
Proof.
  intros H. destruct (whiteSpace_small c H) as [L| ->]; [|reflexivity].
  order. left. apply N.leb_gt. lia.
Qed.

Lemma whiteSpace_not_trailing (c : N) :
  isWhiteSpace c = true -> isTrailingSurrogate c = false.
Proof.
  intros H. destruct (whiteSpace_small c H) as [L| ->]; [|reflexivity].
  order. left. apply N.leb_gt. lia.
Qed.

(** Induction on a string, two code units at a time. *)
Lemma units_ind (P : jsstring -> Prop) :
  P [] ->
  (forall u, P [u]) ->
  (forall a b r, P r -> P (b :: r) -> P (a :: b :: r)) ->
  forall s, P s.
Proof.
  intros H0 H1 H2 s.
  assert (H : P s /\ forall a, P (a :: s)).
  { induction s as [|b r [IHr IHc]]; [split; [exact H0 | exact H1]|].
    split; [apply IHc|]. intros a. apply H2; [exact IHr | apply IHc]. }
  exact (proj1 H).
Qed.

Lemma StringToCodePoints_two (a b : N) (r : jsstring) :
  StringToCodePoints (a :: b :: r)
  = if isLeadingSurrogate a && isTrailingSurrogate b
    then Pair a b :: StringToCodePoints r
    else Single a :: StringToCodePoints (b :: r).
Proof. reflexivity. Qed.

(** Reading a string as code points loses nothing. *)
Lemma codeUnits_StringToCodePoints (s : jsstring) :
  flat_map codeUnits (StringToCodePoints s) = s.
Proof.
  induction s as [|u|a b r IHr IHc] using units_ind; [reflexivity..|].
  rewrite StringToCodePoints_two.
  destruct (isLeadingSurrogate a && isTrailingSurrogate b).
  - cbn [flat_map codeUnits app]. rewrite IHr. reflexivity.
  - cbn [flat_map codeUnits app]. rewrite IHc. reflexivity.
Qed.

Lemma startsLow_headTrailing (s : jsstring) :
  startsLow (StringToCodePoints s) = headTrailing s.
Proof.
  destruct s as [|a [|b r]]; [reflexivity..|].
  rewrite StringToCodePoints_two.
  destruct (isLeadingSurrogate a && isTrailingSurrogate b) eqn:E; [|reflexivity].
  simpl. apply andb_true_iff in E. symmetry.
  apply leading_not_trailing, E.
Qed.

Lemma StringToCodePoints_Decoded (s : jsstring) : Decoded (StringToCodePoints s).
Proof.
  induction s as [|u|a b r IHr IHc] using units_ind.
  - constructor.
  - constructor; [constructor | reflexivity].
  - rewrite StringToCodePoints_two.
    destruct (isLeadingSurrogate a && isTrailingSurrogate b) eqn:E.
    + apply andb_true_iff in E. constructor; [apply E | apply E | exact IHr].
    + constructor; [exact IHc|]. intros Ha.
      rewrite startsLow_headTrailing. simpl. rewrite Ha in E. exact E.
Qed.

(** Two strings are read one after the other unless a surrogate pair
    forms where they meet. *)
Lemma StringToCodePoints_app (a b : jsstring) :
  lastLeading a && headTrailing b = false ->
  StringToCodePoints (a ++ b) = StringToCodePoints a ++ StringToCodePoints b.
Proof.
  induction a as [|u|x y r IHr IHc] using units_ind; intros H.
  - reflexivity.
  - destruct b as [|v b']; [reflexivity|].
    simpl app. rewrite StringToCodePoints_two.
    simpl in H. rewrite H. reflexivity.
  - change ((x :: y :: r) ++ b) with (x :: y :: (r ++ b)).
    rewrite 2 StringToCodePoints_two.
    destruct (isLeadingSurrogate x && isTrailingSurrogate y).
    + simpl app. f_equal. apply IHr.
      destruct r as [|z r']; [reflexivity | exact H].
    + simpl app. f_equal. apply (IHc H).
Qed.

Lemma lastLeading_whiteSpace (ws : jsstring) :
  Forall (fun c => isWhiteSpace c = true) ws -> lastLeading ws = false.
Proof.
  induction 1 as [|c ws Hc Hws IH]; [reflexivity|].
  destruct ws as [|d ws']; [apply whiteSpace_not_leading, Hc | exact IH].
Qed.

Lemma headTrailing_whiteSpace (ws : jsstring) :
  Forall (fun c => isWhiteSpace c = true) ws -> headTrailing ws = false.
Proof.
  destruct 1 as [|c ws Hc Hws]; [reflexivity|].
  apply whiteSpace_not_trailing, Hc.
Qed.

(** *** The rules *)

Lemma upFrom_In (c lo : N) (count : nat) :
  lo <= c < lo + N.of_nat count -> In c (upFrom lo count).
Proof.
  revert lo. induction count as [|k IH]; intros lo H; [lia|].
  simpl. destruct (N.eq_dec lo c) as [E|E]; [left; exact E|].
  right. apply IH. lia.
Qed.

Lemma findRule_span (c : N) (rules : list (N * N * Rule)) (r : Rule) :
  findRule c rules = Some r -> In c (ruleSpan rules).
Proof.
  unfold ruleSpan. induction rules as [|[[lo hi] rule] rest IH]; [discriminate|].
  simpl. destruct (N.ltb_spec c lo); [discriminate|].
  destruct (N.leb_spec c hi); intros E; apply in_or_app.
  - left. apply upFrom_In. lia.
  - right. apply IH, E.
Qed.

Lemma lowerRules_checked :
  forallb (fun c => match lowercaseMapping c with
                    | Some mapping => chunkOk (flat_map utf16 mapping)
                    | None => true
                    end) (ruleSpan lowerRules) = true.
Proof. vm_compute. reflexivity. Qed.

Lemma lowercaseMapping_chunkOk (c : N) (mapping : list N) :
  lowercaseMapping c = Some mapping -> chunkOk (flat_map utf16 mapping) = true.
Proof.
  intros E.
  assert (S : In c (ruleSpan lowerRules)).
  { unfold lowercaseMapping in E.
    destruct (findRule c lowerRules) as [r|] eqn:F; [|discriminate].
    exact (findRule_span c lowerRules r F). }
  pose proof lowerRules_checked as T.
  rewrite forallb_forall in T. specialize (T c S). rewrite E in T. exact T.
Qed.

Lemma unmappedb_spec (p : CodePoint) : unmappedb p = true -> unmapped p.
Proof.
  unfold unmappedb, unmapped.
  destruct (lowercaseMapping (codePointValue p)); [discriminate | reflexivity].
Qed.

Lemma chunkOk_spec (chunk : jsstring) :
  chunkOk chunk = true ->
  chunk <> [] /\ lastLeading chunk = false /\ headTrailing chunk = false
  /\ settled chunk.
Proof.
  unfold chunkOk. intros H.
  apply andb_true_iff in H. destruct H as [H S].
  apply andb_true_iff in H. destruct H as [H T].
  apply andb_true_iff in H. destruct H as [E L].
  repeat split.
  - destruct chunk; [discriminate E | discriminate].
  - apply negb_true_iff, L.
  - apply negb_true_iff, T.
  - apply Forall_forall. intros p Hp. apply unmappedb_spec.
    rewrite forallb_forall in S. apply S, Hp.
Qed.

Lemma unmapped_not_sigma (p : CodePoint) :
  unmapped p -> (codePointValue p =? capitalSigma) = false.
Proof.
  unfold unmapped. intros H.
  destruct (N.eqb_spec (codePointValue p) capitalSigma) as [E|E]; [|reflexivity].
  rewrite E in H. vm_compute in H. discriminate.
Qed.

(** What lower-casing writes for a code point: the code point itself,
    which then has no mapping, or a checked mapping. *)
Lemma lowerCodePoint_cases (before : list CodePoint) (p : CodePoint)
    (after : list CodePoint) :
  (lowerCodePoint before p after = codeUnits p /\ unmapped p)
  \/ chunkOk (lowerCodePoint before p after) = true.
Proof.
  unfold lowerCodePoint.
  destruct (codePointValue p =? capitalSigma).
  - right. destruct (finalSigma before after); vm_compute; reflexivity.
  - destruct (lowercaseMapping (codePointValue p)) as [mapping|] eqn:E.
    + right. exact (lowercaseMapping_chunkOk _ _ E).
    + left. split; [reflexivity | exact E].
Qed.

Lemma headTrailing_app (a b : jsstring) :
  a <> [] -> headTrailing (a ++ b) = headTrailing a.
Proof. destruct a; [congruence | reflexivity]. Qed.

Lemma settled_app (a b : jsstring) :
  lastLeading a && headTrailing b = false ->
  settled a -> settled b -> settled (a ++ b).
Proof.
  intros H A B. unfold settled. rewrite StringToCodePoints_app by exact H.
  apply Forall_app. split; assumption.
Qed.

(** Lower-casing gives a settled string. *)
Lemma toLowercase_settled (text : list CodePoint) :
  Decoded text ->
  forall before,
    settled (toLowercase before text)
    /\ (startsLow text = false -> headTrailing (toLowercase before text) = false).
Proof.
  induction 1 as [|u l D IH Hu|a b l Ha Hb D IH]; intros before.
  - split; [constructor | reflexivity].
  - cbn [toLowercase]. destruct (IH (Single u :: before)) as [IHs IHh].
    destruct (lowerCodePoint_cases before (Single u) l) as [[E U]|C].
    + rewrite E. cbn [codeUnits]. split.
      * apply settled_app; [|constructor; [exact U | constructor] | exact IHs].
        simpl lastLeading.
        destruct (isLeadingSurrogate u) eqn:L; [|reflexivity].
        simpl. apply IHh, Hu. reflexivity.
      * intros S. exact S.
    + destruct (chunkOk_spec _ C) as (N0 & L & T & S). split.
      * apply settled_app; [rewrite L; reflexivity | exact S | exact IHs].
      * intros _. rewrite headTrailing_app by exact N0. exact T.
  - cbn [toLowercase]. destruct (IH (Pair a b :: before)) as [IHs IHh].
    destruct (lowerCodePoint_cases before (Pair a b) l) as [[E U]|C].
    + rewrite E. cbn [codeUnits]. split.
      * apply settled_app; [| |exact IHs].
        -- simpl lastLeading. rewrite (trailing_not_leading b Hb). reflexivity.
        -- unfold settled. rewrite StringToCodePoints_two, Ha, Hb.
           constructor; [exact U | constructor].
      * intros _. simpl. apply leading_not_trailing, Ha.
    + destruct (chunkOk_spec _ C) as (N0 & L & T & S). split.
      * apply settled_app; [rewrite L; reflexivity | exact S | exact IHs].
      * intros _. rewrite headTrailing_app by exact N0. exact T.
Qed.

Lemma toLowerCase_settled (s : jsstring) : settled (toLowerCase s).
Proof.
  exact (proj1 (toLowercase_settled _ (StringToCodePoints_Decoded s) [])).
Qed.

Lemma toLowercase_unmapped (text before : list CodePoint) :
  Forall unmapped text -> toLowercase before text = flat_map codeUnits text.
Proof.
  intros H. revert before.
  induction H as [|p l Hp Hl IH]; intros before; [reflexivity|].
  cbn [toLowercase flat_map]. rewrite IH. f_equal.
  unfold lowerCodePoint. rewrite (unmapped_not_sigma p Hp).
  unfold unmapped in Hp. rewrite Hp. reflexivity.
Qed.

(** Lower-casing leaves a settled string as it is. *)
Lemma settled_toLowerCase (s : jsstring) : settled s -> toLowerCase s = s.
Proof.
  intros H. unfold toLowerCase.
  rewrite toLowercase_unmapped by exact H.
  apply codeUnits_StringToCodePoints.
Qed.

Lemma toLowerCase_idempotent (s : jsstring) :
  toLowerCase (toLowerCase s) = toLowerCase s.
Proof. apply settled_toLowerCase, toLowerCase_settled. Qed.

(** Trimming keeps a string settled. *)
Lemma settled_trim (s : jsstring) : settled s -> settled (trim s).
Proof.
  intros H. unfold trim.
  destruct (trimStart_split s) as (ws & E & W).
  destruct (trimEnd_split (trimStart s)) as (ws' & E' & W').
  unfold settled in *.
  rewrite E, StringToCodePoints_app in H
    by (rewrite (lastLeading_whiteSpace ws W); reflexivity).
  apply Forall_app in H. destruct H as [_ H].
  rewrite E', StringToCodePoints_app in H
    by (rewrite (headTrailing_whiteSpace ws' W'); apply andb_false_r).
  apply Forall_app in H. apply H.
Qed.

(** Trimming leaves nothing exactly of a string of white space. *)
Lemma trim_blank (s : jsstring) :
  Forall (fun c => isWhiteSpace c = true) s -> trim s = [].
Proof.
  intros H. unfold trim.
  assert (E : trimStart s = []).
  { induction H as [|c s Hc Hs IH]; [reflexivity|]. simpl. rewrite Hc. exact IH. }
  rewrite E. reflexivity.
Qed.

Lemma trim_not_blank (s : jsstring) :
  Exists (fun c => isWhiteSpace c = false) s -> truthy (trim s) = true.
Proof.
  intros H. unfold trim.
  assert (E : exists c r, trimStart s = c :: r /\ isWhiteSpace c = false).
  { induction s as [|c s IH]; [inversion H|].
    simpl. destruct (isWhiteSpace c) eqn:Hc.
    - apply IH. inversion H as [? ? Hx|? ? Hx]; subst; [congruence | exact Hx].
    - exists c, s. split; [reflexivity | exact Hc]. }
  destruct E as (c & r & E & Hc). rewrite E.
  unfold trimEnd. simpl rev. rewrite trimStart_snoc by exact Hc.
  rewrite rev_app_distr. reflexivity.
Qed.

(** *** White space around a string *)

Lemma whiteSpace_plain (c : N) :
  isWhiteSpace c = true -> lowercaseMapping c = None /\ cased c = false.
Proof.
  unfold isWhiteSpace. intros H.
  repeat (apply orb_true_iff in H; destruct H as [H|H]).
  all: try (apply N.eqb_eq in H; subst c; split; vm_compute; reflexivity).
  apply andb_true_iff in H. destruct H as [L U].
  apply N.leb_le in L. apply N.leb_le in U.
  assert (I : In c (upFrom 8192 11)) by (apply upFrom_In; lia).
  simpl in I.
  repeat (destruct I as [<-|I]; [split; vm_compute; reflexivity|]).
  destruct I.
Qed.

Lemma StringToCodePoints_whiteSpace (ws : jsstring) :
  Forall (fun c => isWhiteSpace c = true) ws ->
  StringToCodePoints ws = map Single ws.
Proof.
  induction 1 as [|c ws Hc Hws IH]; [reflexivity|].
  destruct ws as [|d ws']; [reflexivity|].
  rewrite StringToCodePoints_two, (whiteSpace_not_leading c Hc), IH. reflexivity.
Qed.

(** White space neither is nor hides a cased letter. *)
Lemma casedLetterNext_whiteSpace (l : list CodePoint) (ws : jsstring) :
  Forall (fun c => isWhiteSpace c = true) ws ->
  casedLetterNext (l ++ map Single ws) = casedLetterNext l.
Proof.
  intros W. induction l as [|p l IH]; simpl.
  - induction W as [|c ws Hc Hws IHw]; [reflexivity|].
    simpl. rewrite IHw, (proj2 (whiteSpace_plain c Hc)).
    destruct (caseIgnorable c); reflexivity.
  - rewrite IH. reflexivity.
Qed.

Lemma toLowercase_whiteSpace_after (text before : list CodePoint) (ws : jsstring) :
  Forall (fun c => isWhiteSpace c = true) ws ->
  toLowercase before (text ++ map Single ws) = toLowercase before text ++ ws.
Proof.
  intros W. revert before. induction text as [|p after IH]; intros before.
  - simpl. rewrite toLowercase_unmapped.
    + clear. induction ws as [|c ws IH]; [reflexivity|]. simpl. rewrite IH. reflexivity.
    + apply Forall_map. revert W. apply Forall_impl.
      intros c Hc. exact (proj1 (whiteSpace_plain c Hc)).
  - cbn [app toLowercase]. rewrite IH, <- app_assoc. f_equal.
    unfold lowerCodePoint, finalSigma.
    rewrite casedLetterNext_whiteSpace by exact W. reflexivity.
Qed.

Lemma toLowercase_whiteSpace_far (text before : list CodePoint) (ws : jsstring) :
  Forall (fun c => isWhiteSpace c = true) ws ->
  toLowercase (before ++ map Single ws) text = toLowercase before text.
Proof.
  intros W. revert before. induction text as [|p after IH]; intros before;
    [reflexivity|].
  cbn [toLowercase]. rewrite app_comm_cons, IH. f_equal.
  unfold lowerCodePoint, finalSigma.
  rewrite casedLetterNext_whiteSpace by exact W. reflexivity.
Qed.

Lemma toLowercase_whiteSpace_before (ws : jsstring) (text before : list CodePoint) :
  Forall (fun c => isWhiteSpace c = true) ws ->
  toLowercase before (map Single ws ++ text)
  = ws ++ toLowercase (rev (map Single ws) ++ before) text.
Proof.
  intros W. revert before. induction W as [|c ws Hc Hws IH]; intros before;
    [reflexivity|].
  cbn [map app toLowercase rev]. rewrite IH, <- app_assoc. cbn [app]. f_equal.
  unfold lowerCodePoint. cbn [codePointValue codeUnits].
  rewrite (proj1 (whiteSpace_plain c Hc)).
  destruct (N.eqb_spec c capitalSigma) as [E|E]; [|reflexivity].
  rewrite E in Hc. vm_compute in Hc. discriminate.
Qed.

(** Lower-casing keeps the white space around a string and does not
    look at it. *)
Lemma toLowerCase_padded (ws s ws' : jsstring) :
  Forall (fun c => isWhiteSpace c = true) ws ->
  Forall (fun c => isWhiteSpace c = true) ws' ->
  toLowerCase (ws ++ s ++ ws') = ws ++ toLowerCase s ++ ws'.
Proof.
  intros W W'. unfold toLowerCase.
  rewrite StringToCodePoints_app
    by (rewrite (lastLeading_whiteSpace ws W); reflexivity).
  rewrite StringToCodePoints_app
    by (rewrite (headTrailing_whiteSpace ws' W'); apply andb_false_r).
  rewrite (StringToCodePoints_whiteSpace ws W),
    (StringToCodePoints_whiteSpace ws' W').
  rewrite toLowercase_whiteSpace_before by exact W.
  rewrite toLowercase_whiteSpace_after by exact W'.
  rewrite app_nil_r, <- map_rev.
  change (rev ws) with (rev ws).
  rewrite <- (app_nil_l (map Single (rev ws))).
  rewrite toLowercase_whiteSpace_far by (apply Forall_rev, W).
  reflexivity.
Qed.

Lemma trimStart_whiteSpace (ws s : jsstring) :
  Forall (fun c => isWhiteSpace c = true) ws -> trimStart (ws ++ s) = trimStart s.
Proof.
  induction 1 as [|c ws Hc Hws IH]; [reflexivity|].
  simpl. rewrite Hc. exact IH.
Qed.

Lemma trimStart_app (s t : jsstring) :
  trimStart (s ++ t) = match trimStart s with
                       | [] => trimStart t
                       | c :: r => (c :: r) ++ t
                       end.
Proof.
  induction s as [|c s IH]; simpl.
  - destruct (trimStart t); reflexivity.
  - destruct (isWhiteSpace c); [exact IH | reflexivity].
Qed.

(** Trimming removes the white space around a string. *)
Lemma trim_padded (ws s ws' : jsstring) :
  Forall (fun c => isWhiteSpace c = true) ws ->
  Forall (fun c => isWhiteSpace c = true) ws' ->
  trim (ws ++ s ++ ws') = trim s.
Proof.
  intros W W'. unfold trim.
  rewrite trimStart_whiteSpace by exact W.
  rewrite trimStart_app.
  destruct (trimStart s) as [|c r] eqn:E.
  - rewrite <- (app_nil_r ws'), trimStart_whiteSpace by exact W'. reflexivity.
  - unfold trimEnd. rewrite rev_app_distr.
    rewrite trimStart_whiteSpace by (apply Forall_rev, W'). reflexivity.
Qed.

(** Normalizing a command twice is normalizing it once. *)
Lemma normalize_idempotent (s : jsstring) : normalize (normalize s) = normalize s.
Proof.
  unfold normalize.
  rewrite settled_toLowerCase with (s := trim (toLowerCase s)).
  - apply trim_idempotent.
  - apply settled_trim, toLowerCase_settled.
Qed.

(** White space around a command does not reach the router. *)
Lemma normalize_padded (ws s ws' : jsstring) :
  Forall (fun c => isWhiteSpace c = true) ws ->
  Forall (fun c => isWhiteSpace c = true) ws' ->
  normalize (ws ++ s ++ ws') = normalize s.
Proof.
  intros W W'. unfold normalize.
  rewrite toLowerCase_padded by assumption. apply trim_padded; assumption.
Qed.

End StringFacts.

(** Literals are read as the page's source writes them. *)

Example js_xem : js "xem" = [120; 101; 109]%N.
Proof. reflexivity. Qed.

Example js_hoa_don : js "hóa đơn" = [104; 243; 97; 32; 273; 417; 110]%N.
Proof. reflexivity. Qed.

Example js_escape : js "a\n\x22📋" = [97; 10; 34; 55357; 56523]%N.
Proof. reflexivity. Qed.

Example lower_upper : toLowerCase (js "  XEM DANH SÁCH HÓA ĐƠN ") = js "  xem danh sách hóa đơn ".
Proof. reflexivity. Qed.

(** The capital sigma at the end of a word and inside one, the Kelvin
    sign, Cyrillic, the capital I with dot above, a letter outside the
    basic plane and a surrogate on its own. *)
Example lower_sigma : toLowerCase (js "ΑΣ ΑΣΑ Σ") = js "ας ασα σ".
Proof. reflexivity. Qed.

Example lower_kelvin : toLowerCase [0x212A; 0x4B]%N = js "kk".
Proof. reflexivity. Qed.

Example lower_cyrillic : toLowerCase (js "СЧЁТ") = js "счёт".
Proof. reflexivity. Qed.

Example lower_dotted : toLowerCase (js "İ") = [0x69; 0x307]%N.
Proof. reflexivity. Qed.

Example lower_deseret : toLowerCase (js "𐐀") = js "𐐨".
Proof. reflexivity. Qed.

Example lower_lone_surrogate : toLowerCase [0xD801; 0x41]%N = [0xD801; 0x61]%N.
Proof. reflexivity. Qed.

Example trim_ex : trim (js "  xem  ") = js "xem".
Proof. reflexivity. Qed.

Example digits_ex : digitsOfNat 10 = js "10".
Proof. reflexivity. Qed.

(** ** The router *)

Arguments listMessage : simpl never.
Arguments invoiceMessage : simpl never.
Arguments ocrErrorMessage : simpl never.
Arguments pendingName : simpl never.
Arguments cameraFile : simpl never.
Arguments noFileWarning : simpl never.
Arguments chatFailure : simpl never.

Section RouterFacts.

Variable w : World.
Variable rt : Runtime.

(** The router runs the handler of the intent it selects. *)
Lemma handleChatCommand_dispatch (input : jsstring) (st : Dashboard) :
  handleChatCommand w rt input st = dispatch w rt (intentOf st input) st.
Proof.
  unfold handleChatCommand, intentOf, selectIntent.
  unfold bind at 1. unfold get at 1. cbv beta iota.
  destruct (isViewList (normalize input)); [reflexivity|].
  destruct (isSearch (normalize input)); [reflexivity|].
  destruct (isExportInvoice (normalize input)); [reflexivity|].
  destruct (isExportReport (normalize input)); [reflexivity|].
  destruct (isFilterDate (normalize input)); [reflexivity|].
  destruct (isManage (normalize input)); [reflexivity|].
  destruct (isStatistics (normalize input)); [reflexivity|].
  destruct (isCameraStart (normalize input)); [reflexivity|].
  destruct (isCameraStop (normalize input)); [reflexivity|].
  destruct (isCapture (normalize input) (cameraActive st)); [reflexivity|].
  destruct (isProcess (normalize input)); [reflexivity|].
  destruct (isUploadHelp (normalize input)); reflexivity.
Qed.

Lemma exec_handleChatCommand (input : jsstring) (st : Dashboard) :
  exec (handleChatCommand w rt input) st
  = exec (dispatch w rt (intentOf st input)) st.
Proof. unfold exec. rewrite handleChatCommand_dispatch. reflexivity. Qed.

Lemma intentOf_normalize (st : Dashboard) (input : jsstring) :
  intentOf st (normalize input) = intentOf st input.
Proof. unfold intentOf. rewrite normalize_idempotent. reflexivity. Qed.

End RouterFacts.

(** No intent is selected exactly when none of the patterns matches. *)
Lemma intent_unmatched_iff (st : Dashboard) (input : jsstring) :
  intentOf st input = Unmatched <->
  isViewList (normalize input) = false
  /\ isSearch (normalize input) = false
  /\ isExportInvoice (normalize input) = false
  /\ isExportReport (normalize input) = false
  /\ isFilterDate (normalize input) = false
  /\ isManage (normalize input) = false
  /\ isStatistics (normalize input) = false
  /\ isCameraStart (normalize input) = false
  /\ isCameraStop (normalize input) = false
  /\ isCapture (normalize input) (cameraActive st) = false
  /\ isProcess (normalize input) = false
  /\ isUploadHelp (normalize input) = false.
Proof.
  unfold intentOf, selectIntent. split.
  - repeat match goal with
    | |- context [if ?b then _ else _] => destruct b; try discriminate
    end.
    intros _. repeat split.
  - intros (H1 & H2 & H3 & H4 & H5 & H6 & H7 & H8 & H9 & H10 & H11 & H12).
    rewrite H1, H2, H3, H4, H5, H6, H7, H8, H9, H10, H11, H12. reflexivity.
Qed.

(** The process intent is selected exactly when a process keyword occurs
    and no earlier pattern matches. *)
Lemma intent_process_iff (st : Dashboard) (input : jsstring) :
  intentOf st input = Process <->
  isViewList (normalize input) = false
  /\ isSearch (normalize input) = false
  /\ isExportInvoice (normalize input) = false
  /\ isExportReport (normalize input) = false
  /\ isFilterDate (normalize input) = false
  /\ isManage (normalize input) = false
  /\ isStatistics (normalize input) = false
  /\ isCameraStart (normalize input) = false
  /\ isCameraStop (normalize input) = false
  /\ isCapture (normalize input) (cameraActive st) = false
  /\ isProcess (normalize input) = true.
Proof.
  unfold intentOf, selectIntent. split.
  - repeat match goal with
    | |- context [if ?b then _ else _] => destruct b; try discriminate
    end.
    intros _. repeat split.
  - intros (H1 & H2 & H3 & H4 & H5 & H6 & H7 & H8 & H9 & H10 & H11).
    rewrite H1, H2, H3, H4, H5, H6, H7, H8, H9, H10, H11. reflexivity.
Qed.

(** ** What the handlers do to the session state *)

Section HandlerFacts.

Variable w : World.
Variable rt : Runtime.

(** Case analysis on the next test a handler makes. *)
Ltac branch :=
  match goal with
  | |- context [match ?x with _ => _ end] =>
      lazymatch x with
      | context [match _ with _ => _ end] => fail
      | _ => destruct x eqn:?; simpl
      end
  end.

Ltac run :=
  unfold exec, tryCatch, finally, bind, awaitFetch, awaitJson, defined,
    setTimeout, throw, ret, get;
  simpl; repeat branch.

(** The action buttons answer in the chat, call nothing but the invoice
    list, and leave the session state alone. *)
Lemma handleActionButton_ok (action : jsstring) (st : Dashboard) :
  fst (handleActionButton w rt action st) = Ok tt.
Proof.
  unfold handleActionButton. run; reflexivity.
Qed.

Lemma handleActionButton_session (action : jsstring) (st : Dashboard) :
  session (exec (handleActionButton w rt action) st) = session st.
Proof.
  unfold handleActionButton. run; reflexivity.
Qed.

Lemma viewList_calls (action : jsstring) (st : Dashboard) :
  includes action (js "Xem danh sách") = true ->
  calls (exec (handleActionButton w rt action) st) = calls st ++ [GetInvoices].
Proof.
  intros H. unfold handleActionButton. rewrite H. run; reflexivity.
Qed.

Lemma handleStopCamera_session (st : Dashboard) :
  session (exec handleStopCamera st) = (uploadedFile st, false).
Proof. unfold handleStopCamera. run; reflexivity. Qed.

Lemma handleStartCamera_session (st : Dashboard) :
  session (exec (handleStartCamera w) st) = (None, cameraGranted w).
Proof. unfold handleStartCamera. run; reflexivity. Qed.

Lemma handleFileUpload_session (f : File) (files : list File) (st : Dashboard) :
  session (exec (handleFileUpload w (f :: files)) st) = (Some f, false).
Proof. unfold handleFileUpload. run; reflexivity. Qed.

Lemma handleFileUpload_none (st : Dashboard) :
  exec (handleFileUpload w []) st = st.
Proof. reflexivity. Qed.

(** A capture that yields a picture stores it and stops the camera; one
    that yields none changes nothing. *)
Lemma handleCapturePhoto_cases (st : Dashboard) :
  (isSome (videoRef st) && context2d w && blobMade w = true
   /\ session (exec (handleCapturePhoto w) st) = (Some (cameraFile w), false))
  \/ (isSome (videoRef st) && context2d w && blobMade w = false
      /\ exec (handleCapturePhoto w) st = st).
Proof.
  unfold handleCapturePhoto, handleStopCamera. run; auto.
Qed.

(** Processing either clears both the file and the camera (a record came
    back) or leaves the session state as it was. *)
Lemma handleProcessInvoice_cases (st : Dashboard) :
  session (exec (handleProcessInvoice w rt) st) = (None, false)
  \/ session (exec (handleProcessInvoice w rt) st) = session st.
Proof.
  unfold handleProcessInvoice, handleStopCamera. run; auto.
Qed.

End HandlerFacts.

(** ** Sequencing and the session state *)

Lemma exec_bind {A B} (m : Eff A) (k : A -> Eff B) (st : Dashboard) :
  exec (bind m k) st =
  match m st with
  | (Ok a, s') => exec (k a) s'
  | (Throw _, s') => s'
  end.
Proof. unfold exec, bind. destruct (m st) as [[a|e] s']; reflexivity. Qed.

Lemma exec_get {B} (k : Dashboard -> Eff B) (st : Dashboard) :
  exec (bind get k) st = exec (k st) st.
Proof. reflexivity. Qed.

Lemma exec_then_ret {A B} (m : Eff A) (b : B) (st : Dashboard) :
  exec (bind m (fun _ => ret b)) st = exec m st.
Proof. unfold exec, bind. destruct (m st) as [[a|e] s']; reflexivity. Qed.

(** A continuation that keeps the session state does not change what the
    first part left. *)
Lemma session_bind {A B} (m : Eff A) (k : A -> Eff B) (st : Dashboard) :
  (forall a s, session (exec (k a) s) = session s) ->
  session (exec (bind m k) st) = session (exec m st).
Proof.
  intros Hk. rewrite exec_bind. unfold exec at 2.
  destruct (m st) as [[a|e] s']; simpl; [apply Hk | reflexivity].
Qed.

Lemma session_tryCatch {A} (m : Eff A) (h : Exn -> Eff A) (st : Dashboard) :
  (forall e s, session (exec (h e) s) = session s) ->
  session (exec (tryCatch m h) st) = session (exec m st).
Proof.
  intros Hh. unfold exec, tryCatch.
  destruct (m st) as [[a|e] s']; simpl; [reflexivity | apply Hh].
Qed.

Lemma exclusive_session (a b : Dashboard) :
  session a = session b -> exclusive b -> exclusive a.
Proof.
  unfold session, exclusive. intros E H. inversion E as [[E1 E2]].
  rewrite E1, E2. exact H.
Qed.

Lemma exclusive_cleared (a : Dashboard) (f : option File) :
  session a = (f, false) -> exclusive a.
Proof. unfold session, exclusive. intros E. inversion E. right. reflexivity. Qed.

Lemma exclusive_no_file (a : Dashboard) (b : bool) :
  session a = (None, b) -> exclusive a.
Proof. unfold session, exclusive. intros E. inversion E. left. reflexivity. Qed.

Section SessionFacts.

Variable w : World.
Variable rt : Runtime.

Lemma addBotMessage_session (t : jsstring) (s : Dashboard) :
  session (exec (addBotMessage w t) s) = session s.
Proof. reflexivity. Qed.

Lemma ret_session {A} (a : A) (s : Dashboard) : session (exec (ret a) s) = session s.
Proof. reflexivity. Qed.

(** Every session handler keeps the file and the camera exclusive. *)
Lemma handleProcessInvoice_exclusive (st : Dashboard) :
  exclusive st -> exclusive (exec (handleProcessInvoice w rt) st).
Proof.
  intros H. destruct (handleProcessInvoice_cases w rt st) as [E|E].
  - exact (exclusive_cleared _ _ E).
  - exact (exclusive_session _ _ E H).
Qed.

Lemma handleCapturePhoto_exclusive (st : Dashboard) :
  exclusive st -> exclusive (exec (handleCapturePhoto w) st).
Proof.
  intros H. destruct (handleCapturePhoto_cases w st) as [[_ E]|[_ E]].
  - exact (exclusive_cleared _ _ E).
  - rewrite E. exact H.
Qed.

Lemma dispatch_exclusive (i : Intent) (st : Dashboard) :
  exclusive st -> exclusive (exec (dispatch w rt i) st).
Proof.
  intros H.
  assert (button : forall a,
    exclusive (exec (handleActionButton w rt a ;; ret true) st)).
  { intros a. rewrite exec_then_ret.
    apply exclusive_session with (b := st); [|exact H].
    apply handleActionButton_session. }
  destruct i; simpl dispatch; try apply button.
  - (* Manage *) exact H.
  - (* CameraStart *)
    rewrite exec_get, exec_then_ret.
    destruct (cameraActive st) eqn:Ec; simpl negb; cbv iota.
    + exact H.
    + apply exclusive_no_file with (b := cameraGranted w).
      rewrite session_bind by (intros; reflexivity).
      apply handleStartCamera_session.
  - (* CameraStop *)
    rewrite exec_get, exec_then_ret.
    destruct (cameraActive st) eqn:Ec; cbv iota.
    + apply exclusive_cleared with (f := uploadedFile st).
      rewrite session_bind by (intros; reflexivity).
      apply handleStopCamera_session.
    + exact H.
  - (* CameraCapture *)
    apply exclusive_session with (b := exec (handleCapturePhoto w) st);
      [|apply handleCapturePhoto_exclusive, H].
    apply session_bind. intros. reflexivity.
  - (* Process *)
    rewrite exec_get.
    destruct (isSome (uploadedFile st) || cameraActive st).
    + rewrite exec_then_ret. apply handleProcessInvoice_exclusive, H.
    + exact H.
  - (* UploadHelp *) exact H.
  - (* Unmatched *) exact H.
Qed.

(** Sending a message changes the session state only through the handler
    the router dispatched to. *)
Lemma handleSendMessage_session (st : Dashboard) :
  session (exec (handleSendMessage w rt) st) = session st
  \/ exists st1,
       session st1 = session st /\
       session (exec (handleSendMessage w rt) st)
       = session (exec (dispatch w rt (intentOf st (inputMessage st))) st1).
Proof.
  unfold handleSendMessage. rewrite exec_get.
  destruct (truthy (trim (inputMessage st))); [|left; reflexivity].
  do 3 (rewrite exec_bind; simpl).
  rewrite session_tryCatch by (intros; reflexivity).
  rewrite exec_bind; simpl. rewrite exec_bind.
  destruct (chatApi w (inputMessage st)) as [|ok body]; simpl; [left; reflexivity|].
  rewrite exec_bind.
  destruct ok; simpl; [|left; reflexivity].
  rewrite exec_bind.
  destruct body as [data|]; simpl; [|left; reflexivity].
  right. eexists. split; [|].
  2: { rewrite session_bind.
       - rewrite exec_handleChatCommand. reflexivity.
       - intros [|] s; reflexivity. }
  reflexivity.
Qed.

End SessionFacts.

(** ** The command router: what it selects and runs *)

Lemma length_snoc {A} (l : list A) (x : A) : length (l ++ [x]) = length l + 1.
Proof. rewrite length_app. reflexivity. Qed.

(** C5: command routing is invariant under letter case and leading or
    trailing white space.  For every input [s] and every state of the
    page, the intent selected for [s] is the intent selected for its
    lower-cased, trimmed form, and the router does the same on both; an
    input [s'] with the same lower-cased, trimmed form selects the same
    intent and is handled in the same way; and white space put before
    and after [s] changes nothing. *)
Theorem routing_normalization_invariant
  (w : World) (rt : Runtime) (st : Dashboard) (s s' : jsstring) :
  trim (toLowerCase s') = trim (toLowerCase s) ->
  intentOf st (trim (toLowerCase s)) = intentOf st s
  /\ handleChatCommand w rt (trim (toLowerCase s)) st = handleChatCommand w rt s st
  /\ intentOf st s' = intentOf st s
  /\ handleChatCommand w rt s' st = handleChatCommand w rt s st
  /\ (forall ws ws',
        Forall (fun c => isWhiteSpace c = true) ws ->
        Forall (fun c => isWhiteSpace c = true) ws' ->
        intentOf st (ws ++ s ++ ws') = intentOf st s).
Proof.
  intros E.
  assert (I : intentOf st s' = intentOf st s).
  { unfold intentOf, normalize. rewrite E. reflexivity. }
  change (trim (toLowerCase s)) with (normalize s).
  split; [apply intentOf_normalize|]. split; [|split; [exact I|split]].
  - rewrite 2 handleChatCommand_dispatch, intentOf_normalize. reflexivity.
  - rewrite 2 handleChatCommand_dispatch, I. reflexivity.
  - intros ws ws' W W'. unfold intentOf.
    rewrite normalize_padded by assumption. reflexivity.
Qed.

(** C5: an instance, the view-list command in capitals between white
    space. *)
Lemma routing_normalization_invariant_witness :
  intentOf initialDashboard (js "  XEM Danh Sách HÓA ĐƠN \n") = ViewList
  /\ intentOf initialDashboard (js "\n " ++ js "xem danh sách hóa đơn" ++ js "  ")
     = ViewList.
Proof.
  destruct (routing_normalization_invariant (Samples.world Rejected) Samples.runtime
              initialDashboard (js "xem danh sách hóa đơn")
              (js "  XEM Danh Sách HÓA ĐƠN \n"))
    as (_ & _ & I & _ & P); [vm_compute; reflexivity|].
  split.
  - rewrite I. vm_compute. reflexivity.
  - rewrite (P (js "\n ") (js "  ")) by (vm_compute; repeat constructor).
    vm_compute. reflexivity.
Defined.

(** The router on some commands of the page's help texts. *)

Example route_export_by_month :
  intentOf initialDashboard (js "Xuất hóa đơn tháng 11") = Export.
Proof. vm_compute. reflexivity. Qed.

Example route_filter_by_month :
  intentOf initialDashboard (js "hóa đơn trong tháng 11") = FilterDate.
Proof. vm_compute. reflexivity. Qed.

Example route_search :
  intentOf initialDashboard (js "Tìm hóa đơn INV-12345") = Search.
Proof. vm_compute. reflexivity. Qed.

Example route_open_camera :
  intentOf initialDashboard (js "mở camera") = CameraStart.
Proof. vm_compute. reflexivity. Qed.

Example route_capture :
  intentOf (Samples.typing [] None true) (js "chụp") = CameraCapture.
Proof. vm_compute. reflexivity. Qed.

Example route_process :
  intentOf initialDashboard (js "xử lý hóa đơn") = Process.
Proof. vm_compute. reflexivity. Qed.

Example route_greeting :
  intentOf initialDashboard (js "Chào bạn") = Unmatched.
Proof. vm_compute. reflexivity. Qed.

(** C3, counterexample: this input matches an export pattern and the
    date-filter pattern, and the router dispatches it to the view-list
    handler, whose outcome differs from the export handler's. *)
Lemma export_not_always_chosen :
  isExport (normalize viewExportFilter) = true
  /\ isFilterDate (normalize viewExportFilter) = true
  /\ intentOf initialDashboard viewExportFilter = ViewList
  /\ handleChatCommand (Samples.world Rejected) Samples.runtime
       viewExportFilter initialDashboard
     <> dispatch (Samples.world Rejected) Samples.runtime Export initialDashboard.
Proof.
  split; [vm_compute; reflexivity|].
  split; [vm_compute; reflexivity|].
  split; [vm_compute; reflexivity|].
  vm_compute. discriminate.
Qed.

(** C3, amended: an input that matches an export pattern is never
    dispatched to the date-filter handler, also when it matches the
    date-filter pattern: it goes to the export handler unless the
    view-list or the search pattern, which are tested earlier, matches
    too, and then it goes to that handler. *)
Theorem export_before_date_filter
  (w : World) (rt : Runtime) (st : Dashboard) (s : jsstring) :
  isExport (normalize s) = true ->
  intentOf st s <> FilterDate
  /\ (intentOf st s = ViewList \/ intentOf st s = Search \/ intentOf st s = Export)
  /\ (isViewList (normalize s) = false -> isSearch (normalize s) = false ->
      intentOf st s = Export
      /\ handleChatCommand w rt s st
         = (handleActionButton w rt (js "📊 Xuất báo cáo") ;; ret true) st).
Proof.
  intros H. unfold isExport in H.
  assert (cases : intentOf st s = ViewList \/ intentOf st s = Search
                  \/ intentOf st s = Export).
  { unfold intentOf, selectIntent.
    destruct (isViewList (normalize s)); [left; reflexivity|].
    destruct (isSearch (normalize s)); [right; left; reflexivity|].
    destruct (isExportInvoice (normalize s)); [right; right; reflexivity|].
    simpl in H. rewrite H. right; right; reflexivity. }
  split; [|split; [exact cases|]].
  - destruct cases as [E|[E|E]]; rewrite E; discriminate.
  - intros Hv Hs.
    assert (E : intentOf st s = Export).
    { unfold intentOf, selectIntent. rewrite Hv, Hs.
      destruct (isExportInvoice (normalize s)); [reflexivity|].
      simpl in H. rewrite H. reflexivity. }
    split; [exact E|].
    rewrite handleChatCommand_dispatch, E. reflexivity.
Qed.

(** C3, amended: an instance, an export request by month. *)
Lemma export_before_date_filter_witness :
  isExport (normalize (js "Lọc và xuất báo cáo tháng 11")) = true
  /\ isFilterDate (normalize (js "Lọc và xuất báo cáo tháng 11")) = true
  /\ intentOf initialDashboard (js "Lọc và xuất báo cáo tháng 11") = Export.
Proof.
  split; [vm_compute; reflexivity|].
  split; [vm_compute; reflexivity|].
  refine (proj1 (proj2 (proj2
    (export_before_date_filter (Samples.world Rejected) Samples.runtime
       initialDashboard (js "Lọc và xuất báo cáo tháng 11") _)) _ _)).
  all: vm_compute; reflexivity.
Defined.

(** C10: a process command that arrives while there is neither a pending
    file nor an active camera is answered with the warning alone, whose
    text is the one of the source: the router returns true, makes no
    call, and changes nothing but the chat; [handleProcessInvoice] itself
    does nothing in such a state.  When the message came through the
    chat box it has been posted to the chat service before the router
    sees it; if the service answers, its reply is not shown and the
    warning is. *)
Theorem process_guard
  (w : World) (rt : Runtime) (st : Dashboard) (input : jsstring) :
  intentOf st input = Process ->
  uploadedFile st = None ->
  cameraActive st = false ->
  let st' := exec (handleChatCommand w rt input) st in
  fst (handleChatCommand w rt input st) = Ok true
  /\ messages st' = messages st ++ [botReply w (length (messages st)) noFileWarning]
  /\ map text (messages st')
     = map text (messages st)
       ++ [js "⚠️ **Chưa có hóa đơn để xử lý!**\n\nVui lòng:\n• Gõ \x22mở camera\x22 để chụp ảnh\n• Hoặc upload file từ nút bên trái"]
  /\ calls st' = calls st
  /\ session st' = session st
  /\ handleProcessInvoice w rt st = (Ok tt, st)
  /\ (forall data,
        inputMessage st = input ->
        truthy (trim input) = true ->
        chatApi w input = Response true (Some data) ->
        let sent := exec (handleSendMessage w rt) st in
        messages sent
        = messages st
          ++ [mkMessage w (length (messages st) + 1) input user;
              botReply w (length (messages st) + 1) noFileWarning]
        /\ calls sent = calls st ++ [PostChat input]
        /\ session sent = session st).
Proof.
  intros Hi Hf Hc st'. subst st'.
  rewrite exec_handleChatCommand, handleChatCommand_dispatch, Hi.
  unfold handleProcessInvoice.
  unfold exec; simpl. unfold bind, get; simpl. rewrite Hf, Hc. simpl.
  split; [reflexivity|]. split; [reflexivity|].
  split; [rewrite map_app; unfold noFileWarning; reflexivity|].
  do 3 (split; [reflexivity|]).
  intros data Hin Ht Hchat.
  unfold handleSendMessage, tryCatch, bind, get; simpl.
  rewrite Hin, Ht; simpl. rewrite Hchat; simpl.
  rewrite handleChatCommand_dispatch.
  unfold intentOf in *. simpl cameraActive. rewrite Hi.
  simpl. unfold bind, get; simpl. rewrite Hf, Hc; simpl.
  rewrite length_snoc, <- app_assoc.
  split; [reflexivity|]. split; [reflexivity|].
  unfold session; simpl. rewrite Hf, Hc. reflexivity.
Qed.

(** C10: an instance, the command [xử lý] typed on the fresh page: the
    texts of the chat, the result and the calls. *)
Lemma process_guard_witness :
  map text (messages (exec (handleChatCommand (Samples.world Rejected) Samples.runtime
                              (js "xử lý")) initialDashboard))
  = map text (messages initialDashboard)
    ++ [js "⚠️ **Chưa có hóa đơn để xử lý!**\n\nVui lòng:\n• Gõ \x22mở camera\x22 để chụp ảnh\n• Hoặc upload file từ nút bên trái"]
  /\ fst (handleChatCommand (Samples.world Rejected) Samples.runtime (js "xử lý")
            initialDashboard) = Ok true
  /\ calls (exec (handleChatCommand (Samples.world Rejected) Samples.runtime
                    (js "xử lý")) initialDashboard) = [].
Proof.
  assert (I : intentOf initialDashboard (js "xử lý") = Process)
    by (vm_compute; reflexivity).
  destruct (process_guard (Samples.world Rejected) Samples.runtime
              initialDashboard (js "xử lý") I eq_refl eq_refl)
    as (A & _ & T & B & _).
  split; [exact T|]. split; [exact A | exact B].
Defined.

(** C1: the command router sends [xem danh sách hóa đơn] (any input whose
    case-folded, trimmed form is that text) to the view-list handler,
    which queries the invoice list; and an input that matches none of the
    patterns is left to the fallback, which shows the chat service's
    answer to the raw text, unchanged. *)
Theorem command_routing
  (w : World) (rt : Runtime) (st : Dashboard) (input : jsstring) :
  (normalize input = js "xem danh sách hóa đơn" ->
     intentOf st input = ViewList
     /\ handleChatCommand w rt input st
        = (handleActionButton w rt (js "📋 Xem danh sách hóa đơn") ;; ret true) st
     /\ fst (handleChatCommand w rt input st) = Ok true
     /\ calls (exec (handleChatCommand w rt input) st) = calls st ++ [GetInvoices])
  /\ (intentOf st input = Unmatched ->
        handleChatCommand w rt input st = (Ok false, st)
        /\ forall data,
             inputMessage st = input ->
             truthy (trim input) = true ->
             chatApi w input = Response true (Some data) ->
             messages (exec (handleSendMessage w rt) st)
             = messages st
               ++ [mkMessage w (length (messages st) + 1) input user;
                   botReply w (length (messages st) + 1) (response_text data)]
             /\ calls (exec (handleSendMessage w rt) st)
                = calls st ++ [PostChat input]).
Proof.
  split.
  - intros Hn.
    assert (E : intentOf st input = ViewList).
    { unfold intentOf. rewrite Hn. vm_compute. reflexivity. }
    split; [exact E|].
    rewrite exec_handleChatCommand, handleChatCommand_dispatch, E.
    simpl dispatch. split; [reflexivity|]. split.
    + unfold bind.
      pose proof (handleActionButton_ok w rt (js "📋 Xem danh sách hóa đơn") st) as Hok.
      destruct (handleActionButton w rt (js "📋 Xem danh sách hóa đơn") st) as [r s'].
      simpl in Hok. rewrite Hok. reflexivity.
    + rewrite exec_then_ret. apply viewList_calls. vm_compute. reflexivity.
  - intros Hu. split.
    + rewrite handleChatCommand_dispatch, Hu. reflexivity.
    + intros data Hin Ht Hchat.
      unfold handleSendMessage, exec, tryCatch, bind, get; simpl.
      rewrite Hin, Ht; simpl. rewrite Hchat; simpl.
      rewrite handleChatCommand_dispatch.
      unfold intentOf in *. simpl cameraActive. rewrite Hu. simpl.
      rewrite length_snoc, <- app_assoc. split; reflexivity.
Qed.

(** C1: instances, the command in capitals with spaces around it, and a
    greeting that no pattern matches. *)
Lemma command_routing_witness :
  intentOf initialDashboard (js "  Xem Danh Sách HÓA ĐƠN ") = ViewList
  /\ calls (exec (handleChatCommand (Samples.world Rejected) Samples.runtime
                    (js "  Xem Danh Sách HÓA ĐƠN ")) initialDashboard)
     = [GetInvoices]
  /\ map text (messages (exec (handleSendMessage (Samples.world Rejected) Samples.runtime)
                           (Samples.typing (js "Chào bạn") None false)))
     = map text (messages initialDashboard)
       ++ [js "Chào bạn"; js "Xin chào! Chào bạn"].
Proof.
  destruct (command_routing (Samples.world Rejected) Samples.runtime
              initialDashboard (js "  Xem Danh Sách HÓA ĐƠN ")) as [V _].
  destruct V as (A & _ & _ & B); [vm_compute; reflexivity|].
  destruct (command_routing (Samples.world Rejected) Samples.runtime
              (Samples.typing (js "Chào bạn") None false) (js "Chào bạn")) as [_ U].
  destruct U as [_ U]; [vm_compute; reflexivity|].
  destruct (U {| response_text := js "Xin chào! Chào bạn" |}) as [M _];
    try (vm_compute; reflexivity).
  split; [exact A|]. split; [exact B|].
  rewrite M. vm_compute. reflexivity.
Defined.

(** C4: on the fallback path (no intent pattern matched) the pending
    upload and the camera flag are left as they were: the router returns
    false without touching the page, and sending the message keeps the
    session state, whatever the chat service answers.  Read the other way
    round: when sending a message changed the session state, an intent
    matched. *)
Theorem fallback_keeps_session (w : World) (rt : Runtime) (st : Dashboard) :
  (intentOf st (inputMessage st) = Unmatched ->
     handleChatCommand w rt (inputMessage st) st = (Ok false, st)
     /\ uploadedFile (exec (handleSendMessage w rt) st) = uploadedFile st
     /\ cameraActive (exec (handleSendMessage w rt) st) = cameraActive st)
  /\ (session (exec (handleSendMessage w rt) st) <> session st ->
      intentOf st (inputMessage st) <> Unmatched).
Proof.
  assert (frame : intentOf st (inputMessage st) = Unmatched ->
                  session (exec (handleSendMessage w rt) st) = session st).
  { intros Hu.
    destruct (handleSendMessage_session w rt st) as [E|(st1 & E1 & E)];
      [exact E|].
    rewrite E, Hu. exact E1. }
  split.
  - intros Hu. split.
    + rewrite handleChatCommand_dispatch, Hu. reflexivity.
    + specialize (frame Hu). unfold session in frame.
      inversion frame as [[Ef Ec]]. rewrite Ef, Ec. split; reflexivity.
  - intros Hne Hu. apply Hne, frame, Hu.
Qed.

(** C4: an instance, a greeting typed while a file is pending. *)
Lemma fallback_keeps_session_witness :
  uploadedFile (exec (handleSendMessage (Samples.world Rejected) Samples.runtime)
                  (Samples.typing (js "Chào bạn") (Some Samples.billFile) false))
  = Some Samples.billFile.
Proof.
  destruct (fallback_keeps_session (Samples.world Rejected) Samples.runtime
              (Samples.typing (js "Chào bạn") (Some Samples.billFile) false))
    as [F _].
  destruct F as (_ & A & _); [vm_compute; reflexivity|].
  exact A.
Defined.

(** The page asks the chat service before it routes: when that call
    fails, no command is run and the chat shows the failure notice. *)
Lemma chat_failure_skips_router (w : World) (rt : Runtime) (st : Dashboard) :
  truthy (trim (inputMessage st)) = true ->
  chatApi w (inputMessage st) = Rejected ->
  messages (exec (handleSendMessage w rt) st)
  = messages st
    ++ [mkMessage w (length (messages st) + 1) (inputMessage st) user;
        botReply w (length (messages st) + 1) chatFailure]
  /\ calls (exec (handleSendMessage w rt) st)
     = calls st ++ [PostChat (inputMessage st)]
  /\ session (exec (handleSendMessage w rt) st) = session st.
Proof.
  intros Ht Hchat.
  unfold handleSendMessage, exec, tryCatch, bind, get; simpl.
  rewrite Ht; simpl. rewrite Hchat; simpl.
  rewrite length_snoc, <- app_assoc. repeat split.
Qed.

(** A blank message is not sent at all. *)
Lemma blank_message_ignored (w : World) (rt : Runtime) (st : Dashboard) :
  truthy (trim (inputMessage st)) = false ->
  handleSendMessage w rt st = (Ok tt, st).
Proof.
  intros Ht. unfold handleSendMessage, bind, get. rewrite Ht. reflexivity.
Qed.

(** ** Processing: the engine is unavailable *)

Lemma occursIn_here (part post : jsstring) : occursIn part (part ++ post).
Proof. exists [], post. reflexivity. Qed.

Lemma occursIn_after (pre part whole : jsstring) :
  occursIn part whole -> occursIn part (pre ++ whole).
Proof.
  intros (a & b & ->). exists (pre ++ a), b. rewrite <- app_assoc. reflexivity.
Qed.

Lemma occursIn_before (part whole post : jsstring) :
  occursIn part whole -> occursIn part (whole ++ post).
Proof.
  intros (a & b & ->). exists a, (b ++ post).
  rewrite <- !app_assoc. reflexivity.
Qed.

Lemma occursIn_lines (i : jsstring) (l : list jsstring) :
  In i l -> occursIn i (flat_map (fun instruction => instruction ++ js "\n") l).
Proof.
  induction l as [|x l IH]; simpl; [intros []|].
  intros [->|H].
  - rewrite <- app_assoc. apply occursIn_here.
  - apply occursIn_after, IH, H.
Qed.

Ltac skip_to_part :=
  repeat first [ apply occursIn_here | apply occursIn_after ].

(** C6: when the upload is answered with the error OCR_NOT_AVAILABLE
    and its details, the chat shows, after the user's line, one message
    whose text carries the reason, every instruction and the download
    link; the upload was called once and is not called again; the
    pending file and the camera stay as they were, no invoice is shown,
    and the page is no longer busy. *)
Theorem engine_unavailable_surfaced
  (w : World) (rt : Runtime) (st : Dashboard)
  (ok : bool) (data : UploadData) (details : OcrDetails) :
  isSome (uploadedFile st) || cameraActive st = true ->
  uploadApi w (uploadedFile st) = Response ok (Some data) ->
  fieldIs (data_status data) (js "error") = true ->
  fieldIs (data_error data) (js "OCR_NOT_AVAILABLE") = true ->
  data_details data = Some details ->
  let st' := exec (handleProcessInvoice w rt) st in
  fst (handleProcessInvoice w rt st) = Ok tt
  /\ messages st'
     = messages st
       ++ [mkMessage w (length (messages st) + 1)
             (js "Xử lý hóa đơn: " ++ pendingName (uploadedFile st)) user;
           botReply w (length (messages st) + 1) (ocrErrorMessage data details)]
  /\ map text (messages st')
     = map text (messages st)
       ++ [js "Xử lý hóa đơn: " ++ pendingName (uploadedFile st);
           ocrErrorMessage data details]
  /\ occursIn (reason details) (ocrErrorMessage data details)
  /\ (forall i, In i (instructions details) ->
        occursIn i (ocrErrorMessage data details))
  /\ occursIn (download_url details) (ocrErrorMessage data details)
  /\ calls st' = calls st ++ [PostUpload (uploadedFile st)]
  /\ session st' = session st
  /\ isProcessing st' = false
  /\ isTyping st' = false.
Proof.
  intros Hp Hup Hs He Hd st'. subst st'.
  assert (Hg : negb (isSome (uploadedFile st)) && negb (cameraActive st) = false).
  { destruct (isSome (uploadedFile st)), (cameraActive st);
      simpl in *; congruence. }
  unfold handleProcessInvoice, exec, finally, tryCatch, bind, get; simpl.
  rewrite Hg; simpl. rewrite Hup; simpl. rewrite Hs, He; simpl.
  rewrite Hd; simpl.
  rewrite length_snoc, <- app_assoc.
  split; [reflexivity|]. split; [reflexivity|].
  split; [rewrite map_app; reflexivity|].
  split; [|split; [|split]].
  - unfold ocrErrorMessage. skip_to_part.
  - intros i Hi. unfold ocrErrorMessage.
    do 7 apply occursIn_after. apply occursIn_before.
    apply occursIn_lines, Hi.
  - unfold ocrErrorMessage. skip_to_part.
  - repeat split.
Qed.

(** C6: an instance, a pending file and a server without its engine:
    the texts of the chat, the call and the session. *)
Lemma engine_unavailable_surfaced_witness :
  map text (messages (exec (handleProcessInvoice
                              (Samples.world (Response true (Some Samples.ocrDown)))
                              Samples.runtime)
                        (Samples.typing [] (Some Samples.billFile) false)))
  = map text (messages (Samples.typing [] (Some Samples.billFile) false))
    ++ [js "Xử lý hóa đơn: bill.jpg";
        js "❌ **Tesseract OCR chưa được cài đặt**\n\n⚠️ **Lý do:** Không tìm thấy tesseract trên máy chủ\n\n🔧 **Cách khắc phục:**\n\n1. Tải Tesseract\n2. Cài đặt và thêm vào PATH\n\n📥 **Link tải:** https://github.com/UB-Mannheim/tesseract/wiki\n\n💡 **Lưu ý:** Sau khi cài đặt, nhớ restart backend server!"]
  /\ calls (exec (handleProcessInvoice
                    (Samples.world (Response true (Some Samples.ocrDown)))
                    Samples.runtime)
              (Samples.typing [] (Some Samples.billFile) false))
     = [PostUpload (Some Samples.billFile)]
  /\ session (exec (handleProcessInvoice
                      (Samples.world (Response true (Some Samples.ocrDown)))
                      Samples.runtime)
                (Samples.typing [] (Some Samples.billFile) false))
     = (Some Samples.billFile, false).
Proof.
  pose proof (engine_unavailable_surfaced
    (Samples.world (Response true (Some Samples.ocrDown))) Samples.runtime
    (Samples.typing [] (Some Samples.billFile) false)
    true Samples.ocrDown
    {| reason := js "Không tìm thấy tesseract trên máy chủ";
       instructions := [js "1. Tải Tesseract"; js "2. Cài đặt và thêm vào PATH"];
       download_url := js "https://github.com/UB-Mannheim/tesseract/wiki" |}) as H.
  destruct H as (_ & _ & T & _ & _ & _ & C & S & _); try (vm_compute; reflexivity).
  split; [rewrite T; vm_compute; reflexivity|].
  split; [exact C|]. rewrite S. reflexivity.
Defined.

(** Without the details that the page reads, the same error is met with
    the general failure notice. *)
Lemma engine_unavailable_without_details
  (w : World) (rt : Runtime) (st : Dashboard) (ok : bool) (data : UploadData) :
  isSome (uploadedFile st) || cameraActive st = true ->
  uploadApi w (uploadedFile st) = Response ok (Some data) ->
  fieldIs (data_status data) (js "error") = true ->
  fieldIs (data_error data) (js "OCR_NOT_AVAILABLE") = true ->
  data_details data = None ->
  map text (messages (exec (handleProcessInvoice w rt) st))
  = map text (messages st)
    ++ [js "Xử lý hóa đơn: " ++ pendingName (uploadedFile st);
        js "❌ Có lỗi xảy ra khi xử lý hóa đơn. Vui lòng thử lại!"].
Proof.
  intros Hp Hup Hs He Hd.
  assert (Hg : negb (isSome (uploadedFile st)) && negb (cameraActive st) = false).
  { destruct (isSome (uploadedFile st)), (cameraActive st);
      simpl in *; congruence. }
  unfold handleProcessInvoice, exec, finally, tryCatch, bind, get; simpl.
  rewrite Hg; simpl. rewrite Hup; simpl. rewrite Hs, He; simpl.
  rewrite Hd; simpl.
  rewrite !map_app, <- app_assoc. reflexivity.
Qed.

(** ** The reliability indicator *)







(** A record that comes back from an upload, of low confidence or not, is
    shown as processed, not as a failure, and the pending file and the
    camera are cleared. *)
Lemma low_confidence_processed
  (w : World) (rt : Runtime) (st : Dashboard) (data : UploadData) (inv : Invoice) :
  isSome (uploadedFile st) || cameraActive st = true ->
  uploadApi w (uploadedFile st) = Response true (Some data) ->
  fieldIs (data_status data) (js "error") = false ->
  data_invoice data = Some inv ->
  map text (messages (exec (handleProcessInvoice w rt) st))
  = map text (messages st)
    ++ [js "Xử lý hóa đơn: " ++ pendingName (uploadedFile st);
        js "🔍 Đang phân tích hóa đơn...";
        invoiceMessage rt data inv;
        js "📤 **Tiếp theo:**\n\n• Upload file mới\n• Gõ \x22**mở camera**\x22 để chụp tiếp\n• Gõ \x22**xem danh sách**\x22 để xem tất cả hóa đơn"]
  /\ session (exec (handleProcessInvoice w rt) st) = (None, false).
Proof.
  intros Hp Hup Hs Hd.
  assert (Hg : negb (isSome (uploadedFile st)) && negb (cameraActive st) = false).
  { destruct (isSome (uploadedFile st)), (cameraActive st);
      simpl in *; congruence. }
  unfold handleProcessInvoice, handleStopCamera, exec, finally, tryCatch, bind, get;
    simpl.
  rewrite Hg; simpl. rewrite Hup; simpl. rewrite Hs; simpl. rewrite Hd; simpl.
  destruct (cameraActive st); simpl;
    [destruct (videoRef st) as [[|]|]; simpl|].
  all: rewrite !map_app; cbn [map text mkMessage]; rewrite <- !app_assoc.
  all: split; reflexivity.
Qed.

(** ** The session state: the file and the camera exclude each other *)

Lemma perform_exclusive (w : World) (rt : Runtime) (a : Action) (s : Dashboard) :
  exclusive s -> exclusive (exec (perform w rt a) s).
Proof.
  intros H. destruct a as [files| | | | |input]; simpl perform.
  - destruct files as [|f files]; [exact H|].
    apply exclusive_cleared with (f := Some f), handleFileUpload_session.
  - apply exclusive_no_file with (b := cameraGranted w), handleStartCamera_session.
  - apply exclusive_cleared with (f := uploadedFile s), handleStopCamera_session.
  - apply handleCapturePhoto_exclusive, H.
  - apply handleProcessInvoice_exclusive, H.
  - rewrite exec_bind. simpl.
    match goal with |- exclusive (exec _ ?s1) => set (st1 := s1) end.
    assert (H1 : exclusive st1) by exact H.
    destruct (handleSendMessage_session w rt st1) as [E|(st2 & E2 & E)].
    + exact (exclusive_session _ _ E H1).
    + apply exclusive_session with (1 := E).
      apply dispatch_exclusive. exact (exclusive_session _ _ E2 H1).
Qed.

(** C9: on every page reached through the session handlers at most one of
    the pending file and the camera flag is set, and each handler keeps it
    so; uploading a file turns the camera off, starting the camera drops
    the pending file, stopping it keeps the file, and a capture that
    yields a picture stores it and stops the camera. *)
Theorem session_exclusive :
  (forall s, reachable s -> exclusive s)
  /\ (forall w rt a s, exclusive s -> exclusive (exec (perform w rt a) s))
  /\ (forall w f files s,
        session (exec (handleFileUpload w (f :: files)) s) = (Some f, false))
  /\ (forall w s,
        session (exec (handleStartCamera w) s) = (None, cameraGranted w))
  /\ (forall s, session (exec handleStopCamera s) = (uploadedFile s, false))
  /\ (forall w s,
        isSome (videoRef s) && context2d w && blobMade w = true ->
        session (exec (handleCapturePhoto w) s) = (Some (cameraFile w), false)).
Proof.
  split; [|split; [|split; [|split; [|split]]]].
  - induction 1 as [|s w rt a _ IH].
    + left. reflexivity.
    + apply perform_exclusive, IH.
  - apply perform_exclusive.
  - intros. apply handleFileUpload_session.
  - intros. apply handleStartCamera_session.
  - intros. apply handleStopCamera_session.
  - intros w s Hc.
    destruct (handleCapturePhoto_cases w s) as [[_ E]|[Hn _]]; [exact E|].
    rewrite Hc in Hn. discriminate.
Qed.

(** C9: an instance, a file is pending, the camera is started and a
    photo is taken. *)
Lemma session_exclusive_witness :
  exclusive
    (exec (perform (Samples.world Rejected) Samples.runtime CapturePhoto)
       (exec (perform (Samples.world Rejected) Samples.runtime StartCamera)
          (exec (perform (Samples.world Rejected) Samples.runtime
                   (FileUpload [Samples.billFile]))
             initialDashboard)))
  /\ session
       (exec (handleCapturePhoto (Samples.world Rejected))
          (exec (handleStartCamera (Samples.world Rejected)) initialDashboard))
     = (Some (cameraFile (Samples.world Rejected)), false).
Proof.
  destruct session_exclusive as (R & _ & _ & _ & _ & C).
  split.
  - apply R. do 3 apply reach_step. apply reach_initial.
  - apply C. vm_compute. reflexivity.
Defined.

(** ** The pipeline of the specification *)

Import Pipeline.




(** An upload that is refused creates no job. *)
Lemma intake_rejects (cfg : Config) (u : Upload) (s : System) :
  validUpload cfg u = false -> intake cfg u s = (ValidationError, s).
Proof. intros Hv. unfold intake. rewrite Hv. reflexivity. Qed.

(** The chat reads the invoice from the body of the same endpoint: a body
    with a job id and a status alone ends in the chat's error message,
    and the file stays pending. *)
Lemma chat_reads_invoice_from_upload
  (w : World) (rt : Runtime) (st : Dashboard) (data : UploadData) :
  isSome (uploadedFile st) || cameraActive st = true ->
  uploadApi w (uploadedFile st) = Response true (Some data) ->
  fieldIs (data_status data) (js "error") = false ->
  data_invoice data = None ->
  exists before,
    map text (messages (exec (handleProcessInvoice w rt) st))
    = before ++ [js "❌ Có lỗi xảy ra khi xử lý hóa đơn. Vui lòng thử lại!"]
  /\ session (exec (handleProcessInvoice w rt) st) = session st.
Proof.
  intros Hp Hup Hs Hd.
  assert (Hg : negb (isSome (uploadedFile st)) && negb (cameraActive st) = false).
  { destruct (isSome (uploadedFile st)), (cameraActive st);
      simpl in *; congruence. }
  unfold handleProcessInvoice, exec, finally, tryCatch, bind, get; simpl.
  rewrite Hg; simpl. rewrite Hup; simpl. rewrite Hs; simpl. rewrite Hd; simpl.
  rewrite map_app. eexists. split; reflexivity.
Qed.

Lemma clip01_bounds (q : Q) : (0 <= clip01 q <= 1)%Q.
Proof.
  unfold clip01.
  destruct (Qle_bool q 0) eqn:E0; [split; discriminate|].
  destruct (Qle_bool 1 q) eqn:E1; [split; discriminate|].
  apply Bool.not_true_iff_false in E0, E1.
  rewrite Qle_bool_iff in E0, E1.
  split; apply Qlt_le_weak, Qnot_le_lt; assumption.
Qed.

Lemma upsert_In (r x : InvoiceRecord) (store : list InvoiceRecord) :
  In r (upsert x store) -> r = x \/ In r store.
Proof.
  induction store as [|y store IH]; simpl.
  - intros [E|[]]. left. symmetry. exact E.
  - destruct (recordId y =? recordId x).
    + intros [E|H]; [left; symmetry; exact E | right; right; exact H].
    + intros [E|H]; [right; left; exact E|].
      destruct (IH H) as [E|H']; [left; exact E | right; right; exact H'].
Qed.

(** C7: every persisted invoice record has its confidence in [0,1], and
    the percentage the interfaces show, confidence * 100, lies in
    [0,100]: it is the number the table's badge prints. *)
Theorem confidence_in_unit_interval
  (cfg : Config) (store : list InvoiceRecord) (r : InvoiceRecord) :
  persisted cfg store ->
  In r store ->
  (0 <= recordConfidence r <= 1)%Q
  /\ exists p,
       (0 <= p <= 100)%Q
       /\ displayedPercent r = Num p
       /\ forall rt inv,
            confidence inv = Num (recordConfidence r) ->
            InvoiceManagement.badgeText (InvoiceManagement.confidenceBadge rt inv)
            = toFixed rt 1 (Num p) ++ js "%".
Proof.
  intros Hp. revert r.
  assert (bounds : forall r, In r store -> (0 <= recordConfidence r <= 1)%Q).
  { induction Hp as [|store e _ IH]; intros r Hin; [destruct Hin|].
    destruct (upsert_In _ _ _ Hin) as [->|H]; [|apply IH, H].
    apply clip01_bounds. }
  intros r Hin. destruct (bounds r Hin) as [Hlo Hhi].
  split; [split; assumption|].
  exists (recordConfidence r * 100)%Q. split; [split; lra|].
  split; [reflexivity|].
  intros rt inv Hc.
  cbv [InvoiceManagement.confidenceBadge InvoiceManagement.badgeText].
  rewrite Hc. reflexivity.
Qed.

(** C7: an instance, a record whose score is clipped to one. *)
Lemma confidence_in_unit_interval_witness :
  (0 <= recordConfidence (mkRecord Samples.pipelineConfig Samples.overfull) <= 1)%Q
  /\ recordConfidence (mkRecord Samples.pipelineConfig Samples.overfull) = 1%Q.
Proof.
  split; [|reflexivity].
  apply (confidence_in_unit_interval Samples.pipelineConfig
           (upsert (mkRecord Samples.pipelineConfig Samples.overfull) [])
           (mkRecord Samples.pipelineConfig Samples.overfull)).
  - apply persisted_upsert, persisted_empty.
  - left. reflexivity.
Defined.

(** * More properties of the dashboard *)

(** ** Handlers return, and continue the page they started on *)

Section Growth.

Lemma grows_refl (s : Dashboard) : grows s s.
Proof. exists []. rewrite app_nil_r. split; reflexivity. Qed.

Lemma grows_trans (a b c : Dashboard) : grows a b -> grows b c -> grows a c.
Proof.
  intros (x & Hx & Ix) (y & Hy & Iy). exists (x ++ y). split.
  - rewrite Hy, Hx, app_assoc. reflexivity.
  - rewrite map_app, length_app, seq_app, Ix. f_equal.
    rewrite Iy, Hx, length_app, <- Nat.add_assoc, (Nat.add_comm (length x) 1),
      Nat.add_assoc. reflexivity.
Qed.

Lemma grows_same (s s' : Dashboard) : messages s' = messages s -> grows s s'.
Proof. intros E. exists []. rewrite app_nil_r. split; [exact E | reflexivity]. Qed.

Lemma grows_numbered (s s' : Dashboard) :
  grows s s' -> numbered (messages s) -> numbered (messages s').
Proof.
  unfold numbered. intros (x & Hx & Ix) Hs.
  rewrite Hx, map_app, length_app, seq_app, Hs, Ix.
  rewrite Nat.add_comm. reflexivity.
Qed.

Lemma continues_refl (s : Dashboard) : continues s s.
Proof.
  split; [apply grows_refl|]. split; [reflexivity|].
  exists []. rewrite app_nil_r. reflexivity.
Qed.

Lemma continues_trans (a b c : Dashboard) :
  continues a b -> continues b c -> continues a c.
Proof.
  intros (G1 & I1 & x & C1) (G2 & I2 & y & C2).
  split; [exact (grows_trans _ _ _ G1 G2)|].
  split; [rewrite I2; exact I1|].
  exists (x ++ y). rewrite C2, C1, app_assoc. reflexivity.
Qed.

Lemma Continues_ret {A} (a : A) : Continues (ret a).
Proof. intros s. apply continues_refl. Qed.

Lemma Continues_throw {A} (e : Exn) : Continues (@throw A e).
Proof. intros s. apply continues_refl. Qed.

Lemma Continues_get : Continues get.
Proof. intros s. apply continues_refl. Qed.

Lemma Continues_bind {A B} (m : Eff A) (k : A -> Eff B) :
  Continues m -> (forall a, Continues (k a)) -> Continues (bind m k).
Proof.
  intros Hm Hk s. rewrite exec_bind. specialize (Hm s). unfold exec in Hm.
  destruct (m s) as [[a|e] s']; simpl in Hm; [|exact Hm].
  exact (continues_trans _ _ _ Hm (Hk a s')).
Qed.

Lemma Continues_tryCatch {A} (m : Eff A) (h : Exn -> Eff A) :
  Continues m -> (forall e, Continues (h e)) -> Continues (tryCatch m h).
Proof.
  intros Hm Hh s. specialize (Hm s). unfold exec, tryCatch in *.
  destruct (m s) as [[a|e] s']; simpl in *; [exact Hm|].
  exact (continues_trans _ _ _ Hm (Hh e s')).
Qed.

Lemma Continues_finally {A} (m : Eff A) (c : Eff unit) :
  Continues m -> Continues c -> Continues (finally m c).
Proof.
  intros Hm Hc s. specialize (Hm s). unfold exec, finally in *.
  destruct (m s) as [r s']; simpl in *.
  specialize (Hc s'). unfold exec in Hc.
  destruct (c s') as [[u|e] s'']; simpl in *; exact (continues_trans _ _ _ Hm Hc).
Qed.

(** A setter of another cell. *)
Lemma Continues_modify (f : Dashboard -> Dashboard) :
  (forall s, messages (f s) = messages s) ->
  (forall s, inputMessage (f s) = inputMessage s) ->
  (forall s, calls (f s) = calls s) ->
  Continues (modify f).
Proof.
  intros Hm Hi Hc s. split; [apply grows_same, Hm|].
  split; [apply Hi|]. exists []. rewrite app_nil_r. apply Hc.
Qed.

Lemma Continues_append (w : World) (t : jsstring) (who : Sender) :
  Continues (setMessages (fun prev => prev ++ [mkMessage w (length prev + 1) t who])).
Proof.
  intros s. split; [|split; [reflexivity|]].
  - exists [mkMessage w (length (messages s) + 1) t who]. split; reflexivity.
  - exists []. rewrite app_nil_r. reflexivity.
Qed.

Lemma Continues_call (c : Call) : Continues (call c).
Proof.
  intros s. split; [apply grows_same; reflexivity|]. split; [reflexivity|].
  exists [c]. reflexivity.
Qed.

Lemma Returns_ret {A} (a : A) : Returns (ret a).
Proof. intros s. exists a. reflexivity. Qed.

Lemma Returns_modify (f : Dashboard -> Dashboard) : Returns (modify f).
Proof. intros s. exists tt. reflexivity. Qed.

Lemma Returns_get : Returns get.
Proof. intros s. exists s. reflexivity. Qed.

Lemma Returns_bind {A B} (m : Eff A) (k : A -> Eff B) :
  Returns m -> (forall a, Returns (k a)) -> Returns (bind m k).
Proof.
  intros Hm Hk s. destruct (Hm s) as [a Ha]. unfold bind.
  destruct (m s) as [r s']; simpl in Ha; subst r. apply Hk.
Qed.

Lemma Returns_tryCatch {A} (m : Eff A) (h : Exn -> Eff A) :
  (forall e, Returns (h e)) -> Returns (tryCatch m h).
Proof.
  intros Hh s. unfold tryCatch.
  destruct (m s) as [[a|e] s']; [exists a; reflexivity | apply Hh].
Qed.

Lemma Returns_finally {A} (m : Eff A) (c : Eff unit) :
  Returns m -> Returns c -> Returns (finally m c).
Proof.
  intros Hm Hc s. destruct (Hm s) as [a Ha]. unfold finally.
  destruct (m s) as [r s']; simpl in Ha; subst r.
  destruct (Hc s') as [u Hu].
  destruct (c s') as [r s'']; simpl in Hu; subst r. exists a. reflexivity.
Qed.

(** A handler that returns, followed by a plain result. *)
Lemma Returns_then {B} (m : Eff unit) (b : B) (s : Dashboard) :
  Returns m -> fst ((m ;; ret b) s) = Ok b.
Proof.
  intros Hm. destruct (Hm s) as [a Ha]. unfold bind.
  destruct (m s) as [r s']; simpl in Ha; subst r. reflexivity.
Qed.

End Growth.

Create HintDb handlers.

(** Structural proof that a handler continues the page. *)
Ltac continue :=
  repeat (intros;
    lazymatch goal with
    | |- Continues (ret _) => apply Continues_ret
    | |- Continues (throw _) => apply Continues_throw
    | |- Continues get => apply Continues_get
    | |- Continues (setMessages _) => apply Continues_append
    | |- Continues (call _) => apply Continues_call
    | |- Continues (modify _) => apply Continues_modify; intros; reflexivity
    | |- Continues (bind _ _) => apply Continues_bind
    | |- Continues (tryCatch _ _) => apply Continues_tryCatch
    | |- Continues (finally _ _) => apply Continues_finally
    | |- Continues (if ?b then _ else _) => destruct b
    | |- Continues (match ?x with _ => _ end) => destruct x
    | |- Continues _ => solve [auto with handlers]
    end).

(** Structural proof that a handler returns. *)
Ltac returns :=
  repeat (intros;
    lazymatch goal with
    | |- Returns (ret _) => apply Returns_ret
    | |- Returns get => apply Returns_get
    | |- Returns (setMessages _) => apply Returns_modify
    | |- Returns (call _) => apply Returns_modify
    | |- Returns (modify _) => apply Returns_modify
    | |- Returns (tryCatch _ _) => apply Returns_tryCatch
    | |- Returns (finally _ _) => apply Returns_finally
    | |- Returns (bind _ _) => apply Returns_bind
    | |- Returns (if ?b then _ else _) => destruct b
    | |- Returns (match ?x with _ => _ end) => destruct x
    | |- Returns _ => solve [auto with handlers]
    end).

Ltac open_handlers :=
  unfold addUserMessage, addBotMessage, setIsTyping, setIsProcessing,
    setCurrentView, setUploadedFile, setCameraActive, setSrcObject,
    setFileInputValue, setShowQuickSuggestions, setTimeout,
    awaitFetch, awaitJson, defined.

Section HandlersContinue.

Variable w : World.
Variable rt : Runtime.

Lemma handleActionButton_Continues (action : jsstring) :
  Continues (handleActionButton w rt action).
Proof. unfold handleActionButton. open_handlers. continue. Qed.

Lemma handleStopCamera_Continues : Continues handleStopCamera.
Proof. unfold handleStopCamera. open_handlers. continue. Qed.

Hint Resolve handleStopCamera_Continues : handlers.

Lemma handleStartCamera_Continues : Continues (handleStartCamera w).
Proof. unfold handleStartCamera. open_handlers. continue. Qed.

Lemma handleCapturePhoto_Continues : Continues (handleCapturePhoto w).
Proof. unfold handleCapturePhoto. open_handlers. continue. Qed.

Lemma handleFileUpload_Continues (files : list File) :
  Continues (handleFileUpload w files).
Proof. unfold handleFileUpload. open_handlers. continue. Qed.

Lemma handleProcessInvoice_Continues : Continues (handleProcessInvoice w rt).
Proof. unfold handleProcessInvoice. open_handlers. continue. Qed.

Lemma handleQuickSuggestion_Continues (question : jsstring) :
  Continues (handleQuickSuggestion w question).
Proof. unfold handleQuickSuggestion. open_handlers. continue. Qed.

Hint Resolve handleActionButton_Continues handleStartCamera_Continues
  handleCapturePhoto_Continues handleProcessInvoice_Continues : handlers.

Lemma dispatch_Continues (i : Intent) : Continues (dispatch w rt i).
Proof. destruct i; simpl dispatch; open_handlers; continue. Qed.

Lemma handleChatCommand_Continues (input : jsstring) :
  Continues (handleChatCommand w rt input).
Proof.
  intros s. rewrite exec_handleChatCommand. apply dispatch_Continues.
Qed.

Lemma handleActionButton_Returns (action : jsstring) :
  Returns (handleActionButton w rt action).
Proof. unfold handleActionButton. open_handlers. returns. Qed.

Lemma handleStopCamera_Returns : Returns handleStopCamera.
Proof. unfold handleStopCamera. open_handlers. returns. Qed.

Hint Resolve handleStopCamera_Returns : handlers.

Lemma handleStartCamera_Returns : Returns (handleStartCamera w).
Proof. unfold handleStartCamera. open_handlers. returns. Qed.

Lemma handleCapturePhoto_Returns : Returns (handleCapturePhoto w).
Proof. unfold handleCapturePhoto. open_handlers. returns. Qed.

Lemma handleProcessInvoice_Returns : Returns (handleProcessInvoice w rt).
Proof. unfold handleProcessInvoice. open_handlers. returns. Qed.

Hint Resolve handleActionButton_Returns handleStartCamera_Returns
  handleCapturePhoto_Returns handleProcessInvoice_Returns : handlers.

Lemma dispatch_Returns (i : Intent) : Returns (dispatch w rt i).
Proof. destruct i; simpl dispatch; open_handlers; returns. Qed.

End HandlersContinue.

(** ** The action buttons *)

(** Case analysis on the next test a handler makes. *)
Ltac case_next :=
  match goal with
  | |- context [match ?x with _ => _ end] =>
      lazymatch x with
      | context [match _ with _ => _ end] => fail
      | _ => destruct x eqn:?; simpl
      end
  end.

Ltac execute :=
  unfold exec, tryCatch, finally, bind, awaitFetch, awaitJson, defined,
    setTimeout, throw, ret, get;
  simpl; repeat case_next.

(** Decide the tests a label makes against the keywords of the buttons. *)
Ltac decide_keywords :=
  repeat match goal with
  | |- context [includes (js ?a) (js ?b)] =>
      let v := eval vm_compute in (includes (js a) (js b)) in
      change (includes (js a) (js b)) with v
  end.

(** X1: each of the five action buttons echoes its label as the user's
    message and answers with exactly one message of the bot, whatever the
    invoice endpoint does; the handler returns, the typing indicator is
    off, the session state is kept, and the only call it can make is the
    one for the invoice list. *)
Theorem action_button_answers
  (w : World) (rt : Runtime) (action : jsstring) (st : Dashboard) :
  In action actionLabels ->
  exists reply,
    fst (handleActionButton w rt action st) = Ok tt
    /\ messages (exec (handleActionButton w rt action) st)
       = messages st
         ++ [mkMessage w (length (messages st) + 1) action user;
             botReply w (length (messages st) + 1) reply]
    /\ isTyping (exec (handleActionButton w rt action) st) = false
    /\ session (exec (handleActionButton w rt action) st) = session st
    /\ (calls (exec (handleActionButton w rt action) st) = calls st
        \/ calls (exec (handleActionButton w rt action) st)
           = calls st ++ [GetInvoices]).
Proof.
  unfold actionLabels. intros H.
  repeat (destruct H as [<-|H]; [|]); try destruct H.
  all: unfold handleActionButton; decide_keywords; cbv iota; execute.
  all: rewrite ?length_snoc, <- ?app_assoc; eexists;
    (split; [reflexivity|]); (split; [reflexivity|]);
    (split; [reflexivity|]); (split; [reflexivity|]);
    first [left; reflexivity | right; reflexivity].
Qed.

(** X1: an instance, the statistics button on the first page. *)
Lemma action_button_answers_witness :
  isTyping (exec (handleActionButton (Samples.world Rejected) Samples.runtime
                    (js "📈 Thống kê")) initialDashboard) = false
  /\ session (exec (handleActionButton (Samples.world Rejected) Samples.runtime
                      (js "📈 Thống kê")) initialDashboard)
     = session initialDashboard.
Proof.
  destruct (action_button_answers (Samples.world Rejected) Samples.runtime
              (js "📈 Thống kê") initialDashboard)
    as (reply & _ & _ & T & S & _).
  - unfold actionLabels. do 4 right. left. reflexivity.
  - split; [exact T | exact S].
Defined.

(** X2: when the invoice endpoint answers with a list, the view-list
    button shows the notice for an empty list or the list message.  The
    key [data] wins over [invoices] even when it is empty; at most ten
    entries are rendered, and records after the tenth matter only through
    the count. *)
Theorem invoice_list_shown
  (w : World) (rt : Runtime) (st : Dashboard) (body : InvoicesBody) :
  invoicesApi w = Response true (Some body) ->
  messages (exec (handleActionButton w rt (js "📋 Xem danh sách hóa đơn")) st)
  = messages st
    ++ [mkMessage w (length (messages st) + 1) (js "📋 Xem danh sách hóa đơn") user;
        botReply w (length (messages st) + 1)
          (match invoicesOf body with
           | [] => emptyListNotice
           | _ :: _ => listMessage rt (invoicesOf body)
           end)]
  /\ (body_data body = Some [] -> invoicesOf body = [])
  /\ length (displayInvoices (invoicesOf body))
     = Nat.min displayLimit (length (invoicesOf body))
  /\ (forall l,
        length l = length (invoicesOf body) ->
        firstn displayLimit l = firstn displayLimit (invoicesOf body) ->
        listMessage rt l = listMessage rt (invoicesOf body)).
Proof.
  intros Hapi. split; [|split; [|split]].
  - unfold handleActionButton. decide_keywords. cbv iota.
    unfold exec, tryCatch, bind, awaitFetch, awaitJson, ret; simpl.
    rewrite Hapi; simpl.
    destruct (invoicesOf body) as [|inv l]; simpl;
      rewrite length_snoc, <- app_assoc; unfold botReply, emptyListNotice;
      reflexivity.
  - intros Hd. unfold invoicesOf. rewrite Hd. reflexivity.
  - unfold displayInvoices. apply length_firstn.
  - intros l Hl Hf. unfold listMessage, displayInvoices. rewrite Hl, Hf.
    reflexivity.
Qed.

(** X2: an instance, the two sample invoices of the sample server. *)
Lemma invoice_list_shown_witness :
  length (displayInvoices
            (invoicesOf
               {| body_data := Some [Samples.invoice (js "INV-1") (9 # 10);
                                     Samples.invoice (js "INV-2") (1 # 2)];
                  body_invoices := None |}))
  = Nat.min displayLimit 2.
Proof.
  destruct (invoice_list_shown (Samples.world Rejected) Samples.runtime
              initialDashboard
              {| body_data := Some [Samples.invoice (js "INV-1") (9 # 10);
                                    Samples.invoice (js "INV-2") (1 # 2)];
                 body_invoices := None |} eq_refl) as (_ & _ & L & _).
  exact L.
Defined.

(** X3: when the call for the invoice list fails (the request is
    rejected, the answer is not ok, or its body is not JSON), the
    view-list button answers with the failure notice and nothing else. *)
Theorem invoice_list_failure
  (w : World) (rt : Runtime) (st : Dashboard) :
  (invoicesApi w = Rejected
   \/ (exists body, invoicesApi w = Response false body)
   \/ invoicesApi w = Response true None) ->
  fst (handleActionButton w rt (js "📋 Xem danh sách hóa đơn") st) = Ok tt
  /\ messages (exec (handleActionButton w rt (js "📋 Xem danh sách hóa đơn")) st)
     = messages st
       ++ [mkMessage w (length (messages st) + 1) (js "📋 Xem danh sách hóa đơn") user;
           botReply w (length (messages st) + 1) actionFailure]
  /\ isTyping (exec (handleActionButton w rt (js "📋 Xem danh sách hóa đơn")) st)
     = false.
Proof.
  intros H. unfold handleActionButton. decide_keywords. cbv iota.
  unfold exec, tryCatch, bind, awaitFetch, awaitJson, throw, ret; simpl.
  destruct H as [H|[[body H]|H]]; rewrite H; simpl;
    rewrite length_snoc, <- app_assoc; unfold botReply, actionFailure;
    repeat split.
Qed.

(** X3: an instance, the button pressed while the server is down. *)
Lemma invoice_list_failure_witness :
  isTyping (exec (handleActionButton Fixtures.offline Samples.runtime
                    (js "📋 Xem danh sách hóa đơn")) initialDashboard) = false.
Proof.
  destruct (invoice_list_failure Fixtures.offline Samples.runtime initialDashboard)
    as (_ & _ & T); [left; reflexivity | exact T].
Defined.

(** ** The camera *)

(** X4: starting the camera drops the pending file before it asks for
    the camera, so the file is gone also when access is denied; the flag
    ends as the permission came out, the video holds the stream only when
    it was granted, a denial raises one alert, and the handler returns
    without a word in the chat. *)
Theorem camera_start_outcome (w : World) (st : Dashboard) :
  fst (handleStartCamera w st) = Ok tt
  /\ session (exec (handleStartCamera w) st) = (None, cameraGranted w)
  /\ videoRef (exec (handleStartCamera w) st)
     = (if cameraGranted w then Some true else None)
  /\ calls (exec (handleStartCamera w) st)
     = calls st
       ++ GetUserMedia :: (if cameraGranted w then [] else [Alert cameraAlert])
  /\ messages (exec (handleStartCamera w) st) = messages st.
Proof.
  unfold handleStartCamera, cameraAlert. execute.
  all: rewrite <- ?app_assoc; repeat split.
Qed.

(** ** Processing *)

Lemma process_run (w : World) (rt : Runtime) (st : Dashboard) :
  isSome (uploadedFile st) || cameraActive st = true ->
  isProcessing (exec (handleProcessInvoice w rt) st) = false
  /\ isTyping (exec (handleProcessInvoice w rt) st) = false
  /\ calls (exec (handleProcessInvoice w rt) st)
     = calls st ++ [PostUpload (uploadedFile st)].
Proof.
  unfold handleProcessInvoice, handleStopCamera. execute.
  all: repeat split; intros; try reflexivity.
  all: exfalso; destruct (isSome (uploadedFile st)), (cameraActive st);
    simpl in *; congruence.
Qed.

(** X5: processing always returns and never leaves the page busy: unless
    it stops at its guard, the busy flag and the typing indicator end off,
    whatever the upload endpoint answers, and the upload is called exactly
    once. *)
Theorem process_releases_busy_flag (w : World) (rt : Runtime) (st : Dashboard) :
  fst (handleProcessInvoice w rt st) = Ok tt
  /\ (isSome (uploadedFile st) || cameraActive st = false ->
      handleProcessInvoice w rt st = (Ok tt, st))
  /\ (isSome (uploadedFile st) || cameraActive st = true ->
      isProcessing (exec (handleProcessInvoice w rt) st) = false
      /\ isTyping (exec (handleProcessInvoice w rt) st) = false
      /\ calls (exec (handleProcessInvoice w rt) st)
         = calls st ++ [PostUpload (uploadedFile st)]).
Proof.
  unfold handleProcessInvoice, handleStopCamera. execute.
  all: repeat split; intros; try reflexivity.
  all: exfalso; destruct (isSome (uploadedFile st)), (cameraActive st);
    simpl in *; congruence.
Qed.

(** X5: an instance, a pending file and a server that cannot be reached. *)
Lemma process_releases_busy_flag_witness :
  isProcessing (exec (handleProcessInvoice (Samples.world Rejected) Samples.runtime)
                  (Samples.typing [] (Some Samples.billFile) false)) = false
  /\ calls (exec (handleProcessInvoice (Samples.world Rejected) Samples.runtime)
              (Samples.typing [] (Some Samples.billFile) false))
     = [PostUpload (Some Samples.billFile)].
Proof.
  destruct (process_releases_busy_flag (Samples.world Rejected) Samples.runtime
              (Samples.typing [] (Some Samples.billFile) false)) as (_ & _ & H).
  destruct H as (A & _ & B); [reflexivity|].
  split; [exact A | exact B].
Defined.

(** X6: the process button is dead while there is neither a file nor a
    camera, or while a run is in progress; whenever it is enabled, a click
    passes the handler's guard and calls the upload once, with the pending
    file if there is one. *)
Theorem process_button_gate (w : World) (rt : Runtime) (st : Dashboard) :
  (processDisabled st = true -> click w rt OnProcessButton st = (Ok tt, st))
  /\ (processDisabled st = false ->
      calls (exec (click w rt OnProcessButton) st)
      = calls st ++ [PostUpload (uploadedFile st)]
      /\ isProcessing (exec (click w rt OnProcessButton) st) = false).
Proof.
  split; intros H.
  - unfold click, bind, get. rewrite H. reflexivity.
  - assert (G : isSome (uploadedFile st) || cameraActive st = true).
    { unfold processDisabled in H.
      destruct (isSome (uploadedFile st)), (cameraActive st), (isProcessing st);
        simpl in *; congruence. }
    assert (E : exec (click w rt OnProcessButton) st
                = exec (handleProcessInvoice w rt) st).
    { unfold click. rewrite exec_get, H. reflexivity. }
    rewrite E.
    destruct (process_run w rt st G) as (A & _ & B). split; assumption.
Qed.

(** X6: an instance, the button with a photo session open. *)
Lemma process_button_gate_witness :
  calls (exec (click (Samples.world Rejected) Samples.runtime OnProcessButton)
           (Samples.typing [] None true))
  = [PostUpload None]
  /\ click (Samples.world Rejected) Samples.runtime OnProcessButton initialDashboard
     = (Ok tt, initialDashboard).
Proof.
  destruct (process_button_gate (Samples.world Rejected) Samples.runtime
              (Samples.typing [] None true)) as [_ E].
  destruct (process_button_gate (Samples.world Rejected) Samples.runtime
              initialDashboard) as [D _].
  split; [apply E; reflexivity | apply D; reflexivity].
Defined.

(** X7: when the upload fails (the request is rejected, the body is not
    JSON, or the answer is not ok and is not the engine's error), the chat
    shows the failure notice after the user's line, and the pending file,
    the camera and the file input stay as they were, so the user can try
    again. *)
Theorem upload_failure_keeps_file
  (w : World) (rt : Runtime) (st : Dashboard) :
  isSome (uploadedFile st) || cameraActive st = true ->
  (uploadApi w (uploadedFile st) = Rejected
   \/ (exists ok, uploadApi w (uploadedFile st) = Response ok None)
   \/ (exists data,
         uploadApi w (uploadedFile st) = Response false (Some data)
         /\ fieldIs (data_status data) (js "error")
            && fieldIs (data_error data) (js "OCR_NOT_AVAILABLE") = false)) ->
  messages (exec (handleProcessInvoice w rt) st)
  = messages st
    ++ [mkMessage w (length (messages st) + 1)
          (js "Xử lý hóa đơn: " ++ pendingName (uploadedFile st)) user;
        botReply w (length (messages st) + 1) processFailure]
  /\ session (exec (handleProcessInvoice w rt) st) = session st
  /\ fileInputValue (exec (handleProcessInvoice w rt) st) = fileInputValue st
  /\ isProcessing (exec (handleProcessInvoice w rt) st) = false.
Proof.
  intros Hp H.
  assert (Hg : negb (isSome (uploadedFile st)) && negb (cameraActive st) = false).
  { destruct (isSome (uploadedFile st)), (cameraActive st);
      simpl in *; congruence. }
  unfold handleProcessInvoice, exec, finally, tryCatch, bind, get,
    awaitFetch, awaitJson, throw, ret; simpl.
  rewrite Hg; simpl.
  destruct H as [H|[[ok H]|(data & H & Hn)]]; rewrite H; simpl;
    try (rewrite Hn; simpl).
  all: rewrite length_snoc, <- app_assoc; unfold botReply, processFailure;
    repeat split.
Qed.

(** X7: an instance, a pending file and a server that cannot be reached. *)
Lemma upload_failure_keeps_file_witness :
  session (exec (handleProcessInvoice (Samples.world Rejected) Samples.runtime)
             (Samples.typing [] (Some Samples.billFile) false))
  = (Some Samples.billFile, false).
Proof.
  destruct (upload_failure_keeps_file (Samples.world Rejected) Samples.runtime
              (Samples.typing [] (Some Samples.billFile) false))
    as (_ & S & _); [reflexivity | left; reflexivity |].
  rewrite S. reflexivity.
Defined.

(** X8: an instance of [low_confidence_processed], a record at 50%. *)
Lemma low_confidence_processed_witness :
  session (exec (handleProcessInvoice
                   (Samples.world (Response true (Some (Samples.processed (1 # 2)))))
                   Samples.runtime)
             (Samples.typing [] (Some Samples.billFile) false))
  = (None, false).
Proof.
  exact (proj2 (low_confidence_processed
    (Samples.world (Response true (Some (Samples.processed (1 # 2)))))
    Samples.runtime
    (Samples.typing [] (Some Samples.billFile) false)
    (Samples.processed (1 # 2)) (Samples.invoice (js "INV-12345") (1 # 2))
    eq_refl eq_refl eq_refl eq_refl)).
Defined.

(** X9: an instance of [chat_failure_skips_router], a command typed while
    the chat service is down. *)
Lemma chat_failure_skips_router_witness :
  calls (exec (handleSendMessage Fixtures.offline Samples.runtime)
           (Samples.typing (js "xem danh sách hóa đơn") None false))
  = [PostChat (js "xem danh sách hóa đơn")].
Proof.
  destruct (chat_failure_skips_router Fixtures.offline Samples.runtime
              (Samples.typing (js "xem danh sách hóa đơn") None false))
    as (_ & C & _); [vm_compute; reflexivity | reflexivity |].
  rewrite C. vm_compute. reflexivity.
Defined.

(** ** The router and the chat box *)

(** X12: the router never raises: it returns true exactly when one of
    its patterns matched, whatever the handler it ran met. *)
Theorem router_reports_match
  (w : World) (rt : Runtime) (input : jsstring) (st : Dashboard) :
  fst (handleChatCommand w rt input st) = Ok (matched (intentOf st input)).
Proof.
  rewrite handleChatCommand_dispatch.
  destruct (dispatch_Returns w rt (intentOf st input) st) as [b Hb].
  rewrite Hb. f_equal.
  destruct (intentOf st input); simpl dispatch in Hb; simpl matched.
  all: try (rewrite Returns_then in Hb
              by (auto using handleActionButton_Returns);
            congruence).
  all: unfold bind, get, ret in Hb; simpl in Hb;
    repeat match type of Hb with
    | context [match ?x with _ => _ end] =>
        lazymatch x with
        | context [match _ with _ => _ end] => fail
        | _ => destruct x; simpl in Hb
        end
    end; congruence.
Qed.

Lemma handleChatCommand_Returns
  (w : World) (rt : Runtime) (input : jsstring) :
  Returns (handleChatCommand w rt input).
Proof.
  intros s. rewrite handleChatCommand_dispatch. apply dispatch_Returns.
Qed.

(** X11: sending a message that is not blank always returns: the text
    goes first to the chat service, the user's line is the first message
    added, the input box is emptied and the typing indicator ends off,
    whatever the chat service, the router and its handlers do. *)
Theorem send_message_settles (w : World) (rt : Runtime) (st : Dashboard) :
  truthy (trim (inputMessage st)) = true ->
  fst (handleSendMessage w rt st) = Ok tt
  /\ isTyping (exec (handleSendMessage w rt) st) = false
  /\ inputMessage (exec (handleSendMessage w rt) st) = []
  /\ (exists made,
        calls (exec (handleSendMessage w rt) st)
        = calls st ++ PostChat (inputMessage st) :: made)
  /\ (exists more,
        messages (exec (handleSendMessage w rt) st)
        = messages st
          ++ mkMessage w (length (messages st) + 1) (inputMessage st) user :: more).
Proof.
  intros Ht.
  unfold handleSendMessage, exec, tryCatch, bind, get, awaitFetch, awaitJson,
    throw, ret; simpl.
  rewrite Ht; simpl.
  destruct (chatApi w (inputMessage st)) as [|[|] [data|]]; simpl.
  2: { match goal with
       | |- context [handleChatCommand w rt ?i ?s] =>
           pose proof (handleChatCommand_Continues w rt i s) as Hc;
           destruct (handleChatCommand_Returns w rt i s) as [b Hb];
           unfold exec in Hc;
           destruct (handleChatCommand w rt i s) as [r s5]
       end.
       simpl in Hb, Hc. subst r.
       destruct Hc as ((added & Hm & _) & Hi & made & Hcalls). simpl in *.
       destruct b; simpl; rewrite ?Hm, ?Hi, ?Hcalls, <- ?app_assoc; simpl.
       all: repeat split; try reflexivity; eexists; reflexivity. }
  all: rewrite <- ?app_assoc; simpl; repeat split; try reflexivity;
    eexists; reflexivity.
Qed.

(** X11: an instance, a command typed with a file pending. *)
Lemma send_message_settles_witness :
  inputMessage (exec (handleSendMessage (Samples.world Rejected) Samples.runtime)
                  (Samples.typing (js "xử lý") (Some Samples.billFile) false))
  = [].
Proof.
  destruct (send_message_settles (Samples.world Rejected) Samples.runtime
              (Samples.typing (js "xử lý") (Some Samples.billFile) false))
    as (_ & _ & I & _); [vm_compute; reflexivity | exact I].
Defined.

Lemma send_message_posts (w : World) (rt : Runtime) (st : Dashboard) :
  truthy (trim (inputMessage st)) = true ->
  exists made,
    calls (exec (handleSendMessage w rt) st)
    = calls st ++ PostChat (inputMessage st) :: made.
Proof.
  intros Ht.
  unfold handleSendMessage, exec, tryCatch, bind, get, awaitFetch, awaitJson,
    throw, ret; simpl.
  rewrite Ht; simpl.
  destruct (chatApi w (inputMessage st)) as [|[|] [data|]]; simpl.
  2: { match goal with
       | |- context [handleChatCommand w rt ?i ?s] =>
           pose proof (handleChatCommand_Continues w rt i s) as Hc;
           destruct (handleChatCommand_Returns w rt i s) as [b Hb];
           unfold exec in Hc;
           destruct (handleChatCommand w rt i s) as [r s5]
       end.
       simpl in Hb, Hc. subst r.
       destruct Hc as (_ & _ & made & Hcalls). simpl in *.
       destruct b; simpl; rewrite ?Hcalls, <- ?app_assoc; simpl.
       all: eexists; reflexivity. }
  all: rewrite <- ?app_assoc; simpl; eexists; reflexivity.
Qed.

(** X10: a message is sent exactly when it holds something else than
    white space.  A message of white space alone, or an empty one, leaves
    the page as it was: no message, no call, and the input box is not
    emptied.  A message with one code unit that is not white space is
    posted to the chat service as it was typed. *)
Theorem blank_message_not_sent (w : World) (rt : Runtime) (st : Dashboard) :
  (Forall (fun c => isWhiteSpace c = true) (inputMessage st) ->
   handleSendMessage w rt st = (Ok tt, st))
  /\ (Exists (fun c => isWhiteSpace c = false) (inputMessage st) ->
      exists made,
        calls (exec (handleSendMessage w rt) st)
        = calls st ++ PostChat (inputMessage st) :: made).
Proof.
  split; intros H.
  - apply blank_message_ignored. rewrite (trim_blank _ H). reflexivity.
  - apply send_message_posts, trim_not_blank, H.
Qed.

(** X10: an instance, a space, a tab and a line feed. *)
Lemma blank_message_not_sent_witness :
  handleSendMessage (Samples.world Rejected) Samples.runtime
    (Samples.typing (js " \x09\n") None false)
  = (Ok tt, Samples.typing (js " \x09\n") None false).
Proof.
  apply (proj1 (blank_message_not_sent (Samples.world Rejected) Samples.runtime
                  (Samples.typing (js " \x09\n") None false))).
  vm_compute. repeat constructor.
Defined.

(** X13: a command that contains [chụp ảnh], the phrase the bot suggests
    for taking a picture, is never routed to the capture handler, because
    the pattern that opens the camera is tested first and contains the
    same phrase; with the camera already open and no earlier pattern
    matching, the only effect is the notice that the camera is open. *)
Theorem capture_phrase_never_captures
  (w : World) (rt : Runtime) (st : Dashboard) (input : jsstring) :
  includes (normalize input) (js "chụp ảnh") = true ->
  intentOf st input <> CameraCapture
  /\ (intentOf st input = CameraStart ->
      cameraActive st = true ->
      handleChatCommand w rt input st
      = (Ok true, exec (addBotMessage w cameraAlreadyOpen) st)).
Proof.
  intros H.
  assert (Hs : isCameraStart (normalize input) = true).
  { unfold isCameraStart. rewrite H. apply orb_true_r. }
  split.
  - unfold intentOf, selectIntent. rewrite Hs.
    repeat match goal with
    | |- context [if ?b then _ else _] => destruct b; try discriminate
    end.
  - intros Hi Hc. rewrite handleChatCommand_dispatch, Hi.
    simpl dispatch. unfold bind, get, ret, cameraAlreadyOpen. rewrite Hc.
    reflexivity.
Qed.

(** X13: an instance, the phrase typed while the camera is open. *)
Lemma capture_phrase_never_captures_witness :
  intentOf (Samples.typing [] None true) (js "Chụp ảnh") = CameraStart
  /\ session (exec (handleChatCommand (Samples.world Rejected) Samples.runtime
                      (js "Chụp ảnh")) (Samples.typing [] None true))
     = (None, true).
Proof.
  destruct (capture_phrase_never_captures (Samples.world Rejected) Samples.runtime
              (Samples.typing [] None true) (js "Chụp ảnh")) as [_ E];
    [vm_compute; reflexivity|].
  split; [vm_compute; reflexivity|].
  unfold exec. rewrite E by (vm_compute; reflexivity). reflexivity.
Defined.

(** ** The chat history *)

Lemma handleSendMessage_grows (w : World) (rt : Runtime) (s : Dashboard) :
  grows s (exec (handleSendMessage w rt) s).
Proof.
  unfold handleSendMessage. rewrite exec_get.
  destruct (truthy (trim (inputMessage s))); [|apply grows_refl].
  rewrite exec_bind; simpl. rewrite exec_bind; simpl.
  match goal with
  | |- grows s (exec ?tail ?s2) =>
      assert (C : Continues tail)
  end.
  { open_handlers.
    pose proof (handleChatCommand_Continues w rt) as Hr.
    repeat (intros;
      lazymatch goal with
      | |- Continues (handleChatCommand _ _ _) => apply Hr
      | _ => progress continue
      end). }
  eapply grows_trans; [|exact (proj1 (C _))].
  exists [mkMessage w (length (messages s) + 1) (inputMessage s) user].
  split; reflexivity.
Qed.

Lemma click_grows (w : World) (rt : Runtime) (c : Click) (s : Dashboard) :
  grows s (exec (click w rt c) s).
Proof.
  destruct c as [a|action|question| | |]; simpl click.
  - destruct a as [files| | | | |input]; simpl perform.
    + apply handleFileUpload_Continues.
    + apply handleStartCamera_Continues.
    + apply handleStopCamera_Continues.
    + apply handleCapturePhoto_Continues.
    + apply handleProcessInvoice_Continues.
    + rewrite exec_bind; simpl.
      eapply grows_trans; [|apply handleSendMessage_grows].
      apply grows_same. reflexivity.
  - apply handleActionButton_Continues.
  - apply handleQuickSuggestion_Continues.
  - apply grows_same. reflexivity.
  - rewrite exec_get. destruct (cameraActive s).
    + apply handleStopCamera_Continues.
    + apply handleStartCamera_Continues.
  - rewrite exec_get. destruct (processDisabled s).
    + apply grows_refl.
    + apply handleProcessInvoice_Continues.
Qed.

(** X14: the chat history is append-only and numbered: whatever the user
    does on the page, the messages already shown stay as they are and in
    place, and on every page the user can bring about the ids of the
    messages count from one without a gap, so no two messages share an
    id. *)
Theorem chat_history_numbered :
  (forall w rt c s,
     exists added, messages (exec (click w rt c) s) = messages s ++ added)
  /\ (forall s, visited s ->
        map mid (messages s) = seq 1 (length (messages s))
        /\ NoDup (map mid (messages s))).
Proof.
  split.
  - intros w rt c s. destruct (click_grows w rt c s) as (added & H & _).
    exists added. exact H.
  - intros s Hv.
    assert (N : numbered (messages s)).
    { induction Hv as [|s w rt c _ IH]; [reflexivity|].
      exact (grows_numbered _ _ (click_grows w rt c s) IH). }
    split; [exact N|]. rewrite N. apply seq_NoDup.
Qed.

(** X14: an instance, a file is chosen, a command is typed and a button
    is pressed. *)
Lemma chat_history_numbered_witness :
  NoDup (map mid (messages
    (exec (click (Samples.world Rejected) Samples.runtime
             (OnActionButton (js "📈 Thống kê")))
       (exec (click (Samples.world Rejected) Samples.runtime
                (OnSession (SendMessage (js "xem danh sách"))))
          (exec (click (Samples.world Rejected) Samples.runtime
                   (OnSession (FileUpload [Samples.billFile])))
             initialDashboard))))).
Proof.
  apply (proj2 chat_history_numbered).
  do 3 apply visited_click. apply visited_initial.
Defined.

(** ** The suggestion button *)

(** X15: a suggestion is sent to the chat service as it is and never
    touches the pending file or the camera.  When the service answers,
    the chat gets the question and the answer, and the action buttons are
    shown as the capability test of the button says; when the call fails
    the chat gets the failure notice and the buttons stay as they were.
    The test of the button is the stricter of the two: a question it
    accepts is accepted by the test of the chat box. *)
Theorem quick_suggestion_outcome
  (w : World) (question : jsstring) (st : Dashboard) :
  fst (handleQuickSuggestion w question st) = Ok tt
  /\ session (exec (handleQuickSuggestion w question) st) = session st
  /\ calls (exec (handleQuickSuggestion w question) st)
     = calls st ++ [PostChat question]
  /\ (forall data,
        chatApi w question = Response true (Some data) ->
        messages (exec (handleQuickSuggestion w question) st)
        = messages st
          ++ [mkMessage w (length (messages st) + 1) question user;
              botReply w (length (messages st) + 1) (response_text data)]
        /\ showQuickSuggestions (exec (handleQuickSuggestion w question) st)
           = isCapabilitySuggestion question)
  /\ ((forall data, chatApi w question <> Response true (Some data)) ->
        messages (exec (handleQuickSuggestion w question) st)
        = messages st
          ++ [mkMessage w (length (messages st) + 1) question user;
              botReply w (length (messages st) + 1) chatFailure]
        /\ showQuickSuggestions (exec (handleQuickSuggestion w question) st)
           = showQuickSuggestions st)
  /\ (isCapabilitySuggestion question = true ->
      isCapabilityQuestion question = true).
Proof.
  unfold handleQuickSuggestion, exec, tryCatch, bind, awaitFetch, awaitJson,
    throw, ret; simpl.
  destruct (chatApi w question) as [|[|] [data|]]; simpl;
    rewrite length_snoc, <- app_assoc; unfold botReply, chatFailure.
  all: split; [reflexivity|]; split; [reflexivity|]; split; [reflexivity|].
  all: split; [intros d Hd; try discriminate; inversion Hd; subst;
               split; reflexivity|].
  all: split; [intros Hn; try (exfalso; apply (Hn data); reflexivity);
               split; reflexivity|].
  all: unfold isCapabilitySuggestion, isCapabilityQuestion; cbv zeta;
    intros H; apply andb_true_iff in H; destruct H as [A B]; rewrite A;
    simpl;
    repeat match goal with
    | |- context [includes ?a ?b] => destruct (includes a b); simpl in *
    end; congruence.
Qed.

(** X15: an instance, a suggestion while the chat service is down and a
    file is pending. *)
Lemma quick_suggestion_outcome_witness :
  session (exec (handleQuickSuggestion Fixtures.offline (js "Bot có thể làm gì?"))
             (Samples.typing [] (Some Samples.billFile) false))
  = (Some Samples.billFile, false)
  /\ showQuickSuggestions
       (exec (handleQuickSuggestion Fixtures.offline (js "Bot có thể làm gì?"))
          (Samples.typing [] (Some Samples.billFile) false))
     = false.
Proof.
  destruct (quick_suggestion_outcome Fixtures.offline (js "Bot có thể làm gì?")
              (Samples.typing [] (Some Samples.billFile) false))
    as (_ & S & _ & _ & F & _).
  split; [rewrite S; reflexivity|].
  destruct F as [_ Q]; [intros data; discriminate|].
  rewrite Q. reflexivity.
Defined.

(** * Properties of the invoice table *)

(** ** Strings once more *)

Lemma streq_eq (a b : jsstring) : streq a b = true -> a = b.
Proof.
  revert b. induction a as [|x a IH]; intros [|y b]; simpl; try discriminate.
  - reflexivity.
  - intros H. apply andb_true_iff in H. destruct H as [E H].
    apply N.eqb_eq in E. subst. f_equal. apply IH, H.
Qed.

Lemma streq_refl (a : jsstring) : streq a a = true.
Proof.
  induction a as [|x a IH]; simpl; [reflexivity|].
  rewrite N.eqb_refl. exact IH.
Qed.

Lemma startsWith_nil (s : jsstring) : startsWith s [] = true.
Proof. destruct s; reflexivity. Qed.

Lemma includes_nil (s : jsstring) : includes s [] = true.
Proof.
  unfold includes. destruct s; simpl; [reflexivity|].
  reflexivity.
Qed.

Lemma includes_cons (b : N) (s p : jsstring) :
  includes (b :: s) p = startsWith (b :: s) p || includes s p.
Proof. reflexivity. Qed.

Lemma startsWith_split (s p : jsstring) :
  startsWith s p = true -> exists rest, s = p ++ rest.
Proof.
  revert s. induction p as [|a p IH]; intros s; simpl.
  - intros _. exists s. reflexivity.
  - destruct s as [|b s]; [discriminate|].
    intros H. apply andb_true_iff in H. destruct H as [E H].
    apply N.eqb_eq in E. subst. destruct (IH s H) as [rest ->].
    exists rest. reflexivity.
Qed.

Lemma startsWith_app (p rest : jsstring) : startsWith (p ++ rest) p = true.
Proof.
  induction p as [|a p IH]; simpl; [apply startsWith_nil|].
  rewrite N.eqb_refl. exact IH.
Qed.

(** ** Search and filter *)

Lemma filter_all {A} (f : A -> bool) (l : list A) :
  (forall x, f x = true) -> filter f l = l.
Proof.
  intros H. induction l as [|x l IH]; simpl; [reflexivity|].
  rewrite H, IH. reflexivity.
Qed.

Import InvoiceTable.

Lemma startsWith_self (s : jsstring) : startsWith s s = true.
Proof.
  induction s as [|c s IH]; [reflexivity|].
  simpl. rewrite N.eqb_refl. exact IH.
Qed.

Lemma includes_self (s : jsstring) : includes s s = true.
Proof.
  destruct s as [|c s]; [reflexivity|].
  rewrite includes_cons, startsWith_self. reflexivity.
Qed.

(** X16: the search of the table ignores letter case: two terms with
    the same lower case show the same rows, and an invoice whose code,
    buyer or seller is the term up to case is shown when the type filter
    lets it through.  The empty term with the type [all] shows every
    invoice, and the rows shown are loaded invoices. *)
Theorem search_ignores_case
  (l : list Invoice) (term term' filterType : jsstring) :
  toLowerCase term' = toLowerCase term ->
  InvoiceManagement.filteredInvoices l term' filterType
  = InvoiceManagement.filteredInvoices l term filterType
  /\ (forall inv,
        In inv l ->
        InvoiceManagement.matchesFilter filterType inv = true ->
        toLowerCase (invoice_code inv) = toLowerCase term
        \/ toLowerCase (buyer_name inv) = toLowerCase term
        \/ toLowerCase (seller_name inv) = toLowerCase term ->
        In inv (InvoiceManagement.filteredInvoices l term' filterType))
  /\ InvoiceManagement.filteredInvoices l [] (js "all") = l
  /\ (forall inv,
        In inv (InvoiceManagement.filteredInvoices l term filterType) ->
        In inv l)
  /\ length (InvoiceManagement.filteredInvoices l term filterType) <= length l.
Proof.
  intros E. unfold InvoiceManagement.filteredInvoices.
  split; [|split; [|split; [|split]]].
  - apply filter_ext. intros inv.
    unfold InvoiceManagement.matchesSearch. rewrite E. reflexivity.
  - intros inv Hin Hf H. apply filter_In. split; [exact Hin|].
    rewrite Hf, andb_true_r.
    unfold InvoiceManagement.matchesSearch. rewrite E.
    destruct H as [H|[H|H]]; rewrite H, includes_self;
      rewrite ?orb_true_r; reflexivity.
  - apply filter_all. intros inv.
    unfold InvoiceManagement.matchesSearch, InvoiceManagement.matchesFilter.
    change (toLowerCase []) with (@nil N).
    rewrite includes_nil. reflexivity.
  - intros inv H. apply filter_In in H. apply H.
  - apply filter_length_le.
Qed.

(** X16: an instance, the seller EVN is found by the term [evn]. *)
Lemma search_ignores_case_witness :
  In (Samples.invoice (js "INV-1") (9 # 10))
    (InvoiceManagement.filteredInvoices [Samples.invoice (js "INV-1") (9 # 10)]
       (js "evn") (js "all")).
Proof.
  destruct (search_ignores_case [Samples.invoice (js "INV-1") (9 # 10)]
              (js "EVN") (js "evn") (js "all")) as (_ & F & _).
  - vm_compute. reflexivity.
  - apply F.
    + left. reflexivity.
    + vm_compute. reflexivity.
    + right. right. vm_compute. reflexivity.
Defined.

(** ** Selection *)

Lemma includesId_In (l : list nat) (id : nat) :
  includesId l id = true <-> In id l.
Proof.
  unfold includesId. rewrite existsb_exists. split.
  - intros (x & Hx & E). apply Nat.eqb_eq in E. subst. exact Hx.
  - intros H. exists id. split; [exact H | apply Nat.eqb_refl].
Qed.

Lemma includesId_app (l : list nat) (x id : nat) :
  includesId (l ++ [x]) id = includesId l id || (id =? x).
Proof. unfold includesId. rewrite existsb_app. simpl. rewrite orb_false_r. reflexivity. Qed.

Lemma includesId_remove (l : list nat) (x id : nat) :
  includesId (filter (fun i => negb (i =? x)) l) id
  = includesId l id && negb (id =? x).
Proof.
  unfold includesId. induction l as [|a l IH]; simpl; [reflexivity|].
  destruct (Nat.eqb_spec a x) as [->|Hax]; simpl.
  - rewrite IH. destruct (Nat.eqb_spec id x); simpl;
      [rewrite andb_false_r; reflexivity | reflexivity].
  - rewrite IH. destruct (Nat.eqb_spec id a) as [->|Hia]; simpl; [|reflexivity].
    destruct (Nat.eqb_spec a x); [contradiction | reflexivity].
Qed.

Lemma remove_absent (l : list nat) (x : nat) :
  includesId l x = false -> filter (fun i => negb (i =? x)) l = l.
Proof.
  unfold includesId. induction l as [|a l IH]; simpl; [reflexivity|].
  intros H. apply orb_false_iff in H. destruct H as [Ha Hl].
  rewrite Nat.eqb_sym, Ha. simpl. rewrite (IH Hl). reflexivity.
Qed.

(** X17: the box of a row toggles that row and no other: after a click
    the row is selected exactly when it was not, every other id is
    selected as before, a selection without repetition stays so, and two
    clicks on a row that was not selected give the selection back. *)
Theorem select_invoice_toggles (t : Table) (id : nat) :
  includesId (selectedInvoices (handleSelectInvoice id t)) id
  = negb (includesId (selectedInvoices t) id)
  /\ (forall other, other <> id ->
        includesId (selectedInvoices (handleSelectInvoice id t)) other
        = includesId (selectedInvoices t) other)
  /\ (NoDup (selectedInvoices t) ->
      NoDup (selectedInvoices (handleSelectInvoice id t)))
  /\ (includesId (selectedInvoices t) id = false ->
      selectedInvoices (handleSelectInvoice id (handleSelectInvoice id t))
      = selectedInvoices t)
  /\ filteredInvoices (handleSelectInvoice id t) = filteredInvoices t.
Proof.
  unfold handleSelectInvoice.
  destruct (includesId (selectedInvoices t) id) eqn:E; simpl.
  - split; [|split; [|split; [|split]]].
    + rewrite includesId_remove, E, Nat.eqb_refl. reflexivity.
    + intros other Hne. rewrite includesId_remove.
      destruct (Nat.eqb_spec other id); [contradiction|].
      apply andb_true_r.
    + intros Hn. apply NoDup_filter, Hn.
    + discriminate.
    + reflexivity.
  - split; [|split; [|split; [|split]]].
    + rewrite includesId_app, E, Nat.eqb_refl. reflexivity.
    + intros other Hne. rewrite includesId_app.
      destruct (Nat.eqb_spec other id); [contradiction|].
      apply orb_false_r.
    + intros Hn. apply NoDup_app; [exact Hn | constructor; [intros []|constructor] |].
      intros x Hx [<-|[]]. apply includesId_In in Hx. congruence.
    + intros _. rewrite includesId_app, E, Nat.eqb_refl. simpl.
      rewrite filter_app. simpl. rewrite Nat.eqb_refl. simpl.
      rewrite app_nil_r. apply remove_absent, E.
    + reflexivity.
Qed.

(** X17: an instance, a row ticked and unticked. *)
Lemma select_invoice_toggles_witness :
  selectedInvoices (handleSelectInvoice 1 (handleSelectInvoice 1 (Fixtures.table [])))
  = [].
Proof.
  destruct (select_invoice_toggles (Fixtures.table []) 1) as (_ & _ & _ & R & _).
  rewrite R; reflexivity.
Defined.

(** X18: the box in the header selects the rows that are shown, and
    clears the selection when as many ids are selected as rows are shown:
    from a selection of another size one click selects exactly the shown
    rows, checks every row and the header, and a second click clears it. *)
Theorem select_all_toggles (t : Table) :
  (length (selectedInvoices t) <> length (filteredInvoices t) ->
   selectedInvoices (handleSelectAll t) = map inv_id (filteredInvoices t)
   /\ (forall inv, In inv (filteredInvoices t) ->
         rowChecked (handleSelectAll t) inv = true)
   /\ allChecked (handleSelectAll t) = true
   /\ selectedInvoices (handleSelectAll (handleSelectAll t)) = [])
  /\ (length (selectedInvoices t) = length (filteredInvoices t) ->
      selectedInvoices (handleSelectAll t) = []).
Proof.
  unfold handleSelectAll. split; intros H.
  - apply Nat.eqb_neq in H. rewrite H.
    split; [reflexivity|]. split; [|split].
    + intros inv Hin. unfold rowChecked. simpl.
      apply includesId_In, in_map, Hin.
    + unfold allChecked, filteredInvoices. simpl. rewrite length_map.
      apply Nat.eqb_refl.
    + unfold filteredInvoices. simpl. rewrite length_map, Nat.eqb_refl.
      reflexivity.
  - apply Nat.eqb_eq in H. rewrite H. reflexivity.
Qed.

(** X18: an instance, the header box ticked twice on two rows. *)
Lemma select_all_toggles_witness :
  selectedInvoices (handleSelectAll (Fixtures.table [])) = [1; 1]
  /\ selectedInvoices (handleSelectAll (handleSelectAll (Fixtures.table []))) = [].
Proof.
  destruct (select_all_toggles (Fixtures.table [])) as [S _].
  destruct S as (A & _ & _ & B); [vm_compute; discriminate|].
  split; [rewrite A; vm_compute; reflexivity | exact B].
Defined.

(** ** Export *)

Lemma mapIndexed_nth {A B} (f : nat -> A -> B) (l : list A) (k i : nat) (x : A) :
  nth_error l i = Some x -> nth_error (mapIndexed f k l) i = Some (f (k + i) x).
Proof.
  revert k i. induction l as [|y l IH]; intros k [|i]; simpl; try discriminate.
  - intros [= ->]. rewrite Nat.add_0_r. reflexivity.
  - intros H. rewrite <- Nat.add_succ_comm. apply IH, H.
Qed.

Lemma mapIndexed_length {A B} (f : nat -> A -> B) (l : list A) (k : nat) :
  length (mapIndexed f k l) = length l.
Proof.
  revert k. induction l as [|y l IH]; intros k; simpl; [reflexivity|].
  rewrite IH. reflexivity.
Qed.

(** X19: the export follows the selection: with nothing selected every
    shown row is exported, otherwise exactly the shown rows whose id is
    selected; ids that are selected but not shown are ignored.  When that
    leaves nothing (also with rows on the screen) the user is told that
    there is no data and nothing is downloaded; otherwise one file named
    after the day is downloaded. *)
Theorem export_follows_selection (rt : Runtime) (today : jsstring) (t : Table) :
  (selectedInvoices t = [] -> exportData t = filteredInvoices t)
  /\ (selectedInvoices t <> [] ->
      forall inv,
        In inv (exportData t)
        <-> In inv (filteredInvoices t) /\ In (inv_id inv) (selectedInvoices t))
  /\ (exportData t = [] -> exportToExcel rt today t = NoData noDataAlert)
  /\ (exportData t <> [] ->
      exportToExcel rt today t
      = Download (js "invoices_" ++ today ++ js ".csv")
          (csvContent rt (exportData t)))
  /\ (selectedInvoices t <> [] ->
      (forall inv, In inv (filteredInvoices t) ->
         ~ In (inv_id inv) (selectedInvoices t)) ->
      exportToExcel rt today t = NoData noDataAlert).
Proof.
  assert (sel : selectedInvoices t <> [] ->
                exportData t
                = filter (fun inv => includesId (selectedInvoices t) (inv_id inv))
                    (filteredInvoices t)).
  { unfold exportData. destruct (selectedInvoices t); [congruence | reflexivity]. }
  assert (none : exportData t = [] -> exportToExcel rt today t = NoData noDataAlert).
  { unfold exportToExcel, noDataAlert. intros ->. reflexivity. }
  split; [|split; [|split; [|split]]].
  - unfold exportData. intros ->. reflexivity.
  - intros Hs inv. rewrite (sel Hs), filter_In, includesId_In. reflexivity.
  - exact none.
  - unfold exportToExcel. destruct (exportData t); [congruence | reflexivity].
  - intros Hs Hnone. apply none. rewrite (sel Hs).
    destruct (filter _ (filteredInvoices t)) as [|inv rest] eqn:E; [reflexivity|].
    assert (Hin : In inv (inv :: rest)) by (left; reflexivity).
    rewrite <- E in Hin. apply filter_In in Hin. destruct Hin as [Hin Hid].
    apply includesId_In in Hid. exfalso. exact (Hnone inv Hin Hid).
Qed.

(** X19: an instance, an export while the only ticked id is of a row
    that is not shown. *)
Lemma export_follows_selection_witness :
  exportToExcel Samples.runtime (js "2025-11-01") (Fixtures.table [99])
  = NoData noDataAlert.
Proof.
  destruct (export_follows_selection Samples.runtime (js "2025-11-01")
              (Fixtures.table [99])) as (_ & _ & _ & _ & E).
  apply E; [discriminate|].
  intros inv Hin [Hid|[]]. vm_compute in Hin.
  destruct Hin as [<-|[<-|[]]]; discriminate.
Defined.

Lemma splitAt_clean (sep : N) (a : jsstring) :
  ~ In sep a -> splitAt sep a = [a].
Proof.
  induction a as [|c a IH]; intros H; [reflexivity|].
  simpl. destruct (N.eqb_spec c sep) as [E|E].
  - exfalso. apply H. left. exact E.
  - rewrite IH; [reflexivity|]. intros Hin. apply H. right. exact Hin.
Qed.

Lemma splitAt_app (sep : N) (a b : jsstring) :
  ~ In sep a -> splitAt sep (a ++ sep :: b) = a :: splitAt sep b.
Proof.
  induction a as [|c a IH]; intros H.
  - simpl. rewrite N.eqb_refl. reflexivity.
  - simpl. destruct (N.eqb_spec c sep) as [E|E].
    + exfalso. apply H. left. exact E.
    + rewrite IH; [reflexivity|]. intros Hin. apply H. right. exact Hin.
Qed.

(** Parts without the separator are found again when the joined text is
    split. *)
Lemma splitAt_join (sep : N) (parts : list jsstring) :
  parts <> [] ->
  Forall (fun part => ~ In sep part) parts ->
  splitAt sep (join [sep] parts) = parts.
Proof.
  intros Hne H. revert Hne.
  induction H as [|x l Hx Hl IH]; intros Hne; [exfalso; apply Hne; reflexivity|].
  destruct l as [|y l'].
  - simpl. apply splitAt_clean, Hx.
  - change (join [sep] (x :: y :: l')) with (x ++ sep :: join [sep] (y :: l')).
    rewrite splitAt_app by exact Hx. rewrite IH by discriminate. reflexivity.
Qed.

Lemma join_clean (c : N) (sep : jsstring) (parts : list jsstring) :
  ~ In c sep ->
  Forall (fun part => ~ In c part) parts ->
  ~ In c (join sep parts).
Proof.
  intros Hs H. induction H as [|x l Hx Hl IH]; [intros []|].
  destruct l as [|y l']; [exact Hx|].
  change (join sep (x :: y :: l')) with (x ++ sep ++ join sep (y :: l')).
  intros Hin. apply in_app_or in Hin. destruct Hin as [Hin|Hin]; [exact (Hx Hin)|].
  apply in_app_or in Hin. destruct Hin as [Hin|Hin]; [exact (Hs Hin) | exact (IH Hin)].
Qed.

Lemma existsb_notIn (c : N) (l : jsstring) :
  existsb (N.eqb c) l = false -> ~ In c l.
Proof.
  intros H Hin.
  assert (E : existsb (N.eqb c) l = true).
  { apply existsb_exists. exists c. split; [exact Hin | apply N.eqb_refl]. }
  congruence.
Qed.

Lemma mapIndexed_Forall {A B} (P : B -> Prop) (f : nat -> A -> B)
    (l : list A) (k : nat) :
  (forall i x, nth_error l i = Some x -> P (f (k + i) x)) ->
  Forall P (mapIndexed f k l).
Proof.
  revert k. induction l as [|y l IH]; intros k H; simpl; constructor.
  - specialize (H 0 y eq_refl). rewrite Nat.add_0_r in H. exact H.
  - apply IH. intros i x Hi. specialize (H (S i) x Hi).
    rewrite <- Nat.add_succ_comm in H. exact H.
Qed.

(** X20: the file that is downloaded.  Cells are written between double
    quotes as they are, without escaping; provided no cell of the export
    holds a line feed, the lines of the file are one line of headers,
    which starts with the byte order mark, and one line for each exported
    invoice, in order: its twenty cells between double quotes, joined by
    commas, the first of which counts the invoices from one. *)
Theorem csv_download_lines (rt : Runtime) (today : jsstring) (t : Table) :
  exportData t <> [] ->
  (forall i inv cell,
     nth_error (exportData t) i = Some inv ->
     In cell (row rt i inv) ->
     ~ In lineFeed cell) ->
  exists content,
    exportToExcel rt today t
    = Download (js "invoices_" ++ today ++ js ".csv") content
    /\ length (splitAt lineFeed content) = S (length (exportData t))
    /\ (exists rest, hd [] (splitAt lineFeed content) = 65279%N :: rest)
    /\ (forall i inv,
          nth_error (exportData t) i = Some inv ->
          nth_error (splitAt lineFeed content) (S i)
          = Some (join (js ",") (map quoted (row rt i inv)))
          /\ length (row rt i inv) = 20
          /\ hd [] (row rt i inv) = digitsOfNat (i + 1)).
Proof.
  intros Hne Hclean.
  exists (csvContent rt (exportData t)).
  assert (L : splitAt lineFeed (csvContent rt (exportData t))
              = csvLines rt (exportData t)).
  { unfold csvContent. change (js "\n") with [lineFeed].
    apply splitAt_join; [unfold csvLines; discriminate|].
    unfold csvLines. constructor.
    - apply existsb_notIn. vm_compute. reflexivity.
    - apply Forall_map. apply mapIndexed_Forall. intros i inv Hi.
      apply join_clean; [apply existsb_notIn; vm_compute; reflexivity|].
      apply Forall_map. apply Forall_forall. intros cell Hc.
      unfold quoted. intros Hin.
      apply in_app_or in Hin. destruct Hin as [Hin|Hin];
        [revert Hin; apply existsb_notIn; vm_compute; reflexivity|].
      apply in_app_or in Hin. destruct Hin as [Hin|Hin];
        [exact (Hclean i inv cell Hi Hc Hin)|].
      revert Hin. apply existsb_notIn. vm_compute. reflexivity. }
  rewrite L. unfold csvLines.
  split; [|split; [|split]].
  - unfold exportToExcel. destruct (exportData t); [congruence | reflexivity].
  - simpl. rewrite length_map, mapIndexed_length. reflexivity.
  - simpl. eexists. reflexivity.
  - intros i inv H. simpl nth_error.
    rewrite nth_error_map, (mapIndexed_nth (row rt) (exportData t) 0 i inv H).
    repeat split.
Qed.

(** A check of the cells that can be computed. *)
Lemma cells_checked (rt : Runtime) (data : list Invoice) :
  forallb (forallb (fun cell => negb (existsb (N.eqb lineFeed) cell)))
    (mapIndexed (row rt) 0 data) = true ->
  forall i inv cell,
    nth_error data i = Some inv ->
    In cell (row rt i inv) ->
    ~ In lineFeed cell.
Proof.
  intros H i inv cell Hi Hc.
  rewrite forallb_forall in H.
  assert (R : In (row rt i inv) (mapIndexed (row rt) 0 data)).
  { apply nth_error_In with (n := i). apply (mapIndexed_nth (row rt) data 0 i inv Hi). }
  specialize (H _ R). rewrite forallb_forall in H. specialize (H _ Hc).
  apply negb_true_iff in H. apply existsb_notIn, H.
Qed.

(** X20: an instance, the export of the two sample invoices. *)
Lemma csv_download_lines_witness :
  exists content,
    exportToExcel Samples.runtime (js "2025-11-01") (Fixtures.table [])
    = Download (js "invoices_2025-11-01.csv") content
    /\ length (splitAt lineFeed content) = 3.
Proof.
  destruct (csv_download_lines Samples.runtime (js "2025-11-01") (Fixtures.table []))
    as (content & D & L & _).
  - vm_compute. discriminate.
  - apply cells_checked. vm_compute. reflexivity.
  - exists content. split; [rewrite D; vm_compute; reflexivity | exact L].
Defined.

(** A cell that holds a line feed is written as it is and breaks its
    line in two. *)
Example csv_cell_with_line_feed :
  length (splitAt lineFeed
            (csvContent Samples.runtime [Samples.invoice (js "INV\n1") (9 # 10)]))
  = 3.
Proof. vm_compute. reflexivity. Qed.

(** ** Summary *)

Lemma inject_S (n : nat) :
  (inject_Z (Z.of_nat (S n)) == inject_Z (Z.of_nat n) + 1)%Q.
Proof.
  rewrite Nat2Z.inj_succ. unfold Z.succ. rewrite inject_Z_plus. reflexivity.
Qed.

Lemma confidenceSum_bounds (l : list Invoice) (a : Q) :
  (forall inv, In inv l ->
     exists q, confidence inv = Num q /\ (0 <= q <= 1)%Q) ->
  exists s,
    fold_left (fun sum inv => num_add sum (confidence inv)) l (Num a) = Num s
    /\ (a <= s <= a + inject_Z (Z.of_nat (length l)))%Q.
Proof.
  revert a. induction l as [|inv l IH]; intros a H.
  - exists a. split; [reflexivity|]. cbn [length].
    change (inject_Z (Z.of_nat 0)) with 0%Q. split; lra.
  - destruct (H inv (or_introl eq_refl)) as (q & Hq & Hlo & Hhi).
    cbn [fold_left]. rewrite Hq. cbn [num_add].
    destruct (IH (a + q)%Q) as (s & Hs & Hlo' & Hhi').
    { intros x Hx. apply H. right. exact Hx. }
    exists s. split; [exact Hs|].
    pose proof (inject_S (length l)) as E. cbn [length]. split; lra.
Qed.

(** X21: when every shown invoice has its confidence in [0,1], the
    average confidence of the summary is a percentage in [0,100]; without
    rows the summary is not rendered, so nothing is divided by zero. *)
Theorem average_confidence_bounded (t : Table) :
  (forall inv, In inv (filteredInvoices t) ->
     exists q, confidence inv = Num q /\ (0 <= q <= 1)%Q) ->
  (filteredInvoices t = [] -> averageConfidence t = None)
  /\ (filteredInvoices t <> [] ->
      exists p, averageConfidence t = Some (Num p) /\ (0 <= p <= 100)%Q).
Proof.
  intros H. unfold averageConfidence. split.
  - intros ->. reflexivity.
  - intros Hne.
    destruct (confidenceSum_bounds (filteredInvoices t) 0 H) as (s & Hs & Hlo & Hhi).
    unfold confidenceSum. rewrite Hs.
    destruct (filteredInvoices t) as [|inv rest] eqn:E; [congruence|].
    set (n := inject_Z (Z.of_nat (length (inv :: rest)))) in *.
    assert (Hn : (0 < n)%Q).
    { subst n. pose proof (inject_S (length rest)) as ES. cbn [length].
      assert (0 <= inject_Z (Z.of_nat (length rest)))%Q.
      { change 0%Q with (inject_Z 0). rewrite <- Zle_Qle. apply Nat2Z.is_nonneg. }
      lra. }
    exists (s / n * 100)%Q. split; [reflexivity|].
    assert (H0 : (0 <= s / n)%Q).
    { apply Qle_shift_div_l; [exact Hn | lra]. }
    assert (H1 : (s / n <= 1)%Q).
    { apply Qle_shift_div_r; [exact Hn | lra]. }
    split; lra.
Qed.

(** X21: an instance, the two sample invoices at 90% and 50%. *)
Lemma average_confidence_bounded_witness :
  exists p,
    averageConfidence
      {| invoices := [Samples.invoice (js "INV-1") (9 # 10);
                      Samples.invoice (js "INV-2") (1 # 2)];
         loading := false; searchTerm := []; filterType := js "all";
         selectedInvoices := []; viewingImage := None |}
    = Some (Num p) /\ (0 <= p <= 100)%Q.
Proof.
  apply (average_confidence_bounded
    {| invoices := [Samples.invoice (js "INV-1") (9 # 10);
                    Samples.invoice (js "INV-2") (1 # 2)];
       loading := false; searchTerm := []; filterType := js "all";
       selectedInvoices := []; viewingImage := None |}).
  - intros inv Hin. vm_compute in Hin.
    destruct Hin as [<-|[<-|[]]]; eexists; (split; [reflexivity|]);
      split; discriminate.
  - vm_compute. discriminate.
Defined.

(** ** Pictures and icons *)

(** X22: the picture of an invoice is always asked for under
    [/uploads/], whether the stored path carries the folder or not. *)
Theorem image_under_uploads (viewing : jsstring) :
  startsWith (imageSrc viewing) (js "/uploads/") = true.
Proof.
  unfold imageSrc. destruct (startsWith viewing (js "uploads/")) eqn:E.
  - destruct (startsWith_split _ _ E) as [rest ->].
    rewrite app_assoc.
    change (js "/" ++ js "uploads/") with (js "/uploads/").
    apply startsWith_app.
  - apply startsWith_app.
Qed.

(** X23: the chat and the table give every invoice type the same icon,
    though they test the types in a different order. *)
Theorem type_icons_agree (type : jsstring) :
  InvoiceManagement.getTypeIcon type = typeIcon type.
Proof.
  unfold InvoiceManagement.getTypeIcon, typeIcon.
  destruct (streq type (js "electricity")) eqn:E,
           (streq type (js "momo_payment")) eqn:M; try reflexivity.
  apply streq_eq in E. subst. vm_compute in M. discriminate.
Qed.

(** ** Loading *)

(** X24: when loading the invoices fails (the request is rejected, the
    answer is not ok, or its body is not JSON), the spinner stops and the
    table is emptied, while the search, the filter and the selection are
    kept: the rows are gone, an export then reports that there is no
    data, and no summary is rendered. *)
Theorem failed_load_empties_table
  (rt : Runtime) (today : jsstring) (answer : Fetched InvoicesBody) (t : Table) :
  (answer = Rejected
   \/ (exists body, answer = Response false body)
   \/ answer = Response true None) ->
  invoices (fetchInvoices answer t) = []
  /\ loading (fetchInvoices answer t) = false
  /\ selectedInvoices (fetchInvoices answer t) = selectedInvoices t
  /\ searchTerm (fetchInvoices answer t) = searchTerm t
  /\ filterType (fetchInvoices answer t) = filterType t
  /\ exportToExcel rt today (fetchInvoices answer t) = NoData noDataAlert
  /\ averageConfidence (fetchInvoices answer t) = None.
Proof.
  intros [ -> | [ [body -> ] | -> ] ].
  all: unfold exportToExcel, exportData, averageConfidence, filteredInvoices,
    noDataAlert; cbn [fetchInvoices setInvoices setLoading invoices loading
    selectedInvoices searchTerm filterType filter confidenceSum];
    destruct (selectedInvoices t); repeat split.
Qed.

(** X24: an instance, the first load of the page with the server down. *)
Lemma failed_load_empties_table_witness :
  loading (fetchInvoices Rejected initialTable) = false
  /\ exportToExcel Samples.runtime (js "2025-11-01") (fetchInvoices Rejected initialTable)
     = NoData noDataAlert.
Proof.
  destruct (failed_load_empties_table Samples.runtime (js "2025-11-01")
              Rejected initialTable) as (_ & L & _ & _ & _ & E & _);
    [left; reflexivity|].
  split; [exact L | exact E].
Defined.

(** ** The API client *)

Lemma present_slot (o : option jsstring) :
  present o = true -> o = Some (slot o) /\ slot o <> [].
Proof.
  destruct o as [[|c s]|]; simpl; try discriminate.
  intros _. split; [reflexivity | discriminate].
Qed.

(** X25: only the first 72 code units of a password are sent: two
    passwords that agree there sign in, and register, in exactly the same
    way, whatever the server does. *)
Theorem long_passwords_collide
  (baseURL : jsstring) (User : Type)
  (server : Client.Request -> Client.Answer (Client.AuthResponse User))
  (mail : jsstring) (name : option jsstring) (p p' : jsstring)
  (s : Client.Store) :
  firstn 72 p = firstn 72 p' ->
  Client.login baseURL server
    {| Client.email := mail; Client.password := p |} s
  = Client.login baseURL server
      {| Client.email := mail; Client.password := p' |} s
  /\ Client.register baseURL server
       {| Client.reg_email := mail; Client.reg_password := p;
          Client.reg_name := name |} s
     = Client.register baseURL server
         {| Client.reg_email := mail; Client.reg_password := p';
            Client.reg_name := name |} s.
Proof.
  intros H. unfold Client.login, Client.register, substring0.
  cbn [Client.email Client.password Client.reg_email Client.reg_password
       Client.reg_name].
  rewrite H. split; reflexivity.
Qed.

(** X25: an instance, two passwords of 73 letters that differ in the
    last one, against a server that accepts nobody. *)
Lemma long_passwords_collide_witness :
  Client.login (js "http://localhost:8000") (User := nat)
    (fun _ => Client.Refused 401 None)
    {| Client.email := js "test@example.com";
       Client.password := repeat 97%N 72 ++ js "x" |} Client.signedOut
  = Client.login (js "http://localhost:8000") (User := nat)
      (fun _ => Client.Refused 401 None)
      {| Client.email := js "test@example.com";
         Client.password := repeat 97%N 72 ++ js "y" |} Client.signedOut.
Proof.
  apply (long_passwords_collide (js "http://localhost:8000") nat
           (fun _ => Client.Refused 401 None) (js "test@example.com") None
           (repeat 97%N 72 ++ js "x") (repeat 97%N 72 ++ js "y")
           Client.signedOut).
  vm_compute. reflexivity.
Defined.

(** X26: once signed out, or with an empty token, the profile calls
    raise their own error and send nothing, and the calls that work
    without a token send their request without an [Authorization]
    header. *)
Theorem signed_out_sends_no_token
  (baseURL : jsstring) (User Stats Reply : Type)
  (profile : Client.Request -> Client.Answer User)
  (stats : Client.Request -> Client.Answer Stats)
  (chat : Client.Request -> Client.Answer Reply)
  (name mail message : jsstring) (s : Client.Store) :
  Client.sent (Client.logout s) = Client.sent s
  /\ (forall s',
        s' = Client.logout s \/ Client.token s' = Some [] ->
        Client.getCurrentUser baseURL profile s' = (Throw Client.noToken, s')
        /\ Client.updateProfile baseURL profile name mail s'
           = (Throw Client.noToken, s')
        /\ (exists q,
              Client.sent (snd (Client.getInvoiceStats baseURL stats s'))
              = Client.sent s' ++ [q]
              /\ authorized q = false)
        /\ (exists q,
              Client.sent (snd (Client.sendChatMessage baseURL chat message s'))
              = Client.sent s' ++ [q]
              /\ authorized q = false)).
Proof.
  split; [reflexivity|].
  intros s' Hs'.
  assert (P : present (Client.token s') = false).
  { destruct Hs' as [ -> | -> ]; reflexivity. }
  unfold Client.getCurrentUser, Client.updateProfile, Client.getInvoiceStats,
    Client.sendChatMessage, Client.request, Client.authorization.
  rewrite P. cbn [negb snd Client.record Client.sent].
  repeat split; eexists; (split; [reflexivity|]); vm_compute; reflexivity.
Qed.

(** X26: an instance, the profile asked for after signing out. *)
Lemma signed_out_sends_no_token_witness :
  Client.getCurrentUser (js "http://localhost:8000")
    (fun _ => Client.Accepted (Some 7))
    (Client.logout {| Client.token := Some (js "abc"); Client.sent := [] |})
  = (Throw Client.noToken, Client.signedOut).
Proof.
  destruct (signed_out_sends_no_token (js "http://localhost:8000") nat nat nat
              (fun _ => Client.Accepted (Some 7))
              (fun _ => Client.Accepted (Some 0))
              (fun _ => Client.Accepted (Some 0))
              [] [] []
              {| Client.token := Some (js "abc"); Client.sent := [] |})
    as [_ H].
  destruct (H (Client.logout {| Client.token := Some (js "abc"); Client.sent := [] |}))
    as [G _]; [left; reflexivity | exact G].
Defined.


(** X27: after a sign-in that returned a non-empty token, asking for the
    profile sends one request, to [/api/auth/me] under the base URL, with
    no method and no body, whose headers are the JSON content type and
    that token as bearer; the call gives what the server answers to
    it. *)
Theorem login_then_profile
  (baseURL : jsstring) (User : Type)
  (auth : Client.Request -> Client.Answer (Client.AuthResponse User))
  (profile : Client.Request -> Client.Answer User)
  (c : Client.LoginCredentials) (s : Client.Store)
  (signed : Client.Signed User) (t : jsstring) :
  fst (Client.login baseURL auth c s) = Ok signed ->
  Client.signed_token signed = Some t ->
  truthy t = true ->
  Client.getCurrentUser baseURL profile (snd (Client.login baseURL auth c s))
  = (Client.outcome
       (profile
          {| Client.url := baseURL ++ js "/api/auth/me";
             Client.init :=
               {| Client.method := None;
                  Client.headers :=
                    [Client.jsonHeader; (js "Authorization", js "Bearer " ++ t)];
                  Client.body := None |} |}),
     Client.record
       {| Client.url := baseURL ++ js "/api/auth/me";
          Client.init :=
            {| Client.method := None;
               Client.headers :=
                 [Client.jsonHeader; (js "Authorization", js "Bearer " ++ t)];
               Client.body := None |} |}
       (snd (Client.login baseURL auth c s))).
Proof.
  unfold Client.login, Client.request.
  destruct (Client.outcome (auth _)) as [r|e]; cbn [fst snd]; [|discriminate].
  intros [= <-]. cbn [Client.signed_token]. intros Ht Htr.
  rewrite Ht. cbn [present]. rewrite Htr.
  unfold Client.getCurrentUser, Client.request, Client.bearer.
  cbn [Client.setItem Client.token Client.record present slot].
  rewrite Htr. reflexivity.
Qed.

(** X27: an instance, a server that accepts the sign-in with the token
    [abc] and knows user 7. *)
Lemma login_then_profile_witness :
  fst (Client.getCurrentUser (js "http://localhost:8000")
         (fun q => if authorized q then Client.Accepted (Some 7)
                   else Client.Refused 401 None)
         (snd (Client.login (js "http://localhost:8000")
                 (fun _ => Client.Accepted
                             (Some {| Client.access_token := Some (js "abc");
                                      Client.token_type := Some (js "bearer");
                                      Client.response_user := Some 7 |}))
                 {| Client.email := js "test@example.com";
                    Client.password := js "password123" |}
                 Client.signedOut)))
  = Ok 7.
Proof.
  rewrite (login_then_profile (js "http://localhost:8000") nat
             (fun _ => Client.Accepted
                         (Some {| Client.access_token := Some (js "abc");
                                  Client.token_type := Some (js "bearer");
                                  Client.response_user := Some 7 |}))
             (fun q => if authorized q then Client.Accepted (Some 7)
                       else Client.Refused 401 None)
             {| Client.email := js "test@example.com";
                Client.password := js "password123" |}
             Client.signedOut
             {| Client.user := Some 7; Client.signed_token := Some (js "abc") |}
             (js "abc") eq_refl eq_refl eq_refl).
  vm_compute. reflexivity.
Defined.

(** X28: which token is kept after a sign-in.  A sign-in or a
    registration that fails leaves the stored token alone, and so does a
    sign-in whose answer has no token or an empty one.  A registration
    that succeeds always stores what it got: the text [undefined] when
    the answer has no token, which the profile calls then take for a
    token. *)
Theorem token_after_sign_in
  (baseURL : jsstring) (User : Type)
  (auth : Client.Request -> Client.Answer (Client.AuthResponse User))
  (c : Client.LoginCredentials) (d : Client.RegisterData) (s : Client.Store) :
  (forall e, fst (Client.login baseURL auth c s) = Throw e ->
     Client.token (snd (Client.login baseURL auth c s)) = Client.token s)
  /\ (forall r, fst (Client.login baseURL auth c s) = Ok r ->
        Client.token (snd (Client.login baseURL auth c s))
        = if present (Client.signed_token r) then Client.signed_token r
          else Client.token s)
  /\ (forall e, fst (Client.register baseURL auth d s) = Throw e ->
        Client.token (snd (Client.register baseURL auth d s)) = Client.token s)
  /\ (forall r, fst (Client.register baseURL auth d s) = Ok r ->
        Client.token (snd (Client.register baseURL auth d s))
        = Some (slot (Client.signed_token r))
        /\ (Client.signed_token r = None ->
            present (Client.token (snd (Client.register baseURL auth d s)))
            = true)).
Proof.
  unfold Client.login, Client.register, Client.request.
  split; [|split; [|split]].
  - intros e. destruct (Client.outcome (auth _)) as [a|x]; cbn [fst snd];
      [discriminate | reflexivity].
  - intros r. destruct (Client.outcome (auth _)) as [a|x]; cbn [fst snd];
      [|discriminate].
    intros [= <-]. cbn [Client.signed_token].
    destruct (present (Client.access_token a)) eqn:P; [|reflexivity].
    cbn [Client.setItem Client.token]. symmetry. apply present_slot, P.
  - intros e. destruct (Client.outcome (auth _)) as [a|x]; cbn [fst snd];
      [discriminate | reflexivity].
  - intros r. destruct (Client.outcome (auth _)) as [a|x]; cbn [fst snd];
      [|discriminate].
    intros [= <-]. cbn [Client.signed_token Client.setItem Client.token].
    split; [reflexivity|]. intros ->. reflexivity.
Qed.

(** X28: an instance, a registration answered without a token. *)
Lemma token_after_sign_in_witness :
  Client.token
    (snd (Client.register (js "http://localhost:8000") (User := nat)
            (fun _ => Client.Accepted
                        (Some {| Client.access_token := None;
                                 Client.token_type := None;
                                 Client.response_user := Some 7 |}))
            {| Client.reg_email := js "test@example.com";
               Client.reg_password := js "password123";
               Client.reg_name := None |}
            Client.signedOut))
  = Some (js "undefined").
Proof.
  destruct (token_after_sign_in (js "http://localhost:8000") nat
              (fun _ => Client.Accepted
                          (Some {| Client.access_token := None;
                                   Client.token_type := None;
                                   Client.response_user := Some 7 |}))
              {| Client.email := js "test@example.com";
                 Client.password := js "password123" |}
              {| Client.reg_email := js "test@example.com";
                 Client.reg_password := js "password123";
                 Client.reg_name := None |}
              Client.signedOut) as (_ & _ & _ & R).
  destruct (R {| Client.user := Some 7; Client.signed_token := None |} eq_refl)
    as [T _].
  rewrite T. reflexivity.
Defined.

(** X29: what a request gives.  One request is sent, to the endpoint
    under the base URL; its first header is the content type, which is
    JSON unless the options give another, and the token is not touched.
    The call returns a result exactly when the server accepts the
    request with a JSON body, and that body is the result.  A timeout
    raises its own error, and a refusal always raises one: the detail of
    its body when that is a string that is not empty, and a type error
    when its body is [null]. *)
Theorem request_outcomes
  (baseURL : jsstring) (T : Type)
  (server : Client.Request -> Client.Answer T)
  (endpoint : jsstring) (options : Client.Options) (s : Client.Store) :
  exists q,
    Client.url q = baseURL ++ endpoint
    /\ (exists value rest,
          Client.headers (Client.init q) = (js "Content-Type", value) :: rest
          /\ (find Client.isContentType (Client.headers options) = None ->
              value = js "application/json" /\ rest = Client.headers options))
    /\ Client.sent (snd (Client.request baseURL server endpoint options s))
       = Client.sent s ++ [q]
    /\ Client.token (snd (Client.request baseURL server endpoint options s))
       = Client.token s
    /\ (forall result,
          fst (Client.request baseURL server endpoint options s) = Ok result
          <-> server q = Client.Accepted (Some result))
    /\ (server q = Client.Aborted ->
        fst (Client.request baseURL server endpoint options s)
        = Throw (Error (js "Request timeout")))
    /\ (forall status json,
          server q = Client.Refused status json ->
          exists e,
            fst (Client.request baseURL server endpoint options s) = Throw e)
    /\ (forall status detail,
          server q
          = Client.Refused status
              (Some (Client.JsonValue (Client.DetailText detail))) ->
          truthy detail = true ->
          fst (Client.request baseURL server endpoint options s)
          = Throw (Error detail))
    /\ (forall status,
          server q = Client.Refused status (Some Client.JsonNull) ->
          fst (Client.request baseURL server endpoint options s)
          = Throw TypeError).
Proof.
  set (q := {| Client.url := baseURL ++ endpoint;
               Client.init :=
                 {| Client.method := Client.method options;
                    Client.headers := Client.mergeHeaders (Client.headers options);
                    Client.body := Client.body options |} |}).
  exists q.
  change (Client.request baseURL server endpoint options s)
    with (Client.outcome (server q), Client.record q s).
  cbn [fst snd Client.record Client.sent Client.token].
  split; [reflexivity|]. split.
  { cbn [q Client.init Client.headers]. unfold Client.mergeHeaders.
    destruct (find Client.isContentType (Client.headers options)) as [h|].
    - eexists _, _. split; [reflexivity | discriminate].
    - exists (js "application/json"), (Client.headers options).
      split; [reflexivity | intros _; split; reflexivity]. }
  split; [reflexivity|]. split; [reflexivity|].
  split; [|split; [|split; [|split]]].
  - intros result.
    destruct (server q) as [|e|status [[|[|text|shown]]|]|[r|]];
      cbn [Client.outcome]; try (split; discriminate).
    + destruct (truthy text); split; discriminate.
    + split; intros [= ->]; reflexivity.
  - intros ->. reflexivity.
  - intros status json ->. cbn [Client.outcome].
    destruct json as [[|[|text|shown]]|]; try (eexists; reflexivity).
    destruct (truthy text); eexists; reflexivity.
  - intros status detail -> Ht. cbn [Client.outcome]. rewrite Ht. reflexivity.
  - intros status ->. reflexivity.
Qed.

(** X29: an instance, a refusal whose body carries the reason. *)
Lemma request_outcomes_witness :
  fst (Client.request (js "http://localhost:8000") (T := nat)
         (fun _ =>
            Client.Refused 401
              (Some (Client.JsonValue
                       (Client.DetailText (js "Incorrect email or password")))))
         (js "/api/auth/login")
         {| Client.method := Some Client.POST; Client.headers := [];
            Client.body := None |}
         Client.signedOut)
  = Throw (Error (js "Incorrect email or password")).
Proof.
  destruct (request_outcomes (js "http://localhost:8000") nat
              (fun _ =>
                 Client.Refused 401
                   (Some (Client.JsonValue
                            (Client.DetailText (js "Incorrect email or password")))))
              (js "/api/auth/login")
              {| Client.method := Some Client.POST; Client.headers := [];
                 Client.body := None |}
              Client.signedOut)
    as (q & _ & _ & _ & _ & _ & _ & _ & D & _).
  exact (D 401 (js "Incorrect email or password") eq_refl eq_refl).
Defined.
